(** * virtualfs: a metadata-indexed content cache with tombstones

    Shallow embedding of the rclone [virtualfs] backend.  The repository
    holds two variants of the backend: the one that compares before it
    writes and wraps directory materialisation in a transaction (module
    [VirtualFS] below), and the earlier one under
    [backend/virtualfs/virtualfs.go] (module [BackendVirtualfs]).

    The SQLite table [files] is a finite map from [remote] to a row, the
    content tree is a finite map from cleaned paths to nodes, and every
    method is a function in a state-and-error monad over both.  What the
    Go code takes from its libraries ([path], [strings], [os], [io],
    [time], the SQL engine's LIKE, the MD5 hasher) is modelled after the
    libraries' documented behaviour on a Unix host. *)

From Stdlib Require Import ZArith List Bool Ascii String Lia.
From stdpp Require Import base gmap strings list fin_maps.

Local Open Scope string_scope.
Local Open Scope Z_scope.

(** ** Strings *)

(** [strings.Split(s, "/")]. *)
Fixpoint strings_Split (s : string) : list string :=
  match s with
  | EmptyString => [EmptyString]
  | String c s' =>
      if Ascii.eqb c "/" then EmptyString :: strings_Split s'
      else match strings_Split s' with
           | h :: t => String c h :: t
           | [] => [String c EmptyString]
           end
  end.

(** [strings.Join(elems, "/")]. *)
Fixpoint strings_Join (l : list string) : string :=
  match l with
  | [] => ""
  | [x] => x
  | x :: rest => x +:+ "/" +:+ strings_Join rest
  end.

(** [strings.Contains(s, "/")]. *)
Fixpoint has_slash (s : string) : bool :=
  match s with
  | EmptyString => false
  | String c s' => Ascii.eqb c "/" || has_slash s'
  end.

(** ** Package [path] *)

Module path.

(** One step of [Clean] on the stack of elements kept so far (deepest
    first): empty and [.] elements are dropped, [..] removes the element
    before it, is dropped at the root, and is kept at the start of a
    relative path. *)
Definition clean_step (rooted : bool) (stack : list string) (e : string)
  : list string :=
  if decide (e = "") then stack
  else if decide (e = ".") then stack
  else if decide (e = "..") then
    match stack with
    | top :: below =>
        if decide (top = "..") then e :: stack else below
    | [] => if rooted then [] else [e]
    end
  else e :: stack.

(** [path.Clean]: the shortest path equivalent to [p] by lexical
    processing. *)
Definition Clean (p : string) : string :=
  match p with
  | EmptyString => "."
  | String c _ =>
      let rooted := Ascii.eqb c "/" in
      let stack := fold_left (clean_step rooted) (strings_Split p) [] in
      let body := strings_Join (rev stack) in
      if rooted then "/" +:+ body
      else if decide (body = "") then "." else body
  end.

(** [path.Split]: the part up to and including the final slash, and the
    rest. *)
Fixpoint Split (p : string) : string * string :=
  match p with
  | EmptyString => (EmptyString, EmptyString)
  | String c p' =>
      let (d, f) := Split p' in
      if Ascii.eqb c "/" then (String c d, f)
      else if decide (d = "") then (EmptyString, String c f)
      else (String c d, f)
  end.

(** [path.Dir]. *)
Definition Dir (p : string) : string := Clean (fst (Split p)).

(** The buffer [path.Join] builds before it cleans it. *)
Fixpoint join_buf (buf : string) (elem : list string) : string :=
  match elem with
  | [] => buf
  | e :: rest =>
      if decide (buf = "") then join_buf e rest
      else join_buf (buf +:+ "/" +:+ e) rest
  end.

(** [path.Join]. *)
Definition Join (elem : list string) : string :=
  let buf := join_buf "" elem in
  if decide (buf = "") then "" else Clean buf.

End path.

(** Package [path/filepath] on a Unix host, where [os.PathSeparator] is
    the slash. *)
Module filepath.

Definition Dir (p : string) : string := path.Dir p.

Definition Join (elem : list string) : string := path.Join elem.

End filepath.

(** ** The SQL engine's LIKE

    [%] matches any run of characters, [_] any one character, and any
    other character matches itself without regard to the case of ASCII
    letters; no escape character is in force.  The matcher below goes
    byte by byte, which is the engine's character by character on text
    of ASCII characters other than NUL; where a statement depends on
    what matches, it is made for such text. *)

Definition ascii_lower (c : ascii) : ascii :=
  let n := nat_of_ascii c in
  if ((65 <=? n) && (n <=? 90))%nat then ascii_of_nat (n + 32) else c.

Fixpoint sql_like (pat : string) : string -> bool :=
  match pat with
  | EmptyString => fun s => bool_decide (s = "")
  | String c pat' =>
      if Ascii.eqb c "%" then
        fix star (s : string) : bool :=
          sql_like pat' s
          || match s with
             | EmptyString => false
             | String _ s' => star s'
             end
      else if Ascii.eqb c "_" then
        fun s => match s with
                 | EmptyString => false
                 | String _ s' => sql_like pat' s'
                 end
      else
        fun s => match s with
                 | EmptyString => false
                 | String d s' =>
                     Ascii.eqb (ascii_lower c) (ascii_lower d) && sql_like pat' s'
                 end
  end.

(** ** Errors, rows, the content tree and the state *)

Inductive errno := ENOENT | ENOTDIR | EISDIR | ENOTEMPTY.

Inductive error :=
| ErrorObjectNotFound                       (* fs.ErrorObjectNotFound *)
| ErrorDirNotFound                          (* fs.ErrorDirNotFound *)
| PathError (op : string) (e : errno)       (* what package os returns *)
| ErrSQL                                    (* a failure of database/sql *)
| ErrRead (msg : string)                    (* an error of the reader [in] *)
| ErrWrite                                  (* an error of [outFile.Write] *)
| ErrorString (msg : string)                (* fmt.Errorf(msg) *)
| Wrapped (msg : string) (e : error).       (* fmt.Errorf(msg + ": %w", e) *)

Inductive result (A : Type) :=
| Ok (a : A)
| Err (e : error).
Arguments Ok {A} a.
Arguments Err {A} e.

(** [os.IsNotExist]. *)
Definition IsNotExist (e : error) : bool :=
  match e with
  | PathError _ ENOENT => true
  | _ => false
  end.

(** A row of the table [files]; the primary key [remote] is the key of
    the map.  [mod_time] holds the RFC 3339 text, kept as the whole
    second it denotes. *)
Record Row := {
  col_size : Z;
  col_mod_time : Z;
  col_has_hash : bool;
  col_hash : string;
  col_deleted : bool;
  col_is_dir : bool
}.

Inductive Node :=
| File (content : list Byte.byte)
| Directory.

(** The world a method runs in: the table, the content tree, the time
    [time.Now] reads, and what the environment will do to the next SQL
    statements ([true]: the statement fails) and to the next writes to a
    content file ([Some k]: the write stops after [k] bytes with an
    error).  The table is kept in the database file, which [NewFs]
    places in the root directory: the table stands for what that file
    holds as long as no call creates, writes or removes a content file
    at the path of the database file, and statements about the table
    are made for such calls. *)
Record State := {
  files : gmap string Row;
  disk : gmap string Node;
  clock : Z;
  dbFaults : list bool;
  wrFaults : list (option nat)
}.

Definition set_files (t : gmap string Row) (st : State) : State :=
  {| files := t; disk := disk st; clock := clock st;
     dbFaults := dbFaults st; wrFaults := wrFaults st |}.

Definition set_disk (d : gmap string Node) (st : State) : State :=
  {| files := files st; disk := d; clock := clock st;
     dbFaults := dbFaults st; wrFaults := wrFaults st |}.

Definition set_dbFaults (l : list bool) (st : State) : State :=
  {| files := files st; disk := disk st; clock := clock st;
     dbFaults := l; wrFaults := wrFaults st |}.

Definition set_wrFaults (l : list (option nat)) (st : State) : State :=
  {| files := files st; disk := disk st; clock := clock st;
     dbFaults := dbFaults st; wrFaults := l |}.

(** ** The monad of methods: state passing, an error ends the method *)

Definition M (A : Type) : Type := State -> result A * State.

#[global] Instance M_ret : MRet M := fun A a st => (Ok a, st).

#[global] Instance M_bind : MBind M := fun A B k m st =>
  match m st with
  | (Ok a, st') => k a st'
  | (Err e, st') => (Err e, st')
  end.

Definition fail {A} (e : error) : M A := fun st => (Err e, st).

(** [if err != nil { return fmt.Errorf(msg + ": %w", err) }]. *)
Definition wrap {A} (msg : string) (m : M A) : M A := fun st =>
  match m st with
  | (Ok a, st') => (Ok a, st')
  | (Err e, st') => (Err (Wrapped msg e), st')
  end.

Definition get_files : M (gmap string Row) := fun st => (Ok (files st), st).
Definition put_files (t : gmap string Row) : M unit := fun st => (Ok tt, set_files t st).
Definition get_disk : M (gmap string Node) := fun st => (Ok (disk st), st).
Definition put_disk (d : gmap string Node) : M unit := fun st => (Ok tt, set_disk d st).

(** ** Package [time] *)

Definition second : Z := 1000000000.

(** [time.Now()], in nanoseconds since the epoch. *)
Definition time_Now : M Z := fun st => (Ok (clock st), st).

(** [t.Format(time.RFC3339)]: the layout has no fractional seconds, so
    the text denotes the whole second at or before [t].  (Zone offsets
    are taken to be whole minutes and years to lie in 0..9999, where
    the text denotes that second exactly and [time.Parse] reads it
    back; a statement about a time that is read back is made for times
    in that range.) *)
Definition Format_RFC3339 (t : Z) : Z := t / second.

(** [time.Parse(time.RFC3339, s)]. *)
Definition Parse_RFC3339 (s : Z) : Z := s * second.

(** ** Package [database/sql] *)

(** Every statement first meets the environment. *)
Definition sql_attempt : M unit := fun st =>
  let st' := set_dbFaults (tl (dbFaults st)) st in
  if hd false (dbFaults st) then (Err ErrSQL, st') else (Ok tt, st').

(** [db.Exec] of a statement that changes the table by [stmt]. *)
Definition db_Exec (stmt : gmap string Row -> gmap string Row) : M unit :=
  sql_attempt ;; t ← get_files; put_files (stmt t).

(** [db.QueryRow(...).Scan] or [db.Query] of a query that reads [q]. *)
Definition db_Query {A} (q : gmap string Row -> A) : M A :=
  sql_attempt ;; t ← get_files; mret (q t).

(** [INSERT OR REPLACE INTO files]. *)
Definition insert_or_replace (remote : string) (r : Row)
  (t : gmap string Row) : gmap string Row := <[remote := r]> t.

(** [INSERT OR IGNORE INTO files]. *)
Definition insert_or_ignore (remote : string) (r : Row)
  (t : gmap string Row) : gmap string Row :=
  match t !! remote with
  | Some _ => t
  | None => <[remote := r]> t
  end.

(** [UPDATE files SET ... WHERE remote = ?]. *)
Definition update_where_remote (remote : string) (f : Row -> Row)
  (t : gmap string Row) : gmap string Row :=
  match t !! remote with
  | Some r => <[remote := f r]> t
  | None => t
  end.

(** ** Package [os] on the content tree *)

Module os.

Definition is_directory (d : gmap string Node) (p : string) : bool :=
  bool_decide (p = ".") || bool_decide (p = "/")
  || match d !! p with
     | Some Directory => true
     | _ => false
     end.

(** The directories on the way to the cleaned path [p], shallow to deep,
    [p] itself last. *)
Fixpoint chain_from (acc : string) (elems : list string) : list string :=
  match elems with
  | [] => []
  | e :: rest =>
      if decide (e = "") then chain_from acc rest
      else if decide (e = ".") then chain_from acc rest
      else
        let acc' := if decide (acc = "") then e
                    else if decide (acc = "/") then acc +:+ e
                    else acc +:+ "/" +:+ e in
        acc' :: chain_from acc' rest
  end.

Definition chain (p : string) : list string :=
  match p with
  | EmptyString => []
  | String c _ =>
      chain_from (if Ascii.eqb c "/" then "/" else "") (strings_Split p)
  end.

Fixpoint mkdir_each (ps : list string) : M unit :=
  match ps with
  | [] => mret tt
  | p :: rest =>
      d ← get_disk;
      match d !! p with
      | Some Directory => mkdir_each rest
      | Some (File _) => fail (PathError "mkdir" ENOTDIR)
      | None => put_disk (<[p := Directory]> d) ;; mkdir_each rest
      end
  end.

(** [os.MkdirAll(p, 0755)]. *)
Definition MkdirAll (p : string) : M unit := mkdir_each (chain p).

(** [os.Create(p)]: creates or truncates the file. *)
Definition Create (p : string) : M unit :=
  d ← get_disk;
  if is_directory d (path.Dir p) then
    match d !! p with
    | Some Directory => fail (PathError "open" EISDIR)
    | _ => put_disk (<[p := File []]> d)
    end
  else
    match d !! path.Dir p with
    | Some (File _) => fail (PathError "open" ENOTDIR)
    | _ => fail (PathError "open" ENOENT)
    end.

Definition has_entries (d : gmap string Node) (p : string) : bool :=
  existsb (fun q => bool_decide (q.1 <> p) && bool_decide (path.Dir q.1 = p))
          (map_to_list d).

(** [os.Remove(p)]: removes the file or the empty directory.  Where
    there is nothing at [p] the error is [ENOENT], as it is when the
    directories above [p] are directories or missing. *)
Definition Remove (p : string) : M unit :=
  d ← get_disk;
  match d !! p with
  | None => fail (PathError "remove" ENOENT)
  | Some (File _) => put_disk (delete p d)
  | Some Directory =>
      if has_entries d p then fail (PathError "remove" ENOTEMPTY)
      else put_disk (delete p d)
  end.

(** [f.Write(data)] on the file opened at [p]. *)
Definition append_to (b : list Byte.byte) (n : Node) : Node :=
  match n with
  | File c => File (c ++ b)
  | Directory => Directory
  end.

Definition file_Write (p : string) (data : list Byte.byte) : M unit := fun st =>
  match hd None (wrFaults st) with
  | Some k =>
      (Err ErrWrite,
       set_wrFaults (tl (wrFaults st))
         (set_disk (alter (append_to (take k data)) p (disk st)) st))
  | None =>
      (Ok tt,
       set_wrFaults (tl (wrFaults st))
         (set_disk (alter (append_to data) p (disk st)) st))
  end.

End os.

(** ** Package [io] *)

Module io.

Inductive read_error :=
| EOF
| Failed (msg : string).

(** A reader is the list of what its successive [Read] calls return;
    past the end of the list [Read] returns [0, io.EOF]. *)
Definition Reader : Type := list (list Byte.byte * option read_error).

(** [io.Copy(outFile, io.TeeReader(src, w))], where [tee w data] is
    [w.Write(data)]: each round reads once from [src], hands what was
    read to [w], and writes it to the file; a write that stops short
    comes with its error, and the error of a read is looked at after
    what was read with it has been written.  [io.Copy(outFile, src)] is
    the case of a [tee] that does nothing. *)
Fixpoint Copy {W} (tee : W -> list Byte.byte -> W) (dst : string) (src : Reader)
  (w : W) (written : Z) : M (Z * W) :=
  match src with
  | [] => mret (written, w)
  | (data, er) :: src' =>
      '(written', w') ←
        match data with
        | [] => mret (written, w)
        | _ :: _ =>
            os.file_Write dst data ;;
            mret (written + Z.of_nat (length data), tee w data)
        end;
      match er with
      | Some EOF => mret (written', w')
      | Some (Failed msg) => fail (ErrRead msg)
      | None => Copy tee dst src' w' written'
      end
  end.



End io.

(** [os.Open(p)]: the reader over the file at [p], which delivers the
    bytes the file holds when it is opened (nothing writes to the file
    between the call and the reads in what follows).  A directory can be
    opened, and reading from it fails. *)
Definition os_Open (p : string) : M io.Reader :=
  d ← get_disk;
  match d !! p with
  | None => fail (PathError "open" ENOENT)
  | Some (File c) => mret [(c, None)]
  | Some Directory => mret [([], Some (io.Failed "is a directory"))]
  end.

(** A transaction works on its own copy of the table: [db.Begin],
    [tx.Exec], [tx.Commit]; the deferred [tx.Rollback] of a transaction
    that was not committed drops the copy. *)
Definition tx_Begin : M (gmap string Row) := sql_attempt ;; get_files.

Definition tx_Exec (stmt : gmap string Row -> gmap string Row)
  (tx : gmap string Row) : M (gmap string Row) :=
  sql_attempt ;; mret (stmt tx).

Definition tx_Commit (tx : gmap string Row) : M unit :=
  sql_attempt ;; put_files tx.

(** ** Package [hash]

    A [hash.MultiHasher] is known by the bytes written to it so far; its
    [Write] never fails, and its sums are those of these bytes.
    [hash.NewMultiHasherTypes] of the MD5 set never fails. *)

Definition hasher_New : list Byte.byte := [].

Definition hasher_Write (w data : list Byte.byte) : list Byte.byte :=
  (w ++ data)%list.

(** ** Objects, candidates and directory entries *)

Module Object.

Record t := {
  remote : string;
  size : Z;
  modTime : Z;
  hasHash : bool;
  hash : string;
  deleted : bool;
  isDir : bool
}.

Definition Remote (o : t) : string :=
  if deleted o then remote o +:+ ".delete" else remote o.

Definition ModTime (o : t) : Z := modTime o.

Definition Size (o : t) : Z := if deleted o then 0 else size o.

(** [o.Hash(ctx, hash.MD5)]. *)
Definition Hash (o : t) : string := if hasHash o then hash o else "".

End Object.

(** [fs.ObjectInfo], the candidate [src]: what its methods return.
    [HashesMD5] is [src.Fs().Hashes().Contains(hash.MD5)]; [Hash] and
    [HashErr] are the two results of [src.Hash(ctx, hash.MD5)]. *)
Module ObjectInfo.

Record t := {
  Remote : string;
  Size : Z;
  ModTime : Z;
  HashesMD5 : bool;
  Hash : string;
  HashErr : bool
}.

End ObjectInfo.

Inductive DirEntry :=
| NewDir (remote : string) (modTime : Z)   (* fs.NewDir(remote, modTime) *)
| Obj (o : Object.t).

Definition entry_remote (e : DirEntry) : string :=
  match e with
  | NewDir remote _ => remote
  | Obj o => Object.remote o
  end.

(** What [rows.Scan] and the two assignments after it put into [o]. *)
Definition scan (remote : string) (r : Row) : Object.t :=
  {| Object.remote := remote;
     Object.size := col_size r;
     Object.modTime := Parse_RFC3339 (col_mod_time r);
     Object.hasHash := col_has_hash r;
     Object.hash := col_hash r;
     Object.deleted := col_deleted r;
     Object.isDir := col_is_dir r |}.

(** The row [ensureDirectoryStructure] inserts for a directory. *)
Definition dir_row (now : Z) : Row :=
  {| col_size := 0; col_mod_time := Format_RFC3339 now;
     col_has_hash := false; col_hash := "";
     col_deleted := false; col_is_dir := true |}.

(** [f.Hashes().Contains(hash.MD5)]: [Hashes] returns [hash.Set(hash.MD5)]. *)
Definition Fs_Hashes_MD5 : bool := true.

(** The loop body of [List] over the rows of the query. *)
Definition list_entries (dir : string) (rows : list (string * Row))
  : list DirEntry :=
  flat_map (fun row =>
    let o := scan row.1 row.2 in
    if bool_decide (dir = "") || bool_decide (path.Dir (Object.remote o) = dir)
    then if Object.isDir o
         then [NewDir (Object.remote o) (Object.modTime o)]
         else [Obj o]
    else []) rows.

(** [SELECT COUNT( * ) FROM files WHERE remote LIKE ? AND remote != ? AND
    deleted = 0]. *)
Definition count_under (pat dir : string) (t : gmap string Row) : nat :=
  length (List.filter (fun row =>
    sql_like pat row.1 && negb (bool_decide (row.1 = dir))
    && negb (col_deleted row.2)) (map_to_list t)).

(** [DELETE FROM files WHERE remote = ? AND is_dir = 1]. *)
Definition delete_dir_row (dir : string) (t : gmap string Row)
  : gmap string Row :=
  match t !! dir with
  | Some r => if col_is_dir r then delete dir t else t
  | None => t
  end.

(** * The variant that compares before it writes *)

Module VirtualFS.

Section Fs.

(** [f.opt.RootDirectory], and the MD5 sum (in hexadecimal) of what was
    written to a hasher. *)
Variable RootDirectory : string.
Variable MD5 : list Byte.byte -> string.

Definition fullPath (remote : string) : string :=
  path.Join [RootDirectory; remote].

Fixpoint insert_dirs (parts : list string) (currentPath : string)
  (tx : gmap string Row) : M (gmap string Row) :=
  match parts with
  | [] => mret tx
  | part :: rest =>
      if decide (part = "") then insert_dirs rest currentPath tx
      else
        let currentPath := path.Join [currentPath; part] in
        now ← time_Now;
        tx' ← wrap ("failed to insert directory " +:+ currentPath)
                 (tx_Exec (insert_or_ignore currentPath (dir_row now)) tx);
        insert_dirs rest currentPath tx'
  end.

Definition ensureDirectoryStructure (remote : string) : M unit :=
  let parts := strings_Split (path.Dir remote) in
  tx ← wrap "failed to begin transaction" tx_Begin;
  tx' ← insert_dirs parts "" tx;
  wrap "failed to commit transaction" (tx_Commit tx').

Definition List (dir : string) : M (list DirEntry) :=
  rows ← db_Query (fun t =>
    List.filter (fun row =>
      if decide (dir = "")
      then negb (sql_like "%/%" row.1) && negb (col_deleted row.2)
      else sql_like (dir +:+ "/%") row.1 && negb (col_deleted row.2))
    (map_to_list t));
  mret (list_entries dir rows).

Definition NewObject (remote : string) : M Object.t :=
  row ← db_Query (fun t => t !! remote);
  match row with
  | None => fail ErrorObjectNotFound
  | Some r =>
      if col_deleted r || col_is_dir r then fail ErrorObjectNotFound
      else mret (scan remote r)
  end.

(** The value of [shouldUpdate] in [Put] when [NewObject] found
    [existingObj]. *)
Definition Put_shouldUpdate (src : ObjectInfo.t) (existingObj : Object.t)
  : bool :=
  if negb (ObjectInfo.Size src =? Object.Size existingObj) then true
  else if negb (ObjectInfo.ModTime src =? Object.ModTime existingObj) then true
  else
    let srcSupportsMD5 := ObjectInfo.HashesMD5 src && Fs_Hashes_MD5 in
    if srcSupportsMD5
    then negb (String.eqb (ObjectInfo.Hash src) (Object.hash existingObj))
    else false.

(** [Put] from [filePath := f.fullPath(remote)] on. *)
Definition Put_write (in_ : io.Reader) (src : ObjectInfo.t) : M Object.t :=
  let remote := ObjectInfo.Remote src in
  let filePath := fullPath remote in
  wrap "failed to ensure directory structure"
    (ensureDirectoryStructure remote) ;;
  os.MkdirAll (path.Dir filePath) ;;
  os.Create filePath ;;
  '(size, multiHasher) ← io.Copy hasher_Write filePath in_ hasher_New 0;
  let hashSum := MD5 multiHasher in
  let hasHash := negb (String.eqb hashSum "") in
  db_Exec (insert_or_replace remote
    {| col_size := size;
       col_mod_time := Format_RFC3339 (ObjectInfo.ModTime src);
       col_has_hash := hasHash; col_hash := hashSum;
       col_deleted := false; col_is_dir := false |}) ;;
  mret {| Object.remote := remote; Object.size := size;
          Object.modTime := ObjectInfo.ModTime src;
          Object.hasHash := hasHash; Object.hash := hashSum;
          Object.deleted := false; Object.isDir := false |}.

Definition Put (in_ : io.Reader) (src : ObjectInfo.t) : M Object.t :=
  fun st =>
  match NewObject (ObjectInfo.Remote src) st with
  | (Ok existingObj, st1) =>
      if Put_shouldUpdate src existingObj then Put_write in_ src st1
      else (Ok existingObj, st1)
  | (Err ErrorObjectNotFound, st1) => Put_write in_ src st1
  | (Err e, st1) => (Err e, st1)
  end.

Definition Mkdir (dir : string) : M unit :=
  os.MkdirAll (fullPath dir) ;;
  ensureDirectoryStructure dir.

Definition Rmdir (dir : string) : M unit := fun st =>
  match os.Remove (fullPath dir) st with
  | (Err e, st1) =>
      if IsNotExist e then (Err ErrorDirNotFound, st1) else (Err e, st1)
  | (Ok _, st1) =>
      (count ← db_Query (count_under (dir +:+ "/%") dir);
       if (0 <? count)%nat then fail (ErrorString "directory not empty")
       else db_Exec (delete_dir_row dir)) st1
  end.

(** [o.Remove]; the result is [o] after the call. *)
Definition Remove (o : Object.t) : M Object.t := fun st =>
  let create_marker : M Object.t :=
    wrap "failed to create delete placeholder"
      (os.Create (fullPath (Object.remote o +:+ ".delete"))) ;;
    now ← time_Now;
    db_Exec (update_where_remote (Object.remote o) (fun r =>
      {| col_size := col_size r; col_mod_time := Format_RFC3339 now;
         col_has_hash := col_has_hash r; col_hash := col_hash r;
         col_deleted := true; col_is_dir := col_is_dir r |})) ;;
    mret {| Object.remote := Object.remote o; Object.size := Object.size o;
            Object.modTime := Object.modTime o;
            Object.hasHash := Object.hasHash o; Object.hash := Object.hash o;
            Object.deleted := true; Object.isDir := Object.isDir o |} in
  match os.Remove (fullPath (Object.remote o)) st with
  | (Err e, st1) =>
      if IsNotExist e then create_marker st1 else (Err e, st1)
  | (Ok _, st1) => create_marker st1
  end.

Definition SetModTime (o : Object.t) (modTime : Z) : M Object.t :=
  db_Exec (update_where_remote (Object.remote o) (fun r =>
    {| col_size := col_size r; col_mod_time := Format_RFC3339 modTime;
       col_has_hash := col_has_hash r; col_hash := col_hash r;
       col_deleted := col_deleted r; col_is_dir := col_is_dir r |})) ;;
  mret {| Object.remote := Object.remote o; Object.size := Object.size o;
          Object.modTime := modTime;
          Object.hasHash := Object.hasHash o; Object.hash := Object.hash o;
          Object.deleted := Object.deleted o; Object.isDir := Object.isDir o |}.

(** The value of [shouldUpdate] in [Update]. *)
Definition Update_shouldUpdate (o : Object.t) (src : ObjectInfo.t) : bool :=
  if Object.size o =? ObjectInfo.Size src then
    let srcSupportsMD5 := ObjectInfo.HashesMD5 src && Fs_Hashes_MD5 in
    let hashh := ObjectInfo.Hash src in
    if negb srcSupportsMD5 || String.eqb hashh (Object.hash o) then
      if negb (ObjectInfo.ModTime src =? Object.ModTime o) then false
      else true
    else true
  else true.

(** [o.Update]; the result is [o] after the call. *)
Definition Update (o : Object.t) (in_ : io.Reader) (src : ObjectInfo.t)
  : M Object.t :=
  if negb (Update_shouldUpdate o src) then mret o
  else
    let filePath := fullPath (Object.remote o) in
    os.MkdirAll (path.Dir filePath) ;;
    os.Create filePath ;;
    '(size, multiHasher) ← io.Copy hasher_Write filePath in_ hasher_New 0;
    let hashSum := MD5 multiHasher in
    let hasHash := negb (String.eqb hashSum "") in
    db_Exec (update_where_remote (Object.remote o) (fun _ =>
      {| col_size := size;
         col_mod_time := Format_RFC3339 (ObjectInfo.ModTime src);
         col_has_hash := hasHash; col_hash := hashSum;
         col_deleted := false; col_is_dir := false |})) ;;
    mret {| Object.remote := Object.remote o; Object.size := size;
            Object.modTime := ObjectInfo.ModTime src;
            Object.hasHash := hasHash; Object.hash := hashSum;
            Object.deleted := false; Object.isDir := false |}.

(** [o.Open]. *)
Definition Open (o : Object.t) : M io.Reader :=
  os_Open (fullPath (Object.remote o)).

(** [createTables]: [CREATE TABLE IF NOT EXISTS] and [CREATE INDEX IF NOT
    EXISTS] leave the rows of a table that is there alone. *)
Definition createTables : M unit := db_Exec (fun t => t).

(** [NewFs], from the creation of the root directory on; [sql.Open] does
    not touch the database yet. *)
Definition NewFs : M unit :=
  wrap "failed to create root directory" (os.MkdirAll RootDirectory) ;;
  wrap "failed to create tables" createTables.

(** [f.Precision()]: [time.Nanosecond], in nanoseconds. *)
Definition Precision : Z := 1.

End Fs.

End VirtualFS.

(** * The variant under [backend/virtualfs/virtualfs.go] *)

Module BackendVirtualfs.

Section Fs.

Variable RootDirectory : string.

Definition fullPath (remote : string) : string :=
  filepath.Join [RootDirectory; remote].

Fixpoint insert_dirs (parts : list string) (currentPath : string) : M unit :=
  match parts with
  | [] => mret tt
  | part :: rest =>
      if decide (part = "") then insert_dirs rest currentPath
      else
        let currentPath := filepath.Join [currentPath; part] in
        now ← time_Now;
        wrap ("failed to insert directory " +:+ currentPath)
          (db_Exec (insert_or_ignore currentPath (dir_row now))) ;;
        insert_dirs rest currentPath
  end.

Definition ensureDirectoryStructure (remote : string) : M unit :=
  let parts := strings_Split (filepath.Dir remote) in
  insert_dirs parts "".

Definition List (dir : string) : M (list DirEntry) :=
  rows ← db_Query (fun t =>
    List.filter (fun row =>
      if decide (dir = "")
      then negb (sql_like "%/%" row.1) && negb (col_deleted row.2)
      else sql_like (filepath.Join [dir; "%"]) row.1 && negb (col_deleted row.2))
    (map_to_list t));
  mret (list_entries dir rows).

Definition NewObject (remote : string) : M Object.t :=
  row ← db_Query (fun t => t !! remote);
  match row with
  | None => fail ErrorObjectNotFound
  | Some r =>
      if col_deleted r || col_is_dir r then fail ErrorObjectNotFound
      else mret (scan remote r)
  end.

Definition Put (in_ : io.Reader) (src : ObjectInfo.t) : M Object.t :=
  let remote := ObjectInfo.Remote src in
  let filePath := fullPath remote in
  wrap "failed to ensure directory structure"
    (ensureDirectoryStructure remote) ;;
  os.MkdirAll (filepath.Dir filePath) ;;
  os.Create filePath ;;
  '(size, _) ← io.Copy (fun (w : unit) _ => w) filePath in_ tt 0;
  let hashSum :=
    if negb (ObjectInfo.HashErr src)
       && negb (String.eqb (ObjectInfo.Hash src) "")
    then ObjectInfo.Hash src else "" in
  db_Exec (insert_or_replace remote
    {| col_size := size;
       col_mod_time := Format_RFC3339 (ObjectInfo.ModTime src);
       col_has_hash := negb (String.eqb hashSum ""); col_hash := hashSum;
       col_deleted := false; col_is_dir := false |}) ;;
  mret {| Object.remote := remote; Object.size := size;
          Object.modTime := ObjectInfo.ModTime src;
          Object.hasHash := negb (String.eqb hashSum "");
          Object.hash := hashSum;
          Object.deleted := false; Object.isDir := false |}.

Definition Mkdir (dir : string) : M unit :=
  os.MkdirAll (fullPath dir) ;;
  ensureDirectoryStructure dir.

Definition Rmdir (dir : string) : M unit := fun st =>
  match os.Remove (fullPath dir) st with
  | (Err e, st1) =>
      if IsNotExist e then (Err ErrorDirNotFound, st1) else (Err e, st1)
  | (Ok _, st1) =>
      (count ← db_Query (count_under (filepath.Join [dir; "%"]) dir);
       if (0 <? count)%nat then fail (ErrorString "directory not empty")
       else db_Exec (delete_dir_row dir)) st1
  end.

(** [o.Remove]; the object itself is left as it was. *)
Definition Remove (o : Object.t) : M unit := fun st =>
  let create_marker : M unit :=
    let deletePath := fullPath (Object.remote o +:+ ".delete") in
    os.MkdirAll (filepath.Dir deletePath) ;;
    os.Create deletePath ;;
    now ← time_Now;
    db_Exec (update_where_remote (Object.remote o) (fun r =>
      {| col_size := col_size r; col_mod_time := Format_RFC3339 now;
         col_has_hash := col_has_hash r; col_hash := col_hash r;
         col_deleted := true; col_is_dir := col_is_dir r |})) in
  match os.Remove (fullPath (Object.remote o)) st with
  | (Err e, st1) =>
      if IsNotExist e then create_marker st1 else (Err e, st1)
  | (Ok _, st1) => create_marker st1
  end.

(** [o.Update]; the result is [o] after the call.  The hasher behind the
    tee is written to and never read. *)
Definition Update (o : Object.t) (in_ : io.Reader) (src : ObjectInfo.t)
  : M Object.t :=
  let filePath := fullPath (Object.remote o) in
  os.MkdirAll (filepath.Dir filePath) ;;
  os.Create filePath ;;
  '(size, _) ← io.Copy hasher_Write filePath in_ hasher_New 0;
  let hashSum := if ObjectInfo.HashErr src then "" else ObjectInfo.Hash src in
  db_Exec (update_where_remote (Object.remote o) (fun _ =>
    {| col_size := size;
       col_mod_time := Format_RFC3339 (ObjectInfo.ModTime src);
       col_has_hash := negb (String.eqb hashSum ""); col_hash := hashSum;
       col_deleted := false; col_is_dir := false |})) ;;
  mret {| Object.remote := Object.remote o; Object.size := size;
          Object.modTime := ObjectInfo.ModTime src;
          Object.hasHash := negb (String.eqb hashSum "");
          Object.hash := hashSum;
          Object.deleted := false; Object.isDir := false |}.

Definition SetModTime (o : Object.t) (modTime : Z) : M Object.t :=
  db_Exec (update_where_remote (Object.remote o) (fun r =>
    {| col_size := col_size r; col_mod_time := Format_RFC3339 modTime;
       col_has_hash := col_has_hash r; col_hash := col_hash r;
       col_deleted := col_deleted r; col_is_dir := col_is_dir r |})) ;;
  mret {| Object.remote := Object.remote o; Object.size := Object.size o;
          Object.modTime := modTime;
          Object.hasHash := Object.hasHash o; Object.hash := Object.hash o;
          Object.deleted := Object.deleted o; Object.isDir := Object.isDir o |}.

(** [o.Open]. *)
Definition Open (o : Object.t) : M io.Reader :=
  os_Open (fullPath (Object.remote o)).

(** [createTables]: [CREATE TABLE IF NOT EXISTS] leaves the rows of a
    table that is there alone. *)
Definition createTables : M unit := db_Exec (fun t => t).

(** [NewFs], from the creation of the root directory on. *)
Definition NewFs : M unit :=
  wrap "failed to create root directory" (os.MkdirAll RootDirectory) ;;
  wrap "failed to create tables" createTables.

End Fs.

End BackendVirtualfs.

(** * Notions used in the statements *)

(** The errors that arise while the content is streamed: an error of the
    reader, or an error of the write to the content file. *)
Definition streaming_error (e : error) : Prop :=
  e = ErrWrite \/ exists msg, e = ErrRead msg.

(** Table [t'] is table [t] with, at most, directory rows added at paths
    that had no row. *)
Definition only_directories_added (t t' : gmap string Row) : Prop :=
  (forall k r, t !! k = Some r -> t' !! k = Some r)
  /\ (forall k r, t' !! k = Some r -> t !! k = Some r \/ col_is_dir r = true).

(** The four methods that write content: [Put] and [Update] of either
    variant. *)
Inductive content_write :=
| VirtualFS_Put (in_ : io.Reader) (src : ObjectInfo.t)
| VirtualFS_Update (o : Object.t) (in_ : io.Reader) (src : ObjectInfo.t)
| BackendVirtualfs_Put (in_ : io.Reader) (src : ObjectInfo.t)
| BackendVirtualfs_Update (o : Object.t) (in_ : io.Reader) (src : ObjectInfo.t).

Definition run_content_write (RootDirectory : string)
  (MD5 : list Byte.byte -> string) (w : content_write) : M Object.t :=
  match w with
  | VirtualFS_Put in_ src => VirtualFS.Put RootDirectory MD5 in_ src
  | VirtualFS_Update o in_ src => VirtualFS.Update RootDirectory MD5 o in_ src
  | BackendVirtualfs_Put in_ src => BackendVirtualfs.Put RootDirectory in_ src
  | BackendVirtualfs_Update o in_ src =>
      BackendVirtualfs.Update RootDirectory o in_ src
  end.

(** The path a content-writing call is about. *)
Definition written_remote (w : content_write) : string :=
  match w with
  | VirtualFS_Put _ src | BackendVirtualfs_Put _ src => ObjectInfo.Remote src
  | VirtualFS_Update o _ _ | BackendVirtualfs_Update o _ _ => Object.remote o
  end.

(** The row and the object [Put] and [Update] make of the bytes
    [content] they have streamed, for a candidate of modification time
    [modTime]. *)
Definition row_of_content (MD5 : list Byte.byte -> string) (modTime : Z)
  (content : list Byte.byte) : Row :=
  {| col_size := Z.of_nat (length content);
     col_mod_time := Format_RFC3339 modTime;
     col_has_hash := negb (String.eqb (MD5 content) "");
     col_hash := MD5 content;
     col_deleted := false; col_is_dir := false |}.

Definition object_of_content (MD5 : list Byte.byte -> string)
  (remote : string) (modTime : Z) (content : list Byte.byte) : Object.t :=
  {| Object.remote := remote;
     Object.size := Z.of_nat (length content);
     Object.modTime := modTime;
     Object.hasHash := negb (String.eqb (MD5 content) "");
     Object.hash := MD5 content;
     Object.deleted := false; Object.isDir := false |}.

(** The entry [List] makes of a row. *)
Definition entry_of_row (p : string) (r : Row) : DirEntry :=
  if col_is_dir r then NewDir p (Parse_RFC3339 (col_mod_time r))
  else Obj (scan p r).

(** The test [List] applies to the path of a row: the WHERE clause (but
    for [deleted = 0]) and the comparison in the loop. *)
Definition listed (dir p : string) : bool :=
  if decide (dir = "") then negb (sql_like "%/%" p)
  else sql_like (dir +:+ "/%") p && bool_decide (path.Dir p = dir).

(** [p] lies one level under [dir]: at the top level, a path without a
    separator; otherwise a path that starts with [dir/] and whose parent
    is [dir]. *)
Definition one_level_under (dir p : string) : Prop :=
  if decide (dir = "") then has_slash p = false
  else (exists rest, p = dir +:+ "/" +:+ rest) /\ path.Dir p = dir.



(** * The calls on a backend, and what a call may change *)




(** The rows [Remove] and [SetModTime] make of a row. *)
Definition tombstone_of (now : Z) (r : Row) : Row :=
  {| col_size := col_size r; col_mod_time := Format_RFC3339 now;
     col_has_hash := col_has_hash r; col_hash := col_hash r;
     col_deleted := true; col_is_dir := col_is_dir r |}.




(** Content tree [d'] is [d] but for the paths [touched] and for
    directories added where there was nothing. *)
Definition only_touched (touched : list string) (d d' : gmap string Node)
  : Prop :=
  (forall q n, q ∉ touched -> d !! q = Some n -> d' !! q = Some n)
  /\ (forall q n, q ∉ touched -> d' !! q = Some n ->
                  d !! q = Some n \/ n = Directory).



(** An object with its modification time cut to the whole second. *)
Definition cut_to_the_second (o : Object.t) : Object.t :=
  {| Object.remote := Object.remote o; Object.size := Object.size o;
     Object.modTime := Object.modTime o - Object.modTime o mod second;
     Object.hasHash := Object.hasHash o; Object.hash := Object.hash o;
     Object.deleted := Object.deleted o; Object.isDir := Object.isDir o |}.

(** * Paths in clean form *)

(** A name between two slashes of a clean relative path. *)
Definition segment (e : string) : Prop :=
  e <> "" /\ e <> "." /\ e <> ".." /\ has_slash e = false.

(** The paths of the directories above the path [cur/e1/.../en/name],
    below [cur]: [cur/e1], [cur/e1/e2], ..., [cur/e1/.../en]. *)
Fixpoint ancestors_from (cur segs : list string) : list string :=
  match segs with
  | [] => []
  | e :: rest =>
      strings_Join (cur ++ [e]) :: ancestors_from (cur ++ [e]) rest
  end.

(** The paths [ensureDirectoryStructure] records for [e1/.../en/name]:
    the directories above it, and [.] for a path at the top level. *)
Definition ancestors (segs : list string) : list string :=
  match segs with
  | [] => ["."]
  | _ :: _ => ancestors_from [] segs
  end.

(** The names of a root directory that [path.Clean] keeps when the root
    has no [..] in it, and the slash it starts with, if it does. *)
Definition root_segments (root : string) : list string :=
  List.filter (fun e => negb (bool_decide (e = "")) && negb (bool_decide (e = ".")))
    (strings_Split root).

Definition root_prefix (root : string) : string :=
  match root with
  | EmptyString => ""
  | String c _ => if Ascii.eqb c "/" then "/" else ""
  end.


(** * The database file, the range of the time layout, plain text *)


(** The times of the years 0 to 9999, which the RFC 3339 layout writes
    with four digits and which are read back from it. *)
Definition RFC3339_range (t : Z) : Prop :=
  -62167219200 * second <= t < 253402300800 * second.

(** Text of ASCII characters other than NUL. *)
Definition plain_ascii (s : string) : bool :=
  forallb (fun c => (0 <? nat_of_ascii c)%nat && (nat_of_ascii c <? 128)%nat)
    (list_ascii_of_string s).

(** The paths of the live rows of a table are plain text. *)
Definition plain_paths (t : gmap string Row) : Prop :=
  forall p r, t !! p = Some r -> col_deleted r = false -> plain_ascii p = true.

(** * Concrete inputs *)

Definition root0 : string := "./virtualfs_data".

(** A stand-in for the MD5 sum where an example has to run a hasher: the
    bytes themselves behind a tag.  The theorems hold for any function. *)
Definition tagged_digest (b : list Byte.byte) : string :=
  "md5:" +:+ string_of_list_byte b.

Definition hello : list Byte.byte := list_byte_of_string "hello".

(** The MD5 sum of [hello], as a source would report it. *)
Definition md5_hello : string := "5d41402abc4b2a76b9719d911017c592".

(** A reader that delivers [hello] in two reads and then ends. *)
Definition reader_hello : io.Reader :=
  [(list_byte_of_string "he", None); (list_byte_of_string "llo", None);
   ([], Some io.EOF)].


(** An empty table and a content tree that holds the root directory. *)
Definition state_empty : State :=
  {| files := ∅; disk := {[ "virtualfs_data" := Directory ]};
     clock := 5 * second; dbFaults := []; wrFaults := [] |}.

Definition row_x : Row :=
  {| col_size := 5; col_mod_time := 7; col_has_hash := true;
     col_hash := md5_hello; col_deleted := false; col_is_dir := false |}.

(** [x.txt] is recorded, with the row [.] that materialising the parent
    of a top-level path inserts, and its content has been taken away by
    the consumer. *)
Definition state_ingested : State :=
  {| files := {[ "." := dir_row (5 * second); "x.txt" := row_x ]};
     disk := {[ "virtualfs_data" := Directory ]};
     clock := 5 * second; dbFaults := []; wrFaults := [] |}.

(** [x.txt] is recorded and its content is in the content tree. *)
Definition state_stored : State :=
  {| files := {[ "." := dir_row (5 * second); "x.txt" := row_x ]};
     disk := {[ "virtualfs_data" := Directory;
                "virtualfs_data/x.txt" := File hello ]};
     clock := 5 * second; dbFaults := []; wrFaults := [] |}.

(** The candidate that agrees with [row_x]. *)
Definition src_x : ObjectInfo.t :=
  {| ObjectInfo.Remote := "x.txt"; ObjectInfo.Size := 5;
     ObjectInfo.ModTime := 7 * second; ObjectInfo.HashesMD5 := true;
     ObjectInfo.Hash := md5_hello; ObjectInfo.HashErr := false |}.

(** The same candidate, touched two seconds later. *)
Definition src_x_touched : ObjectInfo.t :=
  {| ObjectInfo.Remote := "x.txt"; ObjectInfo.Size := 5;
     ObjectInfo.ModTime := 9 * second; ObjectInfo.HashesMD5 := true;
     ObjectInfo.Hash := md5_hello; ObjectInfo.HashErr := false |}.

(** A candidate whose source reports a digest that is not the one of the
    bytes it delivers. *)
Definition src_x_stale : ObjectInfo.t :=
  {| ObjectInfo.Remote := "x.txt"; ObjectInfo.Size := 5;
     ObjectInfo.ModTime := 7 * second; ObjectInfo.HashesMD5 := true;
     ObjectInfo.Hash := "00000000000000000000000000000000";
     ObjectInfo.HashErr := false |}.

(** A candidate from a source that has no MD5. *)
Definition src_x_no_hash : ObjectInfo.t :=
  {| ObjectInfo.Remote := "x.txt"; ObjectInfo.Size := 5;
     ObjectInfo.ModTime := 7 * second; ObjectInfo.HashesMD5 := false;
     ObjectInfo.Hash := ""; ObjectInfo.HashErr := true |}.

(** A candidate whose modification time has half a second in it, sized
    and hashed as [tagged_digest] sees [hello]. *)
Definition src_x_subsecond : ObjectInfo.t :=
  {| ObjectInfo.Remote := "x.txt"; ObjectInfo.Size := 5;
     ObjectInfo.ModTime := 7 * second + 500000000;
     ObjectInfo.HashesMD5 := true;
     ObjectInfo.Hash := tagged_digest hello; ObjectInfo.HashErr := false |}.

(** The same with a whole number of seconds. *)
Definition src_x_tagged : ObjectInfo.t :=
  {| ObjectInfo.Remote := "x.txt"; ObjectInfo.Size := 5;
     ObjectInfo.ModTime := 7 * second; ObjectInfo.HashesMD5 := true;
     ObjectInfo.Hash := tagged_digest hello; ObjectInfo.HashErr := false |}.

(** The object [NewObject] reads from [row_x]. *)
Definition object_x : Object.t := scan "x.txt" row_x.

(** [object_x] after [Remove]. *)
Definition object_x_removed : Object.t :=
  {| Object.remote := "x.txt"; Object.size := 5;
     Object.modTime := 7 * second; Object.hasHash := true;
     Object.hash := md5_hello; Object.deleted := true;
     Object.isDir := false |}.




Definition file_row (size : Z) : Row :=
  {| col_size := size; col_mod_time := 1; col_has_hash := false;
     col_hash := ""; col_deleted := false; col_is_dir := false |}.

(** The records [a], [a/b] and [a/b/c]. *)
Definition state_abc : State :=
  {| files := {[ "a" := dir_row 0; "a/b" := dir_row 0; "a/b/c" := file_row 3 ]};
     disk := {[ "virtualfs_data" := Directory ]};
     clock := 5 * second; dbFaults := []; wrFaults := [] |}.


(** The live record [a/b], the directory [a] gone from the content
    tree. *)
Definition state_dir_gone : State :=
  {| files := {[ "a" := dir_row 0; "a/b" := file_row 3 ]};
     disk := {[ "virtualfs_data" := Directory ]};
     clock := 5 * second; dbFaults := []; wrFaults := [] |}.

(** The live record [a/b], its content ingested, the directory [a] still
    in the content tree. *)
Definition state_dir_ingested : State :=
  {| files := {[ "a" := dir_row 0; "a/b" := file_row 3 ]};
     disk := {[ "virtualfs_data" := Directory;
                "virtualfs_data/a" := Directory ]};
     clock := 5 * second; dbFaults := []; wrFaults := [] |}.

(** An empty directory [a], recorded and in the content tree. *)
Definition state_dir_empty : State :=
  {| files := {[ "a" := dir_row 0 ]};
     disk := {[ "virtualfs_data" := Directory;
                "virtualfs_data/a" := Directory ]};
     clock := 5 * second; dbFaults := []; wrFaults := [] |}.

(** An empty table whose second SQL statement will fail. *)
Definition state_second_statement_fails : State :=
  {| files := ∅; disk := {[ "virtualfs_data" := Directory ]};
     clock := 5 * second; dbFaults := [false; true]; wrFaults := [] |}.

(** An empty table whose third SQL statement will fail. *)
Definition state_third_statement_fails : State :=
  {| files := ∅; disk := {[ "virtualfs_data" := Directory ]};
     clock := 5 * second; dbFaults := [false; false; true]; wrFaults := [] |}.

(** The empty directory [a_c] beside the live record [abc/x]. *)
Definition state_wildcard : State :=
  {| files := {[ "a_c" := dir_row 0; "abc" := dir_row 0;
                 "abc/x" := file_row 3 ]};
     disk := {[ "virtualfs_data" := Directory;
                "virtualfs_data/a_c" := Directory;
                "virtualfs_data/abc" := Directory ]};
     clock := 5 * second; dbFaults := []; wrFaults := [] |}.



(** An object of the path [sub/x.txt]. *)
Definition object_sub_x : Object.t := scan "sub/x.txt" row_x.

(** Nothing recorded and nothing in the content tree, not even the root
    directory. *)
Definition state_nothing : State :=
  {| files := ∅; disk := ∅;
     clock := 5 * second; dbFaults := []; wrFaults := [] |}.



(** What the listing of the root of [state_ingested] shows. *)
Definition entries_ingested : list DirEntry :=
  [NewDir "." (5 * second); Obj object_x].





(** * Checks of the library models on small inputs *)

Example Clean_ex1 : path.Clean "a//b/./c/" = "a/b/c". Proof. reflexivity. Qed.
Example Clean_ex2 : path.Clean "a/b/../../a_b/" = "a_b". Proof. reflexivity. Qed.
Example Clean_ex3 : path.Clean "/../a" = "/a". Proof. reflexivity. Qed.
Example Clean_ex4 : path.Clean "../../a/.." = "../..". Proof. reflexivity. Qed.
Example Dir_ex1 : path.Dir "a" = ".". Proof. reflexivity. Qed.
Example Dir_ex2 : path.Dir "a/b/c" = "a/b". Proof. reflexivity. Qed.
Example Dir_ex3 : path.Dir "/a" = "/". Proof. reflexivity. Qed.
Example Join_ex1 : path.Join ["./virtualfs_data"; "a/b"] = "virtualfs_data/a/b". Proof. reflexivity. Qed.
Example Join_ex2 : path.Join [""; "a"] = "a". Proof. reflexivity. Qed.
Example Join_ex3 : path.Join ["a"; ""] = "a". Proof. reflexivity. Qed.
Example like_ex1 : sql_like "a_b/%" "a/b/../../a_b/x" = true. Proof. reflexivity. Qed.
Example like_ex2 : sql_like "docs/%" "Docs/x" = true. Proof. reflexivity. Qed.
Example like_ex3 : sql_like "a/%" "ab/c" = false. Proof. reflexivity. Qed.
Example like_ex4 : sql_like "%/%" "abc" = false. Proof. reflexivity. Qed.
Example Dir_ex4 : path.Dir "a/b/" = "a/b". Proof. reflexivity. Qed.
Example Dir_ex5 : path.Dir "" = ".". Proof. reflexivity. Qed.
Example Dir_ex6 : path.Dir "a//b" = "a". Proof. reflexivity. Qed.
Example Split_ex1 : strings_Split "a/b" = ["a"; "b"]. Proof. reflexivity. Qed.
Example Split_ex2 : strings_Split "." = ["."]. Proof. reflexivity. Qed.
Example Split_ex3 : strings_Split "" = [""]. Proof. reflexivity. Qed.
Example Join_pattern_ex1 : filepath.Join ["a/b"; "%"] = "a/b/%". Proof. reflexivity. Qed.
Example Join_pattern_ex2 : filepath.Join ["."; "%"] = "%". Proof. reflexivity. Qed.
Example chain_ex1 :
  os.chain "virtualfs_data/a/b" = ["virtualfs_data"; "virtualfs_data/a"; "virtualfs_data/a/b"].
Proof. reflexivity. Qed.
Example chain_ex2 : os.chain "/a/b" = ["/a"; "/a/b"]. Proof. reflexivity. Qed.
Example Format_ex1 : Format_RFC3339 (7 * second + 500000000) = 7. Proof. reflexivity. Qed.
Example Format_ex2 : Parse_RFC3339 (Format_RFC3339 (7 * second)) = 7 * second. Proof. reflexivity. Qed.
(** * Lemmas *)

(** ** The monad and the SQL statements *)

Lemma bind_unfold {A B} (m : M A) (k : A -> M B) (st : State) :
  (m ≫= k) st
  = match m st with
    | (Ok a, st') => k a st'
    | (Err e, st') => (Err e, st')
    end.
Proof. reflexivity. Qed.

Lemma bind_Ok_inv {A B} (m : M A) (k : A -> M B) st b st' :
  (m ≫= k) st = (Ok b, st') ->
  exists a st1, m st = (Ok a, st1) /\ k a st1 = (Ok b, st').
Proof.
  rewrite bind_unfold. destruct (m st) as [[a|e] st1]; [eauto | discriminate].
Qed.

Lemma bind_Err_inv {A B} (m : M A) (k : A -> M B) st e st' :
  (m ≫= k) st = (Err e, st') ->
  m st = (Err e, st')
  \/ exists a st1, m st = (Ok a, st1) /\ k a st1 = (Err e, st').
Proof.
  rewrite bind_unfold. destruct (m st) as [[a|e0] st1].
  - intros H. right. eauto.
  - intros [= <- <-]. left. reflexivity.
Qed.

Lemma wrap_Ok_inv {A} msg (m : M A) st a st' :
  wrap msg m st = (Ok a, st') -> m st = (Ok a, st').
Proof.
  unfold wrap. destruct (m st) as [[a0|e] st1]; [auto | discriminate].
Qed.

Lemma wrap_Err_inv {A} msg (m : M A) st e st' :
  wrap msg m st = (Err e, st') ->
  exists e0, e = Wrapped msg e0 /\ m st = (Err e0, st').
Proof.
  unfold wrap. destruct (m st) as [[a0|e0] st1]; [discriminate |].
  intros [= <- <-]. eauto.
Qed.

Lemma db_Query_eq {A} (q : gmap string Row -> A) st :
  db_Query q st
  = let st1 := set_dbFaults (tl (dbFaults st)) st in
    if hd false (dbFaults st) then (Err ErrSQL, st1)
    else (Ok (q (files st)), st1).
Proof.
  unfold db_Query. rewrite bind_unfold. unfold sql_attempt.
  destruct (hd false (dbFaults st)); reflexivity.
Qed.

Lemma db_Exec_eq (stmt : gmap string Row -> gmap string Row) st :
  db_Exec stmt st
  = let st1 := set_dbFaults (tl (dbFaults st)) st in
    if hd false (dbFaults st) then (Err ErrSQL, st1)
    else (Ok tt, set_files (stmt (files st)) st1).
Proof.
  unfold db_Exec. rewrite bind_unfold. unfold sql_attempt.
  destruct (hd false (dbFaults st)); reflexivity.
Qed.

Lemma tx_Begin_eq st :
  tx_Begin st
  = let st1 := set_dbFaults (tl (dbFaults st)) st in
    if hd false (dbFaults st) then (Err ErrSQL, st1)
    else (Ok (files st), st1).
Proof.
  unfold tx_Begin. rewrite bind_unfold. unfold sql_attempt.
  destruct (hd false (dbFaults st)); reflexivity.
Qed.

Lemma tx_Exec_eq stmt tx st :
  tx_Exec stmt tx st
  = let st1 := set_dbFaults (tl (dbFaults st)) st in
    if hd false (dbFaults st) then (Err ErrSQL, st1)
    else (Ok (stmt tx), st1).
Proof.
  unfold tx_Exec. rewrite bind_unfold. unfold sql_attempt.
  destruct (hd false (dbFaults st)); reflexivity.
Qed.

Lemma tx_Commit_eq tx st :
  tx_Commit tx st
  = let st1 := set_dbFaults (tl (dbFaults st)) st in
    if hd false (dbFaults st) then (Err ErrSQL, st1)
    else (Ok tt, set_files tx st1).
Proof.
  unfold tx_Commit. rewrite bind_unfold. unfold sql_attempt.
  destruct (hd false (dbFaults st)); reflexivity.
Qed.

(** ** Package [os]: what each call leaves alone *)

Lemma os_Remove_inv p st r st' :
  os.Remove p st = (r, st') ->
  files st' = files st /\ dbFaults st' = dbFaults st
  /\ wrFaults st' = wrFaults st /\ clock st' = clock st
  /\ match r with
     | Ok _ => is_Some (disk st !! p) /\ disk st' = delete p (disk st)
     | Err e => st' = st /\ exists n, e = PathError "remove" n
     end.
Proof.
  unfold os.Remove. rewrite bind_unfold. cbn.
  destruct (disk st !! p) as [[c|]|] eqn:Hp.
  - intros [= <- <-]. cbn. eauto 10.
  - destruct (os.has_entries (disk st) p); intros [= <- <-]; cbn; eauto 10.
  - intros [= <- <-]. eauto 10.
Qed.

Lemma os_Create_inv p st r st' :
  os.Create p st = (r, st') ->
  files st' = files st /\ dbFaults st' = dbFaults st
  /\ wrFaults st' = wrFaults st /\ clock st' = clock st
  /\ match r with
     | Ok _ => disk st' = <[p := File []]> (disk st)
     | Err e => st' = st /\ exists n, e = PathError "open" n
     end.
Proof.
  unfold os.Create. rewrite bind_unfold. cbn.
  destruct (os.is_directory (disk st) (path.Dir p)).
  - destruct (disk st !! p) as [[c|]|]; intros [= <- <-]; cbn; eauto 10.
  - destruct (disk st !! path.Dir p) as [[c|]|]; intros [= <- <-]; eauto 10.
Qed.

Lemma os_mkdir_each_inv ps st r st' :
  os.mkdir_each ps st = (r, st') ->
  files st' = files st /\ dbFaults st' = dbFaults st
  /\ wrFaults st' = wrFaults st /\ clock st' = clock st
  /\ (forall e, r = Err e -> exists n, e = PathError "mkdir" n).
Proof.
  revert st. induction ps as [|p ps IH]; intros st.
  - intros [= <- <-]. repeat split; auto. discriminate.
  - cbn [os.mkdir_each]. rewrite bind_unfold. cbn.
    destruct (disk st !! p) as [[c|]|].
    + intros [= <- <-]. repeat split; auto. intros e [= <-]. eauto.
    + apply IH.
    + rewrite bind_unfold. cbn. intros H. apply IH in H. cbn in H. exact H.
Qed.

Lemma os_MkdirAll_inv p st r st' :
  os.MkdirAll p st = (r, st') ->
  files st' = files st /\ dbFaults st' = dbFaults st
  /\ wrFaults st' = wrFaults st /\ clock st' = clock st
  /\ (forall e, r = Err e -> exists n, e = PathError "mkdir" n).
Proof. apply os_mkdir_each_inv. Qed.

(** ** LIKE against a literal prefix *)

Lemma append_String c s t : String c s +:+ t = String c (s +:+ t).
Proof. reflexivity. Qed.

Lemma append_Empty t : "" +:+ t = t.
Proof. reflexivity. Qed.


Lemma sql_like_percent_unfold pat s :
  sql_like (String "%" pat) s
  = sql_like pat s
    || match s with
       | EmptyString => false
       | String _ s' => sql_like (String "%" pat) s'
       end.
Proof. destruct s; reflexivity. Qed.

Lemma sql_like_percent_all s : sql_like "%" s = true.
Proof.
  induction s as [|a s IH].
  - reflexivity.
  - rewrite sql_like_percent_unfold. rewrite IH. apply orb_true_r.
Qed.

Lemma ascii_eqb_refl' (c : ascii) : Ascii.eqb c c = true.
Proof. apply Ascii.eqb_refl. Qed.

Lemma sql_like_cons_same c pat s :
  sql_like pat s = true -> sql_like (String c pat) (String c s) = true.
Proof.
  intros H. destruct (Ascii.eqb c "%") eqn:Hpc.
  - apply Ascii.eqb_eq in Hpc. subst c.
    rewrite sql_like_percent_unfold. rewrite sql_like_percent_unfold.
    rewrite H. rewrite orb_true_r. reflexivity.
  - cbn [sql_like]. rewrite Hpc.
    destruct (Ascii.eqb c "_"); [exact H |].
    rewrite ascii_eqb_refl'. exact H.
Qed.

(** A path that starts with [d/] matches the pattern [d/%], whatever
    characters [d] is made of. *)
Lemma sql_like_prefix d rest :
  sql_like (d +:+ "/%") (d +:+ "/" +:+ rest) = true.
Proof.
  induction d as [|c d IH].
  - rewrite ?append_String, ?append_Empty. apply sql_like_cons_same. apply sql_like_percent_all.
  - rewrite ?append_String, ?append_Empty. apply sql_like_cons_same. exact IH.
Qed.

(** The pattern [%/%] matches exactly the paths with a slash. *)
Lemma sql_like_any_slash s : sql_like "%/%" s = has_slash s.
Proof.
  induction s as [|a s IH].
  - reflexivity.
  - rewrite sql_like_percent_unfold. rewrite IH.
    cbn [sql_like has_slash].
    change (Ascii.eqb "/" "%") with false. change (Ascii.eqb "/" "_") with false.
    cbv iota.
    destruct (Ascii.eqb a "/") eqn:Ha.
    + apply Ascii.eqb_eq in Ha. subst a. cbn.
      rewrite sql_like_percent_all. reflexivity.
    + replace (Ascii.eqb (ascii_lower "/") (ascii_lower a)) with false.
      * reflexivity.
      * symmetry. apply Ascii.eqb_neq. intros Heq.
        apply Ascii.eqb_neq in Ha. apply Ha.
        change (ascii_lower "/") with "/"%char in Heq.
        unfold ascii_lower in Heq.
        destruct ((65 <=? nat_of_ascii a)%nat && (nat_of_ascii a <=? 90)%nat) eqn:Hup.
        -- exfalso. apply andb_true_iff in Hup as [H1 H2].
           apply Nat.leb_le in H1. apply Nat.leb_le in H2.
           assert (Hn : nat_of_ascii "/" = (nat_of_ascii a + 32)%nat).
           { rewrite Heq. rewrite nat_ascii_embedding; [reflexivity | lia]. }
           change (nat_of_ascii "/") with 47%nat in Hn. lia.
        -- congruence.
Qed.

Lemma append_slash_neq d rest : d +:+ "/" +:+ rest <> d.
Proof.
  induction d as [|c d IH]; rewrite ?append_String, ?append_Empty.
  - discriminate.
  - intros [= H]. exact (IH H).
Qed.

(** ** Counting the live rows under a directory *)

Lemma filter_length_pos {A} (f : A -> bool) (l : list A) (x : A) :
  In x l -> f x = true -> (0 < length (List.filter f l))%nat.
Proof.
  intros Hin Hf.
  assert (Hx : In x (List.filter f l)) by (apply filter_In; auto).
  destruct (List.filter f l); [destruct Hx | cbn; lia].
Qed.

Lemma filter_length_zero {A} (f : A -> bool) (l : list A) :
  (forall x, In x l -> f x = false) -> length (List.filter f l) = 0%nat.
Proof.
  induction l as [|a l IH]; intros H; [reflexivity |].
  cbn. rewrite (H a (or_introl eq_refl)). apply IH.
  intros x Hx. apply H. right. exact Hx.
Qed.

Lemma count_under_pos pat dir (t : gmap string Row) p r :
  t !! p = Some r -> sql_like pat p = true -> p <> dir ->
  col_deleted r = false -> (0 < count_under pat dir t)%nat.
Proof.
  intros Hp Hlike Hne Hdel. unfold count_under.
  apply (filter_length_pos _ _ (p, r)).
  - apply list_elem_of_In. apply elem_of_map_to_list. exact Hp.
  - cbn. rewrite Hlike, Hdel. rewrite bool_decide_eq_false_2 by exact Hne.
    reflexivity.
Qed.

Lemma count_under_zero pat dir (t : gmap string Row) :
  (forall p r, t !! p = Some r -> col_deleted r = false -> p <> dir ->
               sql_like pat p = false) ->
  count_under pat dir t = 0%nat.
Proof.
  intros H. unfold count_under. apply filter_length_zero.
  intros [p r] Hin. cbn.
  apply list_elem_of_In in Hin. apply elem_of_map_to_list in Hin.
  destruct (col_deleted r) eqn:Hdel; [apply andb_false_r |].
  destruct (decide (p = dir)) as [->|Hne].
  - rewrite bool_decide_eq_true_2 by reflexivity. cbn.
    rewrite andb_false_r. reflexivity.
  - rewrite (H p r Hin Hdel Hne). reflexivity.
Qed.

Lemma delete_dir_row_lookup dir (t : gmap string Row) r :
  t !! dir = Some r -> col_is_dir r = true -> delete_dir_row dir t !! dir = None.
Proof.
  intros Hd Hr. unfold delete_dir_row. rewrite Hd, Hr. apply lookup_delete_eq.
Qed.

(** ** [Rmdir] *)

Lemma VirtualFS_Rmdir_eq root dir st :
  VirtualFS.Rmdir root dir st
  = match os.Remove (VirtualFS.fullPath root dir) st with
    | (Err e, st1) =>
        if IsNotExist e then (Err ErrorDirNotFound, st1) else (Err e, st1)
    | (Ok _, st1) =>
        let st2 := set_dbFaults (tl (dbFaults st1)) st1 in
        if hd false (dbFaults st1) then (Err ErrSQL, st2)
        else if (0 <? count_under (dir +:+ "/%") dir (files st1))%nat
        then (Err (ErrorString "directory not empty"), st2)
        else db_Exec (delete_dir_row dir) st2
    end.
Proof.
  unfold VirtualFS.Rmdir.
  destruct (os.Remove (VirtualFS.fullPath root dir) st) as [[u|e] st1];
    [| reflexivity].
  rewrite bind_unfold, db_Query_eq. cbv zeta.
  destruct (hd false (dbFaults st1)); [reflexivity |].
  destruct (0 <? count_under (dir +:+ "/%") dir (files st1))%nat; reflexivity.
Qed.

Lemma BackendVirtualfs_Rmdir_eq root dir st :
  BackendVirtualfs.Rmdir root dir st
  = match os.Remove (BackendVirtualfs.fullPath root dir) st with
    | (Err e, st1) =>
        if IsNotExist e then (Err ErrorDirNotFound, st1) else (Err e, st1)
    | (Ok _, st1) =>
        let st2 := set_dbFaults (tl (dbFaults st1)) st1 in
        if hd false (dbFaults st1) then (Err ErrSQL, st2)
        else if (0 <? count_under (filepath.Join [dir; "%"]) dir (files st1))%nat
        then (Err (ErrorString "directory not empty"), st2)
        else db_Exec (delete_dir_row dir) st2
    end.
Proof.
  unfold BackendVirtualfs.Rmdir.
  destruct (os.Remove (BackendVirtualfs.fullPath root dir) st) as [[u|e] st1];
    [| reflexivity].
  rewrite bind_unfold, db_Query_eq. cbv zeta.
  destruct (hd false (dbFaults st1)); [reflexivity |].
  destruct (0 <? count_under (filepath.Join [dir; "%"]) dir (files st1))%nat;
    reflexivity.
Qed.

(** The two variants of [Rmdir] are one function wherever [filepath.Join]
    leaves the pattern as [dir/%]. *)
Lemma Rmdir_variants_agree root dir st :
  filepath.Join [dir; "%"] = dir +:+ "/%" ->
  BackendVirtualfs.Rmdir root dir st = VirtualFS.Rmdir root dir st.
Proof.
  intros Hpat. rewrite BackendVirtualfs_Rmdir_eq, VirtualFS_Rmdir_eq.
  rewrite Hpat. reflexivity.
Qed.

(** What a [Rmdir] that answers "directory not empty" has done: shared by
    the two variants, [pat] being the pattern of the count. *)
Lemma Rmdir_not_empty_effect p pat dir st st' :
  match os.Remove p st with
  | (Err e, st1) =>
      if IsNotExist e then (Err ErrorDirNotFound, st1) else (Err e, st1)
  | (Ok _, st1) =>
      let st2 := set_dbFaults (tl (dbFaults st1)) st1 in
      if hd false (dbFaults st1) then (Err ErrSQL, st2)
      else if (0 <? count_under pat dir (files st1))%nat
      then (Err (ErrorString "directory not empty"), st2)
      else db_Exec (delete_dir_row dir) st2
  end = (Err (ErrorString "directory not empty"), st') ->
  is_Some (disk st !! p) /\ disk st' !! p = None
  /\ disk st' <> disk st /\ files st' = files st.
Proof.
  destruct (os.Remove p st) as [[u|e] st1] eqn:Hrm;
    apply os_Remove_inv in Hrm as (Hf & _ & _ & _ & Hr).
  - destruct Hr as [Hsome Hdisk]. cbv zeta.
    destruct (hd false (dbFaults st1)); [discriminate |].
    destruct (0 <? count_under pat dir (files st1))%nat.
    + intros [= <-]. cbn. rewrite Hdisk, Hf.
      assert (Hnone : delete p (disk st) !! p = None) by apply lookup_delete_eq.
      repeat split; auto.
      intros Heq. rewrite Heq in Hnone. rewrite Hnone in Hsome.
      destruct Hsome as [? [=]].
    + rewrite db_Exec_eq. cbv zeta.
      destruct (hd false _); discriminate.
  - destruct Hr as [-> [n ->]]. destruct (IsNotExist _); discriminate.
Qed.

(** C10. [Rmdir] removes the node from the content tree before it looks
    at the table: whenever it answers "directory not empty", in either
    variant, the node at the directory's full path was there before the
    call and is gone after it, so the content tree has changed, while the
    table, and with it the directory's row, is as it was. *)
Theorem Rmdir_not_empty_has_removed_content_dir root dir st st' :
  VirtualFS.Rmdir root dir st
    = (Err (ErrorString "directory not empty"), st')
  \/ BackendVirtualfs.Rmdir root dir st
     = (Err (ErrorString "directory not empty"), st') ->
  is_Some (disk st !! VirtualFS.fullPath root dir)
  /\ disk st' !! VirtualFS.fullPath root dir = None
  /\ disk st' <> disk st
  /\ files st' = files st.
Proof.
  intros [H|H].
  - rewrite VirtualFS_Rmdir_eq in H. eapply Rmdir_not_empty_effect. exact H.
  - rewrite BackendVirtualfs_Rmdir_eq in H.
    change (BackendVirtualfs.fullPath root dir)
      with (VirtualFS.fullPath root dir) in H.
    eapply Rmdir_not_empty_effect. exact H.
Qed.

(** A directory that is not in the content tree is reported as not
    found, whatever the table holds. *)
Lemma Rmdir_missing_content_dir root dir st :
  disk st !! VirtualFS.fullPath root dir = None ->
  VirtualFS.Rmdir root dir st = (Err ErrorDirNotFound, st).
Proof.
  intros H. unfold VirtualFS.Rmdir, os.Remove. rewrite bind_unfold. cbn.
  rewrite H. reflexivity.
Qed.

(** C8, as the code has it.  Once the node at the directory's full path
    has been removed from the content tree and the count query runs,
    [Rmdir] answers "directory not empty", leaving the table alone, if a
    live row lies under [dir/]; and, for [dir] and live rows whose paths
    are text of ASCII characters other than NUL, if no live row other
    than [dir] matches the pattern [dir/%] and the delete statement
    runs, it succeeds and the table has lost [dir]'s row when that was a
    directory row.  [Rmdir] of the variant under [backend/virtualfs] is
    the same function wherever [filepath.Join] leaves its pattern as
    [dir/%]. *)
Theorem Rmdir_emptiness_gate root dir st st1 :
  os.Remove (VirtualFS.fullPath root dir) st = (Ok tt, st1) ->
  hd false (dbFaults st) = false ->
  ((exists rest r, files st !! (dir +:+ "/" +:+ rest) = Some r
                   /\ col_deleted r = false) ->
   exists st', VirtualFS.Rmdir root dir st
               = (Err (ErrorString "directory not empty"), st')
               /\ files st' = files st)
  /\
  (plain_ascii dir = true -> plain_paths (files st) ->
   (forall p r, files st !! p = Some r -> col_deleted r = false ->
                p <> dir -> sql_like (dir +:+ "/%") p = false) ->
   hd false (tl (dbFaults st)) = false ->
   exists st', VirtualFS.Rmdir root dir st = (Ok tt, st')
               /\ files st' = delete_dir_row dir (files st)
               /\ (forall r, files st !! dir = Some r -> col_is_dir r = true ->
                             files st' !! dir = None))
  /\
  (filepath.Join [dir; "%"] = dir +:+ "/%" ->
   BackendVirtualfs.Rmdir root dir st = VirtualFS.Rmdir root dir st).
Proof.
  intros Hrm Hq.
  cut (((exists rest r, files st !! (dir +:+ "/" +:+ rest) = Some r
                        /\ col_deleted r = false) ->
        exists st', VirtualFS.Rmdir root dir st
                    = (Err (ErrorString "directory not empty"), st')
                    /\ files st' = files st)
       /\
       (plain_ascii dir = true -> plain_paths (files st) ->
        (forall p r, files st !! p = Some r -> col_deleted r = false ->
                     p <> dir -> sql_like (dir +:+ "/%") p = false) ->
        hd false (tl (dbFaults st)) = false ->
        exists st', VirtualFS.Rmdir root dir st = (Ok tt, st')
                    /\ files st' = delete_dir_row dir (files st)
                    /\ (forall r, files st !! dir = Some r ->
                                  col_is_dir r = true ->
                                  files st' !! dir = None))).
  { intros [H1 H2]. split; [exact H1 |]. split; [exact H2 |].
    apply Rmdir_variants_agree. }
  rewrite VirtualFS_Rmdir_eq, Hrm. cbv beta iota zeta.
  apply os_Remove_inv in Hrm as (Hf & Hdb & _ & _ & _).
  rewrite Hdb, Hq, Hf. split.
  - intros (rest & r & Hrow & Hdel).
    assert (Hpos : (0 < count_under (dir +:+ "/%") dir (files st))%nat).
    { apply (count_under_pos _ _ _ _ r Hrow).
      - apply sql_like_prefix.
      - apply append_slash_neq.
      - exact Hdel. }
    apply Nat.ltb_lt in Hpos. rewrite Hpos.
    eexists. split; [reflexivity | exact Hf].
  - intros _ _ Hnone Hq2.
    rewrite (count_under_zero _ _ _ Hnone). cbn [Nat.ltb Nat.leb].
    rewrite db_Exec_eq. cbn. rewrite Hq2, Hf.
    eexists. split; [reflexivity |]. cbn. split; [reflexivity |].
    intros r Hr Hd. eapply delete_dir_row_lookup; eauto.
Qed.

(** ** [ensureDirectoryStructure] *)

Lemma insert_or_ignore_preserves k r (t : gmap string Row) k' r' :
  t !! k = Some r -> insert_or_ignore k' r' t !! k = Some r.
Proof.
  intros H. unfold insert_or_ignore.
  destruct (t !! k') eqn:Hk'; [exact H |].
  rewrite lookup_insert_ne; [exact H | congruence].
Qed.

(** The loop of the transactional variant touches nothing but its own
    copy of the table: the state keeps its table and content tree. *)
Lemma VirtualFS_insert_dirs_frame parts cur tx st r st' :
  VirtualFS.insert_dirs parts cur tx st = (r, st') ->
  files st' = files st /\ disk st' = disk st
  /\ wrFaults st' = wrFaults st /\ clock st' = clock st.
Proof.
  revert cur tx st. induction parts as [|part parts IH]; intros cur tx st.
  - intros [= <- <-]. auto.
  - cbn [VirtualFS.insert_dirs]. destruct (decide (part = "")); [apply IH |].
    rewrite bind_unfold. cbn [time_Now]. rewrite bind_unfold.
    unfold wrap. rewrite tx_Exec_eq. cbv zeta.
    destruct (hd false (dbFaults st)).
    + intros [= <- <-]. auto.
    + intros H. apply IH in H. exact H.
Qed.

Lemma VirtualFS_insert_dirs_preserves parts cur tx st tx' st' :
  VirtualFS.insert_dirs parts cur tx st = (Ok tx', st') ->
  forall k r, tx !! k = Some r -> tx' !! k = Some r.
Proof.
  revert cur tx st. induction parts as [|part parts IH]; intros cur tx st.
  - intros [= <- <-]. auto.
  - cbn [VirtualFS.insert_dirs]. destruct (decide (part = "")); [apply IH |].
    rewrite bind_unfold. cbn [time_Now]. rewrite bind_unfold.
    unfold wrap. rewrite tx_Exec_eq. cbv zeta.
    destruct (hd false (dbFaults st)); [discriminate |].
    intros H k r Hk. eapply IH; [exact H |].
    apply insert_or_ignore_preserves. exact Hk.
Qed.

(** The transaction is all or nothing: when [ensureDirectoryStructure]
    of the transactional variant fails, at [Begin], at any insertion or at
    [Commit], the table is the one the call found. *)
Lemma VirtualFS_ensureDirectoryStructure_atomic remote st e st' :
  VirtualFS.ensureDirectoryStructure remote st = (Err e, st') ->
  files st' = files st.
Proof.
  unfold VirtualFS.ensureDirectoryStructure.
  rewrite bind_unfold. unfold wrap at 1. rewrite tx_Begin_eq. cbv zeta.
  destruct (hd false (dbFaults st)).
  - intros [= <- <-]. reflexivity.
  - rewrite bind_unfold.
    destruct (VirtualFS.insert_dirs _ _ _ _) as [[tx'|e1] st1] eqn:Hloop.
    + apply VirtualFS_insert_dirs_frame in Hloop as (Hf & _).
      unfold wrap. rewrite tx_Commit_eq. cbv zeta.
      destruct (hd false (dbFaults st1)); [| discriminate].
      intros [= <- <-]. cbn. exact Hf.
    + apply VirtualFS_insert_dirs_frame in Hloop as (Hf & _).
      intros [= <- <-]. exact Hf.
Qed.


(** Directory materialisation only ever adds rows. *)
Lemma VirtualFS_ensureDirectoryStructure_preserves remote st res st' :
  VirtualFS.ensureDirectoryStructure remote st = (res, st') ->
  forall k r, files st !! k = Some r -> files st' !! k = Some r.
Proof.
  destruct res as [[]|e].
  - unfold VirtualFS.ensureDirectoryStructure.
    rewrite bind_unfold. unfold wrap at 1. rewrite tx_Begin_eq. cbv zeta.
    destruct (hd false (dbFaults st)); [discriminate |].
    rewrite bind_unfold.
    destruct (VirtualFS.insert_dirs _ _ _ _) as [[tx'|e1] st1] eqn:Hloop;
      [| discriminate].
    unfold wrap. rewrite tx_Commit_eq. cbv zeta.
    destruct (hd false (dbFaults st1)); [discriminate |].
    intros [= <-] k r Hk. cbn.
    eapply VirtualFS_insert_dirs_preserves; [exact Hloop | exact Hk].
  - intros H k r Hk.
    rewrite (VirtualFS_ensureDirectoryStructure_atomic _ _ _ _ H). exact Hk.
Qed.



(** ** [io.Copy] through the tee *)

Lemma file_Write_inv p data st r st' :
  os.file_Write p data st = (r, st') ->
  files st' = files st /\ dbFaults st' = dbFaults st /\ clock st' = clock st
  /\ (forall q, q <> p -> disk st' !! q = disk st !! q)
  /\ match r with
     | Ok _ => disk st' = alter (os.append_to data) p (disk st)
     | Err e => e = ErrWrite
     end.
Proof.
  unfold os.file_Write. destruct (hd None (wrFaults st)) as [k|];
    intros [= <- <-]; cbn; repeat split; auto;
    intros q Hq; apply lookup_alter_ne; congruence.
Qed.

Lemma Copy_unfold {W} (tee : W -> list Byte.byte -> W) dst data er src w written st :
  io.Copy tee dst ((data, er) :: src) w written st
  = match (match data with
           | [] => (Ok (written, w), st)
           | _ :: _ =>
               match os.file_Write dst data st with
               | (Ok _, st1) =>
                   (Ok (written + Z.of_nat (length data), tee w data), st1)
               | (Err e, st1) => (Err e, st1)
               end
           end) with
    | (Ok (written', w'), st1) =>
        match er with
        | Some io.EOF => (Ok (written', w'), st1)
        | Some (io.Failed msg) => (Err (ErrRead msg), st1)
        | None => io.Copy tee dst src w' written' st1
        end
    | (Err e, st1) => (Err e, st1)
    end.
Proof.
  cbn [io.Copy]. rewrite bind_unfold. destruct data as [|b data].
  - cbn. destruct er as [[|msg]|]; reflexivity.
  - rewrite bind_unfold.
    destruct (os.file_Write dst (b :: data) st) as [[u|e] st1]; [| reflexivity].
    cbn. destruct er as [[|msg]|]; reflexivity.
Qed.

(** Whatever [io.Copy] returns, it has touched the content file and
    nothing else, and its errors are those of reading and writing. *)
Lemma Copy_frame {W} (tee : W -> list Byte.byte -> W) dst src :
  forall w written st r st',
  io.Copy tee dst src w written st = (r, st') ->
  files st' = files st /\ dbFaults st' = dbFaults st /\ clock st' = clock st
  /\ (forall q, q <> dst -> disk st' !! q = disk st !! q)
  /\ (forall e, r = Err e -> e = ErrWrite \/ exists msg, e = ErrRead msg).
Proof.
  induction src as [|[data er] src IH]; intros w written st r st'.
  - intros [= <- <-]. repeat split; auto. discriminate.
  - rewrite Copy_unfold. destruct data as [|b data].
    + destruct er as [[|msg]|].
      * intros [= <- <-]. repeat split; auto. discriminate.
      * intros [= <- <-]. repeat split; auto. intros e [= <-]. eauto.
      * apply IH.
    + destruct (os.file_Write dst (b :: data) st) as [[u|e] st1] eqn:Hw;
        apply file_Write_inv in Hw as (Hf & Hdb & Hc & Hq & Hr).
      * destruct er as [[|msg]|].
        -- intros [= <- <-]. repeat split; auto. discriminate.
        -- intros [= <- <-]. repeat split; auto. intros e [= <-]. eauto.
        -- intros H. apply IH in H as (Hf' & Hdb' & Hc' & Hq' & Hr').
           repeat split; try congruence.
           ++ intros q Hne. rewrite Hq' by exact Hne. apply Hq. exact Hne.
           ++ exact Hr'.
      * intros [= <- <-]. repeat split; auto. intros e0 [= <-]. auto.
Qed.

(** When [io.Copy] succeeds, the bytes it appended to the content file
    are, in order, the bytes the tee handed to its writer, and their
    number is the count it returns. *)
Lemma Copy_Ok {W} (tee : W -> list Byte.byte -> W) dst src :
  forall w written st c written' w' st',
  disk st !! dst = Some (File c) ->
  io.Copy tee dst src w written st = (Ok (written', w'), st') ->
  exists chunks,
    disk st' !! dst = Some (File (c ++ concat chunks))
    /\ w' = fold_left tee chunks w
    /\ written' = written + Z.of_nat (length (concat chunks)).
Proof.
  induction src as [|[data er] src IH]; intros w written st c written' w' st' Hc.
  - intros [= <- <- <-]. exists []. cbn. rewrite app_nil_r.
    repeat split; auto. lia.
  - rewrite Copy_unfold. destruct data as [|b data].
    + destruct er as [[|msg]|].
      * intros [= <- <- <-]. exists []. cbn. rewrite app_nil_r.
        repeat split; auto. lia.
      * discriminate.
      * apply IH. exact Hc.
    + destruct (os.file_Write dst (b :: data) st) as [[u|e] st1] eqn:Hw;
        [| discriminate].
      apply file_Write_inv in Hw as (_ & _ & _ & _ & Hd).
      assert (Hc1 : disk st1 !! dst = Some (File (c ++ b :: data))).
      { rewrite Hd. rewrite lookup_alter_eq. rewrite Hc. reflexivity. }
      destruct er as [[|msg]|].
      * intros [= <- <- <-]. exists [b :: data]. cbn [concat fold_left].
        rewrite app_nil_r. repeat split; auto.
      * discriminate.
      * intros H. apply (IH _ _ _ _ _ _ _ Hc1) in H as (chunks & H1 & H2 & H3).
        exists ((b :: data) :: chunks). cbn [concat fold_left].
        rewrite length_app. rewrite <- app_assoc in H1.
        repeat split; auto. lia.
Qed.

Lemma fold_hasher_Write chunks w :
  fold_left hasher_Write chunks w = (w ++ concat chunks)%list.
Proof.
  revert w. induction chunks as [|ch chunks IH]; intros w; cbn.
  - rewrite app_nil_r. reflexivity.
  - rewrite IH. unfold hasher_Write. rewrite app_assoc. reflexivity.
Qed.

(** The single pass: after a successful copy into a fresh file through a
    fresh hasher, the hasher has seen exactly the bytes of the file, and
    their number is the size returned. *)
Lemma Copy_hasher_Ok dst src st written' w' st' :
  disk st !! dst = Some (File []) ->
  io.Copy hasher_Write dst src hasher_New 0 st = (Ok (written', w'), st') ->
  disk st' !! dst = Some (File w') /\ written' = Z.of_nat (length w').
Proof.
  intros Hc H. apply (Copy_Ok _ _ _ _ _ _ _ _ _ _ Hc) in H as (chunks & H1 & H2 & H3).
  rewrite fold_hasher_Write in H2. unfold hasher_New in H2. cbn in H1, H2.
  subst w'. split; [exact H1 | lia].
Qed.


(** ** What [io.Copy] returns, from the reader and the environment *)




(** ** [NewObject], [Put] and [Update] *)

Lemma streaming_error_Wrapped msg e : ~ streaming_error (Wrapped msg e).
Proof. intros [H|[m H]]; discriminate. Qed.

Lemma streaming_error_PathError op n : ~ streaming_error (PathError op n).
Proof. intros [H|[m H]]; discriminate. Qed.

Lemma streaming_error_ErrSQL : ~ streaming_error ErrSQL.
Proof. intros [H|[m H]]; discriminate. Qed.

Lemma streaming_error_NotFound : ~ streaming_error ErrorObjectNotFound.
Proof. intros [H|[m H]]; discriminate. Qed.

Lemma only_directories_added_refl t : only_directories_added t t.
Proof. split; auto. Qed.

Lemma only_directories_added_eq t t' : t' = t -> only_directories_added t t'.
Proof. intros ->. apply only_directories_added_refl. Qed.

Lemma only_directories_added_trans t1 t2 t3 :
  only_directories_added t1 t2 -> only_directories_added t2 t3 ->
  only_directories_added t1 t3.
Proof.
  intros [A1 B1] [A2 B2]. split; [auto |].
  intros k r H. destruct (B2 k r H) as [H2|H2]; auto.
Qed.

Lemma insert_or_ignore_adds_dir k now (t : gmap string Row) :
  only_directories_added t (insert_or_ignore k (dir_row now) t).
Proof.
  split.
  - intros k' r H. apply insert_or_ignore_preserves. exact H.
  - intros k' r. unfold insert_or_ignore.
    destruct (t !! k) eqn:Hk; [auto |].
    destruct (decide (k = k')) as [->|Hne].
    + rewrite lookup_insert_eq. intros [= <-]. right. reflexivity.
    + rewrite lookup_insert_ne by exact Hne. auto.
Qed.

Lemma VirtualFS_insert_dirs_adds_dirs parts cur tx st tx' st' :
  VirtualFS.insert_dirs parts cur tx st = (Ok tx', st') ->
  only_directories_added tx tx'.
Proof.
  revert cur tx st. induction parts as [|part parts IH]; intros cur tx st.
  - intros [= <- <-]. apply only_directories_added_refl.
  - cbn [VirtualFS.insert_dirs]. destruct (decide (part = "")); [apply IH |].
    rewrite bind_unfold. cbn [time_Now]. rewrite bind_unfold.
    unfold wrap. rewrite tx_Exec_eq. cbv zeta.
    destruct (hd false (dbFaults st)); [discriminate |].
    intros H. eapply only_directories_added_trans; [| eapply IH; exact H].
    apply insert_or_ignore_adds_dir.
Qed.

Lemma VirtualFS_ensureDirectoryStructure_adds_dirs remote st res st' :
  VirtualFS.ensureDirectoryStructure remote st = (res, st') ->
  only_directories_added (files st) (files st').
Proof.
  destruct res as [[]|e].
  - unfold VirtualFS.ensureDirectoryStructure.
    rewrite bind_unfold. unfold wrap at 1. rewrite tx_Begin_eq. cbv zeta.
    destruct (hd false (dbFaults st)); [discriminate |].
    rewrite bind_unfold.
    destruct (VirtualFS.insert_dirs _ _ _ _) as [[tx'|e1] st1] eqn:Hloop;
      [| discriminate].
    unfold wrap. rewrite tx_Commit_eq. cbv zeta.
    destruct (hd false (dbFaults st1)); [discriminate |].
    intros [= <-]. cbn.
    eapply VirtualFS_insert_dirs_adds_dirs. exact Hloop.
  - intros H. apply only_directories_added_eq.
    eapply VirtualFS_ensureDirectoryStructure_atomic. exact H.
Qed.

Lemma BackendVirtualfs_insert_dirs_adds_dirs parts cur st res st' :
  BackendVirtualfs.insert_dirs parts cur st = (res, st') ->
  only_directories_added (files st) (files st').
Proof.
  revert cur st. induction parts as [|part parts IH]; intros cur st.
  - intros [= <- <-]. apply only_directories_added_refl.
  - cbn [BackendVirtualfs.insert_dirs].
    destruct (decide (part = "")); [apply IH |].
    rewrite bind_unfold. cbn [time_Now]. rewrite bind_unfold.
    unfold wrap. rewrite db_Exec_eq. cbv zeta.
    destruct (hd false (dbFaults st)).
    + intros [= <- <-]. apply only_directories_added_refl.
    + intros H. apply IH in H. cbn in H.
      eapply only_directories_added_trans; [| exact H].
      apply insert_or_ignore_adds_dir.
Qed.

Lemma NewObject_eq remote st :
  VirtualFS.NewObject remote st
  = let st1 := set_dbFaults (tl (dbFaults st)) st in
    if hd false (dbFaults st) then (Err ErrSQL, st1)
    else match files st !! remote with
         | None => (Err ErrorObjectNotFound, st1)
         | Some r =>
             if col_deleted r || col_is_dir r
             then (Err ErrorObjectNotFound, st1)
             else (Ok (scan remote r), st1)
         end.
Proof.
  unfold VirtualFS.NewObject. rewrite bind_unfold, db_Query_eq. cbv zeta.
  destruct (hd false (dbFaults st)); [reflexivity |].
  destruct (files st !! remote) as [r|]; [| reflexivity].
  destruct (col_deleted r || col_is_dir r); reflexivity.
Qed.


(** A streaming failure in the write part of [Put] leaves the table as
    directory materialisation left it. *)
Lemma VirtualFS_Put_write_streaming_error root MD5 in_ src st e st' :
  VirtualFS.Put_write root MD5 in_ src st = (Err e, st') ->
  streaming_error e ->
  only_directories_added (files st) (files st').
Proof.
  unfold VirtualFS.Put_write. intros H He.
  apply bind_Err_inv in H as [H|(u1 & st1 & H1 & H)].
  { apply wrap_Err_inv in H as (e0 & -> & _).
    destruct (streaming_error_Wrapped _ _ He). }
  apply wrap_Ok_inv in H1.
  apply VirtualFS_ensureDirectoryStructure_adds_dirs in H1.
  apply bind_Err_inv in H as [H|(u2 & st2 & H2 & H)].
  { apply os_MkdirAll_inv in H as (_ & _ & _ & _ & Hk).
    destruct (Hk e eq_refl) as [n ->].
    destruct (streaming_error_PathError _ _ He). }
  apply os_MkdirAll_inv in H2 as (Hf2 & _).
  apply bind_Err_inv in H as [H|(u3 & st3 & H3 & H)].
  { apply os_Create_inv in H as (_ & _ & _ & _ & _ & n & ->).
    destruct (streaming_error_PathError _ _ He). }
  apply os_Create_inv in H3 as (Hf3 & _).
  apply bind_Err_inv in H as [H|([size mh] & st4 & H4 & H)].
  { apply Copy_frame in H as (Hf4 & _).
    rewrite Hf4, Hf3, Hf2. exact H1. }
  apply bind_Err_inv in H as [H|(u5 & st5 & H5 & H)].
  { rewrite db_Exec_eq in H. cbv zeta in H.
    destruct (hd false (dbFaults st4)); [| discriminate].
    injection H as <- <-. destruct (streaming_error_ErrSQL He). }
  discriminate.
Qed.

(** What a successful write part of [Put] has done: the content file
    holds the bytes streamed, and the row and the object carry their
    number and the digest of exactly these bytes. *)
Lemma VirtualFS_Put_write_Ok root MD5 in_ src st o st' :
  VirtualFS.Put_write root MD5 in_ src st = (Ok o, st') ->
  exists content,
    disk st' !! VirtualFS.fullPath root (ObjectInfo.Remote src)
      = Some (File content)
    /\ files st' !! ObjectInfo.Remote src
       = Some (row_of_content MD5 (ObjectInfo.ModTime src) content)
    /\ o = object_of_content MD5 (ObjectInfo.Remote src)
             (ObjectInfo.ModTime src) content.
Proof.
  unfold VirtualFS.Put_write. intros H.
  apply bind_Ok_inv in H as (u1 & st1 & _ & H).
  apply bind_Ok_inv in H as (u2 & st2 & _ & H).
  apply bind_Ok_inv in H as (u3 & st3 & H3 & H).
  apply os_Create_inv in H3 as (_ & _ & _ & _ & Hd3).
  apply bind_Ok_inv in H as ([size mh] & st4 & H4 & H).
  apply Copy_hasher_Ok in H4 as [Hd4 Hsize];
    [| rewrite Hd3; apply lookup_insert_eq].
  apply bind_Ok_inv in H as (u5 & st5 & H5 & H).
  rewrite db_Exec_eq in H5. cbv zeta in H5.
  destruct (hd false (dbFaults st4)); [discriminate |].
  injection H5 as _ <-. injection H as <- <-.
  exists mh. cbn. subst size. repeat split.
  - exact Hd4.
  - unfold insert_or_replace. rewrite lookup_insert_eq. reflexivity.
Qed.

Lemma VirtualFS_Put_eq root MD5 in_ src st :
  VirtualFS.Put root MD5 in_ src st
  = let st1 := set_dbFaults (tl (dbFaults st)) st in
    if hd false (dbFaults st) then (Err ErrSQL, st1)
    else match files st !! ObjectInfo.Remote src with
         | None => VirtualFS.Put_write root MD5 in_ src st1
         | Some r =>
             if col_deleted r || col_is_dir r
             then VirtualFS.Put_write root MD5 in_ src st1
             else if VirtualFS.Put_shouldUpdate src (scan (ObjectInfo.Remote src) r)
                  then VirtualFS.Put_write root MD5 in_ src st1
                  else (Ok (scan (ObjectInfo.Remote src) r), st1)
         end.
Proof.
  unfold VirtualFS.Put. rewrite NewObject_eq. cbv zeta.
  destruct (hd false (dbFaults st)); [reflexivity |].
  destruct (files st !! ObjectInfo.Remote src) as [r|]; [| reflexivity].
  destruct (col_deleted r || col_is_dir r); reflexivity.
Qed.

(** [shouldUpdate] stays false in [Put] exactly when size and
    modification time are equal and, where both sides have MD5, the
    hashes are equal. *)
Lemma Put_shouldUpdate_false src o :
  VirtualFS.Put_shouldUpdate src o = false <->
  ObjectInfo.Size src = Object.Size o
  /\ ObjectInfo.ModTime src = Object.ModTime o
  /\ (ObjectInfo.HashesMD5 src = true -> ObjectInfo.Hash src = Object.hash o).
Proof.
  unfold VirtualFS.Put_shouldUpdate, Fs_Hashes_MD5.
  destruct (Z.eqb_spec (ObjectInfo.Size src) (Object.Size o)) as [Hs|Hs];
    cbn [negb]; [| split; [discriminate | tauto]].
  destruct (Z.eqb_spec (ObjectInfo.ModTime src) (Object.ModTime o)) as [Hm|Hm];
    cbn [negb]; [| split; [discriminate | tauto]].
  rewrite andb_true_r.
  destruct (ObjectInfo.HashesMD5 src).
  - destruct (String.eqb_spec (ObjectInfo.Hash src) (Object.hash o)) as [Hh|Hh];
      cbn [negb].
    + tauto.
    + split; [discriminate | intros (_ & _ & H); destruct (Hh (H eq_refl))].
  - split; [intros _; repeat split; auto; discriminate | reflexivity].
Qed.

(** C1, on the variant that compares: a candidate that agrees with its
    live record makes [Put] return that record and touch neither the
    content tree nor the table. *)
Lemma VirtualFS_Put_skips root MD5 in_ src st r :
  hd false (dbFaults st) = false ->
  files st !! ObjectInfo.Remote src = Some r ->
  col_deleted r = false -> col_is_dir r = false ->
  ObjectInfo.Size src = col_size r ->
  ObjectInfo.ModTime src = Parse_RFC3339 (col_mod_time r) ->
  (ObjectInfo.HashesMD5 src = true -> ObjectInfo.Hash src = col_hash r) ->
  VirtualFS.Put root MD5 in_ src st
  = (Ok (scan (ObjectInfo.Remote src) r), set_dbFaults (tl (dbFaults st)) st).
Proof.
  intros Hq Hr Hdel Hdir Hs Hm Hh.
  rewrite VirtualFS_Put_eq. cbv zeta. rewrite Hq, Hr, Hdel, Hdir. cbn [orb].
  replace (VirtualFS.Put_shouldUpdate src (scan (ObjectInfo.Remote src) r))
    with false; [reflexivity |].
  symmetry. apply Put_shouldUpdate_false.
  unfold Object.Size, Object.ModTime. cbn. rewrite Hdel. auto.
Qed.

Lemma VirtualFS_Put_streaming_error root MD5 in_ src st e st' :
  VirtualFS.Put root MD5 in_ src st = (Err e, st') ->
  streaming_error e ->
  only_directories_added (files st) (files st').
Proof.
  rewrite VirtualFS_Put_eq. cbv zeta. intros H He.
  destruct (hd false (dbFaults st)).
  { injection H as <- _. destruct (streaming_error_ErrSQL He). }
  assert (Hw : forall st1, files st1 = files st ->
                VirtualFS.Put_write root MD5 in_ src st1 = (Err e, st') ->
                only_directories_added (files st) (files st')).
  { intros st1 Hf Hp. rewrite <- Hf.
    eapply VirtualFS_Put_write_streaming_error; eauto. }
  destruct (files st !! ObjectInfo.Remote src) as [r|].
  - destruct (col_deleted r || col_is_dir r); [eapply Hw; [| exact H]; reflexivity |].
    destruct (VirtualFS.Put_shouldUpdate _ _);
      [eapply Hw; [| exact H]; reflexivity | discriminate].
  - eapply Hw; [| exact H]. reflexivity.
Qed.

Lemma VirtualFS_Update_streaming_error root MD5 o in_ src st e st' :
  VirtualFS.Update root MD5 o in_ src st = (Err e, st') ->
  streaming_error e ->
  files st' = files st.
Proof.
  unfold VirtualFS.Update. intros H He.
  destruct (negb (VirtualFS.Update_shouldUpdate o src)); [discriminate |].
  apply bind_Err_inv in H as [H|(u2 & st2 & H2 & H)].
  { apply os_MkdirAll_inv in H as (_ & _ & _ & _ & Hk).
    destruct (Hk e eq_refl) as [n ->].
    destruct (streaming_error_PathError _ _ He). }
  apply os_MkdirAll_inv in H2 as (Hf2 & _).
  apply bind_Err_inv in H as [H|(u3 & st3 & H3 & H)].
  { apply os_Create_inv in H as (_ & _ & _ & _ & _ & n & ->).
    destruct (streaming_error_PathError _ _ He). }
  apply os_Create_inv in H3 as (Hf3 & _).
  apply bind_Err_inv in H as [H|([size mh] & st4 & H4 & H)].
  { apply Copy_frame in H as (Hf4 & _). congruence. }
  apply bind_Err_inv in H as [H|(u5 & st5 & H5 & H)].
  { rewrite db_Exec_eq in H. cbv zeta in H.
    destruct (hd false (dbFaults st4)); [| discriminate].
    injection H as <- <-. destruct (streaming_error_ErrSQL He). }
  discriminate.
Qed.

Lemma BackendVirtualfs_Put_streaming_error root in_ src st e st' :
  BackendVirtualfs.Put root in_ src st = (Err e, st') ->
  streaming_error e ->
  only_directories_added (files st) (files st').
Proof.
  unfold BackendVirtualfs.Put. intros H He.
  apply bind_Err_inv in H as [H|(u1 & st1 & H1 & H)].
  { apply wrap_Err_inv in H as (e0 & -> & _).
    destruct (streaming_error_Wrapped _ _ He). }
  apply wrap_Ok_inv in H1.
  apply BackendVirtualfs_insert_dirs_adds_dirs in H1.
  apply bind_Err_inv in H as [H|(u2 & st2 & H2 & H)].
  { apply os_MkdirAll_inv in H as (_ & _ & _ & _ & Hk).
    destruct (Hk e eq_refl) as [n ->].
    destruct (streaming_error_PathError _ _ He). }
  apply os_MkdirAll_inv in H2 as (Hf2 & _).
  apply bind_Err_inv in H as [H|(u3 & st3 & H3 & H)].
  { apply os_Create_inv in H as (_ & _ & _ & _ & _ & n & ->).
    destruct (streaming_error_PathError _ _ He). }
  apply os_Create_inv in H3 as (Hf3 & _).
  apply bind_Err_inv in H as [H|([size mh] & st4 & H4 & H)].
  { apply Copy_frame in H as (Hf4 & _).
    rewrite Hf4, Hf3, Hf2. exact H1. }
  apply bind_Err_inv in H as [H|(u5 & st5 & H5 & H)].
  { rewrite db_Exec_eq in H. cbv zeta in H.
    destruct (hd false (dbFaults st4)); [| discriminate].
    injection H as <- <-. destruct (streaming_error_ErrSQL He). }
  discriminate.
Qed.

Lemma BackendVirtualfs_Update_streaming_error root o in_ src st e st' :
  BackendVirtualfs.Update root o in_ src st = (Err e, st') ->
  streaming_error e ->
  files st' = files st.
Proof.
  unfold BackendVirtualfs.Update. intros H He.
  apply bind_Err_inv in H as [H|(u2 & st2 & H2 & H)].
  { apply os_MkdirAll_inv in H as (_ & _ & _ & _ & Hk).
    destruct (Hk e eq_refl) as [n ->].
    destruct (streaming_error_PathError _ _ He). }
  apply os_MkdirAll_inv in H2 as (Hf2 & _).
  apply bind_Err_inv in H as [H|(u3 & st3 & H3 & H)].
  { apply os_Create_inv in H as (_ & _ & _ & _ & _ & n & ->).
    destruct (streaming_error_PathError _ _ He). }
  apply os_Create_inv in H3 as (Hf3 & _).
  apply bind_Err_inv in H as [H|([size mh] & st4 & H4 & H)].
  { apply Copy_frame in H as (Hf4 & _). congruence. }
  apply bind_Err_inv in H as [H|(u5 & st5 & H5 & H)].
  { rewrite db_Exec_eq in H. cbv zeta in H.
    destruct (hd false (dbFaults st4)); [| discriminate].
    injection H as <- <-. destruct (streaming_error_ErrSQL He). }
  discriminate.
Qed.

(** When the copy fails, its error is what the write part of [Put]
    returns, and the statement that would store the record is never
    reached: the table is the one directory materialisation left. *)
Lemma VirtualFS_Put_write_returns_copy_error root MD5 in_ src st st1 st2 st3 e st4 :
  VirtualFS.ensureDirectoryStructure (ObjectInfo.Remote src) st = (Ok tt, st1) ->
  os.MkdirAll (path.Dir (VirtualFS.fullPath root (ObjectInfo.Remote src))) st1
    = (Ok tt, st2) ->
  os.Create (VirtualFS.fullPath root (ObjectInfo.Remote src)) st2 = (Ok tt, st3) ->
  io.Copy hasher_Write (VirtualFS.fullPath root (ObjectInfo.Remote src)) in_
    hasher_New 0 st3 = (Err e, st4) ->
  VirtualFS.Put_write root MD5 in_ src st = (Err e, st4)
  /\ files st4 = files st1.
Proof.
  intros H1 H2 H3 H4. unfold VirtualFS.Put_write.
  rewrite bind_unfold. unfold wrap. rewrite H1.
  rewrite bind_unfold, H2. rewrite bind_unfold, H3. rewrite bind_unfold, H4.
  split; [reflexivity |].
  apply Copy_frame in H4 as (Hf4 & _).
  apply os_Create_inv in H3 as (Hf3 & _).
  apply os_MkdirAll_inv in H2 as (Hf2 & _). congruence.
Qed.

(** Read from the result: if a content-writing call (Put or Update, of
    either variant) returns an error of the streaming, a failed read of
    the source or a failed write to the content file, then no record was
    stored: every row the table held is unchanged, the record of the
    path written among them, and whatever row is new is a directory row
    that directory materialisation inserted. *)
Lemma streaming_error_stores_no_record root MD5 w st e st' :
  run_content_write root MD5 w st = (Err e, st') ->
  streaming_error e ->
  only_directories_added (files st) (files st')
  /\ (forall r, files st !! written_remote w = Some r ->
                files st' !! written_remote w = Some r).
Proof.
  intros H He.
  assert (Hadd : only_directories_added (files st) (files st')).
  { destruct w as [in_ src|o in_ src|in_ src|o in_ src]; cbn in H.
    - eapply VirtualFS_Put_streaming_error; eauto.
    - apply only_directories_added_eq.
      eapply VirtualFS_Update_streaming_error; eauto.
    - eapply BackendVirtualfs_Put_streaming_error; eauto.
    - apply only_directories_added_eq.
      eapply BackendVirtualfs_Update_streaming_error; eauto. }
  split; [exact Hadd |]. intros r Hr. apply Hadd. exact Hr.
Qed.

(** ** [Remove] *)

(** C5. After [Remove] has succeeded on an object whose path has a row:
    a lookup of the path (whose query runs) answers that there is no
    such object; the row is still in the table, flagged deleted, and an
    object read from it reports size 0, as does the object the call was
    made on; and the content tree holds an empty file at the path with
    [.delete] appended. *)
Theorem Remove_leaves_tombstone root o st o' st' r :
  files st !! Object.remote o = Some r ->
  VirtualFS.Remove root o st = (Ok o', st') ->
  hd false (dbFaults st') = false ->
  (VirtualFS.NewObject (Object.remote o) st').1 = Err ErrorObjectNotFound
  /\ (exists r', files st' !! Object.remote o = Some r'
                 /\ col_deleted r' = true
                 /\ Object.Size (scan (Object.remote o) r') = 0)
  /\ Object.Size o' = 0
  /\ disk st' !! VirtualFS.fullPath root (Object.remote o +:+ ".delete")
     = Some (File []).
Proof.
  intros Hr H Hq. unfold VirtualFS.Remove in H. cbv zeta in H.
  assert (Hmark : exists st1, files st1 = files st /\
    (wrap "failed to create delete placeholder"
       (os.Create (VirtualFS.fullPath root (Object.remote o +:+ ".delete"))) ≫=
     (fun _ => time_Now ≫= fun now =>
        db_Exec (update_where_remote (Object.remote o) (fun r0 =>
          {| col_size := col_size r0; col_mod_time := Format_RFC3339 now;
             col_has_hash := col_has_hash r0; col_hash := col_hash r0;
             col_deleted := true; col_is_dir := col_is_dir r0 |})) ≫=
        fun _ => mret
          {| Object.remote := Object.remote o; Object.size := Object.size o;
             Object.modTime := Object.modTime o;
             Object.hasHash := Object.hasHash o; Object.hash := Object.hash o;
             Object.deleted := true; Object.isDir := Object.isDir o |})) st1
    = (Ok o', st')).
  { destruct (os.Remove (VirtualFS.fullPath root (Object.remote o)) st)
      as [[u|e] st1] eqn:Hrm;
      apply os_Remove_inv in Hrm as (Hf & _ & _ & _ & Hk).
    - exists st1. split; [exact Hf | exact H].
    - destruct Hk as [-> _]. destruct (IsNotExist e); [| discriminate].
      exists st. split; [reflexivity | exact H]. }
  clear H. destruct Hmark as (st1 & Hf1 & H).
  apply bind_Ok_inv in H as (u2 & st2 & H2 & H).
  apply wrap_Ok_inv in H2. apply os_Create_inv in H2 as (Hf2 & _ & _ & _ & Hd2).
  apply bind_Ok_inv in H as (now & st2' & Hnow & H).
  injection Hnow as <- <-.
  apply bind_Ok_inv in H as (u3 & st3 & H3 & H).
  injection H as <- <-.
  rewrite db_Exec_eq in H3. cbv zeta in H3.
  destruct (hd false (dbFaults st2)); [discriminate |].
  injection H3 as _ <-. cbn in Hq. cbn [files disk set_files set_dbFaults].
  assert (Hrow : update_where_remote (Object.remote o) (fun r0 =>
          {| col_size := col_size r0;
             col_mod_time := Format_RFC3339 (clock st2);
             col_has_hash := col_has_hash r0; col_hash := col_hash r0;
             col_deleted := true; col_is_dir := col_is_dir r0 |}) (files st2)
          !! Object.remote o
        = Some {| col_size := col_size r;
                  col_mod_time := Format_RFC3339 (clock st2);
                  col_has_hash := col_has_hash r; col_hash := col_hash r;
                  col_deleted := true; col_is_dir := col_is_dir r |}).
  { unfold update_where_remote. rewrite Hf2, Hf1, Hr.
    apply lookup_insert_eq. }
  repeat split.
  - rewrite NewObject_eq. cbv zeta. cbn [files dbFaults set_files set_dbFaults].
    rewrite Hq, Hrow. reflexivity.
  - eexists. split; [exact Hrow |]. split; reflexivity.
  - rewrite Hd2. apply lookup_insert_eq.
Qed.

(** ** [List] *)

Lemma List_eq dir st :
  VirtualFS.List dir st
  = let st1 := set_dbFaults (tl (dbFaults st)) st in
    if hd false (dbFaults st) then (Err ErrSQL, st1)
    else (Ok (list_entries dir
                (List.filter (fun row =>
                   if decide (dir = "")
                   then negb (sql_like "%/%" row.1) && negb (col_deleted row.2)
                   else sql_like (dir +:+ "/%") row.1 && negb (col_deleted row.2))
                 (map_to_list (files st)))), st1).
Proof.
  unfold VirtualFS.List. rewrite bind_unfold, db_Query_eq. cbv zeta.
  destruct (hd false (dbFaults st)); reflexivity.
Qed.

Lemma in_list_entries dir rows e :
  In e (list_entries dir rows) <->
  exists p r, In (p, r) rows
              /\ (dir = "" \/ path.Dir p = dir) /\ e = entry_of_row p r.
Proof.
  unfold list_entries. rewrite in_flat_map. split.
  - intros ([p r] & Hin & He). cbn in He.
    destruct (bool_decide (dir = "") || bool_decide (path.Dir p = dir)) eqn:Hc;
      [| destruct He].
    exists p, r. split; [exact Hin |]. split.
    + apply orb_true_iff in Hc as [Hc|Hc]; apply bool_decide_eq_true in Hc; auto.
    + unfold entry_of_row. destruct (col_is_dir r); cbn in He;
        destruct He as [He|[]]; auto.
  - intros (p & r & Hin & Hc & ->). exists (p, r). split; [exact Hin |]. cbn.
    replace (bool_decide (dir = "") || bool_decide (path.Dir p = dir)) with true.
    + unfold entry_of_row. destruct (col_is_dir r); left; reflexivity.
    + symmetry. apply orb_true_iff.
      destruct Hc as [Hc|Hc]; [left | right]; apply bool_decide_eq_true; exact Hc.
Qed.

(** The entries [List] returns are the entries of the live rows whose
    path passes its test. *)
Lemma List_entries dir st :
  hd false (dbFaults st) = false ->
  exists entries,
    VirtualFS.List dir st = (Ok entries, set_dbFaults (tl (dbFaults st)) st)
    /\ forall e, e ∈ entries <->
         exists p r, files st !! p = Some r /\ col_deleted r = false
                     /\ listed dir p = true /\ e = entry_of_row p r.
Proof.
  intros Hq. rewrite List_eq. cbv zeta. rewrite Hq.
  eexists. split; [reflexivity |]. intros e.
  rewrite list_elem_of_In, in_list_entries. unfold listed. split.
  - intros (p & r & Hin & Hc & ->). apply filter_In in Hin as [Hin Hf].
    apply list_elem_of_In, elem_of_map_to_list in Hin. cbn in Hf.
    exists p, r. destruct (decide (dir = "")) as [Hd|Hd];
      apply andb_true_iff in Hf as [Hf1 Hf2]; apply negb_true_iff in Hf2.
    + repeat split; auto.
    + destruct Hc as [Hc|Hc]; [contradiction |].
      repeat split; auto. rewrite Hf1. cbn.
      apply bool_decide_eq_true. exact Hc.
  - intros (p & r & Hp & Hdel & Hl & ->). exists p, r.
    destruct (decide (dir = "")) as [Hd|Hd].
    + split; [| auto]. apply filter_In. split.
      * apply list_elem_of_In, elem_of_map_to_list. exact Hp.
      * cbn [fst snd]. rewrite Hdel, Hl. reflexivity.
    + apply andb_true_iff in Hl as [Hl1 Hl2].
      apply bool_decide_eq_true in Hl2. split; [| auto].
      apply filter_In. split.
      * apply list_elem_of_In, elem_of_map_to_list. exact Hp.
      * cbn [fst snd]. rewrite Hdel, Hl1. reflexivity.
Qed.



(** Whatever lies one level under [dir] passes the test of [List]. *)
Lemma one_level_under_listed dir p :
  one_level_under dir p -> listed dir p = true.
Proof.
  unfold one_level_under, listed. destruct (decide (dir = "")) as [Hd|Hd].
  - intros H. rewrite sql_like_any_slash, H. reflexivity.
  - intros [[rest ->] Hdir]. rewrite sql_like_prefix. cbn.
    apply bool_decide_eq_true. exact Hdir.
Qed.








(** ** Resurrection, idempotence and change detection *)

(** What the time layout gives back: the time cut to the whole second. *)
Lemma Parse_Format t :
  Parse_RFC3339 (Format_RFC3339 t) = t - t mod second.
Proof.
  unfold Parse_RFC3339, Format_RFC3339.
  pose proof (Z.mod_eq t second). unfold second in *. lia.
Qed.



(** Reconciling the same candidate again, on the variant that compares:
    after a [Put] that succeeded, a second [Put] of a candidate whose
    size and hash are those of what was stored and whose modification
    time is a whole number of seconds returns the same object and leaves
    the table and the content tree alone. *)
Lemma VirtualFS_Put_twice root MD5 in_ in2 src st o st1 :
  VirtualFS.Put root MD5 in_ src st = (Ok o, st1) ->
  ObjectInfo.Size src = Object.size o ->
  Parse_RFC3339 (Format_RFC3339 (ObjectInfo.ModTime src)) = ObjectInfo.ModTime src ->
  (ObjectInfo.HashesMD5 src = true -> ObjectInfo.Hash src = Object.hash o) ->
  hd false (dbFaults st1) = false ->
  VirtualFS.Put root MD5 in2 src st1
  = (Ok o, set_dbFaults (tl (dbFaults st1)) st1).
Proof.
  intros H Hs Hm Hh Hq.
  rewrite VirtualFS_Put_eq in H. cbv zeta in H.
  destruct (hd false (dbFaults st)); [discriminate |].
  assert (Hw : forall st0,
    VirtualFS.Put_write root MD5 in_ src st0 = (Ok o, st1) ->
    VirtualFS.Put root MD5 in2 src st1
    = (Ok o, set_dbFaults (tl (dbFaults st1)) st1)).
  { intros st0 Hp.
    apply VirtualFS_Put_write_Ok in Hp as (content & _ & Hrow & ->).
    cbn in Hs, Hh.
    rewrite (VirtualFS_Put_skips root MD5 in2 src st1 _ Hq Hrow);
      try reflexivity; try assumption.
    - unfold scan, object_of_content, row_of_content. cbn. rewrite Hm.
      reflexivity.
    - cbn. symmetry. exact Hm. }
  destruct (files st !! ObjectInfo.Remote src) as [r|] eqn:Hr; [| eauto].
  destruct (col_deleted r || col_is_dir r) eqn:Hflags; [eauto |].
  destruct (VirtualFS.Put_shouldUpdate src (scan (ObjectInfo.Remote src) r))
    eqn:Hsu; [eauto |].
  injection H as <- <-.
  apply orb_false_iff in Hflags as [Hdel Hdir].
  apply Put_shouldUpdate_false in Hsu as (Hs' & Hm' & Hh').
  unfold Object.Size, Object.ModTime in Hs', Hm'. cbn in Hs', Hm', Hh'.
  rewrite Hdel in Hs'.
  apply VirtualFS_Put_skips; auto.
Qed.

(** [Put] on a live record that differs in size, in modification time,
    or, where both sides have MD5, in hash, goes on to write. *)
Lemma VirtualFS_Put_writes_on_difference root MD5 in_ src st r :
  hd false (dbFaults st) = false ->
  files st !! ObjectInfo.Remote src = Some r ->
  col_deleted r = false -> col_is_dir r = false ->
  ObjectInfo.Size src <> col_size r
  \/ ObjectInfo.ModTime src <> Parse_RFC3339 (col_mod_time r)
  \/ (ObjectInfo.HashesMD5 src = true /\ ObjectInfo.Hash src <> col_hash r) ->
  VirtualFS.Put root MD5 in_ src st
  = VirtualFS.Put_write root MD5 in_ src (set_dbFaults (tl (dbFaults st)) st).
Proof.
  intros Hq Hr Hdel Hdir Hdiff.
  rewrite VirtualFS_Put_eq. cbv zeta. rewrite Hq, Hr, Hdel, Hdir. cbn [orb].
  destruct (VirtualFS.Put_shouldUpdate src (scan (ObjectInfo.Remote src) r))
    eqn:Hsu; [reflexivity |].
  apply Put_shouldUpdate_false in Hsu as (Hs & Hm & Hh).
  unfold Object.Size, Object.ModTime in Hs, Hm. cbn in Hs, Hm, Hh.
  rewrite Hdel in Hs.
  destruct Hdiff as [Hd|[Hd|[Hd1 Hd2]]]; [destruct (Hd Hs) | destruct (Hd Hm) |].
  destruct (Hd2 (Hh Hd1)).
Qed.

(** [Update] skips precisely the candidates it ought to write: equal
    size, equal hash (or no MD5 on one side) and a modification time
    that differs. *)
Lemma Update_shouldUpdate_false o src :
  VirtualFS.Update_shouldUpdate o src = false <->
  Object.size o = ObjectInfo.Size src
  /\ (ObjectInfo.HashesMD5 src = false \/ ObjectInfo.Hash src = Object.hash o)
  /\ ObjectInfo.ModTime src <> Object.ModTime o.
Proof.
  unfold VirtualFS.Update_shouldUpdate, Fs_Hashes_MD5.
  destruct (Z.eqb_spec (Object.size o) (ObjectInfo.Size src)) as [Hs|Hs];
    [| split; [discriminate | tauto]].
  rewrite andb_true_r.
  destruct (ObjectInfo.HashesMD5 src); cbn [negb orb].
  - destruct (String.eqb_spec (ObjectInfo.Hash src) (Object.hash o)) as [Hh|Hh].
    + destruct (Z.eqb_spec (ObjectInfo.ModTime src) (Object.ModTime o)) as [Hm|Hm];
        cbn [negb]; split; try discriminate; try tauto.
    + split; [discriminate |]. intros (_ & [H|H] & _); [discriminate | tauto].
  - destruct (Z.eqb_spec (ObjectInfo.ModTime src) (Object.ModTime o)) as [Hm|Hm];
      cbn [negb]; split; try discriminate; try tauto.
Qed.

Lemma VirtualFS_Update_skips_changed_modTime root MD5 o in_ src st :
  Object.size o = ObjectInfo.Size src ->
  ObjectInfo.HashesMD5 src = false \/ ObjectInfo.Hash src = Object.hash o ->
  ObjectInfo.ModTime src <> Object.ModTime o ->
  VirtualFS.Update root MD5 o in_ src st = (Ok o, st).
Proof.
  intros Hs Hh Hm. unfold VirtualFS.Update.
  replace (VirtualFS.Update_shouldUpdate o src) with false; [reflexivity |].
  symmetry. apply Update_shouldUpdate_false. auto.
Qed.

(** ** The variant that compares, in general *)





(** Idempotence: after a [Put] that succeeded, a second [Put] of the
    same candidate, when its size and hash are those of what was stored
    and its modification time is a whole number of seconds, returns the
    same object and touches neither the table nor the content tree. *)
Theorem Put_twice_is_Put_once root MD5 in_ in2 src st o st1 :
  VirtualFS.Put root MD5 in_ src st = (Ok o, st1) ->
  ObjectInfo.Size src = Object.size o ->
  Parse_RFC3339 (Format_RFC3339 (ObjectInfo.ModTime src)) = ObjectInfo.ModTime src ->
  (ObjectInfo.HashesMD5 src = true -> ObjectInfo.Hash src = Object.hash o) ->
  hd false (dbFaults st1) = false ->
  exists st2,
    VirtualFS.Put root MD5 in2 src st1 = (Ok o, st2)
    /\ files st2 = files st1 /\ disk st2 = disk st1.
Proof.
  intros H Hs Hm Hh Hq. eexists. split.
  - eapply VirtualFS_Put_twice; eauto.
  - split; reflexivity.
Qed.

(** Change detection in [Put]: on a live record that differs from the
    candidate in size, or in modification time, or, where both sides
    have MD5, in hash, [Put] does not skip: it is its write part, run
    after the lookup. *)
Theorem Put_writes_candidate_that_differs root MD5 in_ src st r :
  hd false (dbFaults st) = false ->
  files st !! ObjectInfo.Remote src = Some r ->
  col_deleted r = false -> col_is_dir r = false ->
  ObjectInfo.Size src <> col_size r
  \/ ObjectInfo.ModTime src <> Parse_RFC3339 (col_mod_time r)
  \/ (ObjectInfo.HashesMD5 src = true /\ ObjectInfo.Hash src <> col_hash r) ->
  VirtualFS.Put root MD5 in_ src st
  = VirtualFS.Put_write root MD5 in_ src (set_dbFaults (tl (dbFaults st)) st).
Proof. apply VirtualFS_Put_writes_on_difference. Qed.



(** In the variant that compares, directory materialisation is one
    transaction: when the call fails, wherever it fails, the table is
    the one it found, and no ancestor row inserted earlier in the call
    is in it. *)
Theorem ensureDirectoryStructure_is_all_or_nothing remote st e st' :
  VirtualFS.ensureDirectoryStructure remote st = (Err e, st') ->
  files st' = files st.
Proof. apply VirtualFS_ensureDirectoryStructure_atomic. Qed.

(** * The claims at concrete inputs *)

(** C1, at an input where the code departs from it.  The record of
    [x.txt] agrees with the candidate in size, modification time and
    hash, and the content has been taken away.  The variant that
    compares returns the record and touches nothing; the variant under
    [backend/virtualfs] streams the content into a new file and stores
    the record again. *)
Theorem Put_of_identical_candidate_rewrites_content MD5 :
  VirtualFS.Put root0 MD5 reader_hello src_x state_ingested
    = (Ok object_x, state_ingested)
  /\ disk state_ingested !! "virtualfs_data/x.txt" = None
  /\ (BackendVirtualfs.Put root0 reader_hello src_x state_ingested).1
     = Ok object_x
  /\ disk (BackendVirtualfs.Put root0 reader_hello src_x state_ingested).2
       !! "virtualfs_data/x.txt" = Some (File hello).
Proof.
  split.
  - rewrite (VirtualFS_Put_skips root0 MD5 reader_hello src_x state_ingested row_x);
      reflexivity.
  - repeat split; vm_compute; reflexivity.
Qed.

(** The modification time is stored in a layout without fractional
    seconds, so a candidate with half a second in its modification time
    never agrees with its own record: after a first [Put] and the
    ingestion of the content, a second [Put] of the same candidate
    writes the content again, where the candidate with a whole number of
    seconds is skipped. *)
Lemma Put_of_subsecond_candidate_rewrites_content :
  let first := VirtualFS.Put root0 tagged_digest reader_hello src_x_subsecond
                 state_empty in
  let ingested := set_disk (delete "virtualfs_data/x.txt" (disk first.2)) first.2 in
  let again := VirtualFS.Put root0 tagged_digest reader_hello src_x_subsecond
                 ingested in
  col_mod_time <$> files first.2 !! "x.txt" = Some 7
  /\ disk ingested !! "virtualfs_data/x.txt" = None
  /\ disk again.2 !! "virtualfs_data/x.txt" = Some (File hello).
Proof. repeat split; vm_compute; reflexivity. Qed.

Lemma Put_of_whole_second_candidate_is_skipped :
  let first := VirtualFS.Put root0 tagged_digest reader_hello src_x_tagged
                 state_empty in
  let ingested := set_disk (delete "virtualfs_data/x.txt" (disk first.2)) first.2 in
  let again := VirtualFS.Put root0 tagged_digest reader_hello src_x_tagged
                 ingested in
  again.1 = first.1
  /\ disk again.2 !! "virtualfs_data/x.txt" = None
  /\ files again.2 = files first.2.
Proof. repeat split; vm_compute; reflexivity. Qed.

(** C2, at an input where the code departs from it.  The object agrees
    with the candidate in size and hash and differs from it in
    modification time by two seconds: [Update] returns without writing
    anything, whatever the reader and the state. *)
Theorem Update_skips_candidate_with_new_modTime MD5 in_ st :
  ObjectInfo.Size src_x_touched = Object.size object_x
  /\ ObjectInfo.Hash src_x_touched = Object.hash object_x
  /\ ObjectInfo.ModTime src_x_touched <> Object.ModTime object_x
  /\ VirtualFS.Update root0 MD5 object_x in_ src_x_touched st
     = (Ok object_x, st).
Proof.
  assert (Hm : ObjectInfo.ModTime src_x_touched <> Object.ModTime object_x)
    by (vm_compute; discriminate).
  split; [reflexivity |]. split; [reflexivity |]. split; [exact Hm |].
  apply VirtualFS_Update_skips_changed_modTime.
  - reflexivity.
  - right. reflexivity.
  - exact Hm.
Qed.

(** The same candidate through [Put] is written. *)
Lemma Put_writes_candidate_with_new_modTime MD5 in_ :
  VirtualFS.Put root0 MD5 in_ src_x_touched state_stored
  = VirtualFS.Put_write root0 MD5 in_ src_x_touched state_stored.
Proof.
  rewrite (VirtualFS_Put_writes_on_difference root0 MD5 in_ src_x_touched
             state_stored row_x); try reflexivity.
  right. left. vm_compute. discriminate.
Qed.

(** And [Update] writes the candidate that differs in nothing. *)
Lemma Update_writes_identical_candidate :
  disk (VirtualFS.Update root0 tagged_digest object_x reader_hello src_x
          state_ingested).2 !! "virtualfs_data/x.txt" = Some (File hello).
Proof. vm_compute. reflexivity. Qed.

(** C3, at an input where the code departs from it.  The source reports
    a digest that is not the one of the bytes it delivers; [Put] and
    [Update] of the variant under [backend/virtualfs] write the bytes
    and store the digest the source reported. *)
Theorem BackendVirtualfs_stores_the_hash_of_the_source :
  ObjectInfo.Hash src_x_stale <> md5_hello
  /\ disk (BackendVirtualfs.Put root0 reader_hello src_x_stale state_empty).2
    !! "virtualfs_data/x.txt" = Some (File hello)
  /\ col_hash <$> files (BackendVirtualfs.Put root0 reader_hello src_x_stale
                           state_empty).2 !! "x.txt"
     = Some (ObjectInfo.Hash src_x_stale)
  /\ disk (BackendVirtualfs.Update root0 object_x reader_hello src_x_stale
             state_ingested).2
       !! "virtualfs_data/x.txt" = Some (File hello)
  /\ col_hash <$> files (BackendVirtualfs.Update root0 object_x reader_hello
                           src_x_stale state_ingested).2 !! "x.txt"
     = Some (ObjectInfo.Hash src_x_stale).
Proof.
  split; [vm_compute; discriminate |].
  repeat split; vm_compute; reflexivity.
Qed.

(** A source without MD5: the variant under [backend/virtualfs] stores no
    hash, the variant that compares stores the digest of the bytes. *)
Lemma hash_stored_for_source_without_MD5 :
  files (BackendVirtualfs.Put root0 reader_hello src_x_no_hash state_empty).2
    !! "x.txt"
    = Some {| col_size := 5; col_mod_time := 7; col_has_hash := false;
              col_hash := ""; col_deleted := false; col_is_dir := false |}
  /\ files (VirtualFS.Put root0 tagged_digest reader_hello src_x_no_hash
              state_empty).2 !! "x.txt"
     = Some (row_of_content tagged_digest (7 * second) hello).
Proof. split; vm_compute; reflexivity. Qed.

(** C9, at an input where the code departs from it.  Materialising the
    ancestors of [a/b/c.txt] when the second insertion fails: the variant
    under [backend/virtualfs] returns the error and the row of [a],
    inserted before, is in the table. *)
Theorem BackendVirtualfs_ensureDirectoryStructure_keeps_earlier_rows :
  (BackendVirtualfs.ensureDirectoryStructure "a/b/c.txt"
     state_second_statement_fails).1
    = Err (Wrapped "failed to insert directory a/b" ErrSQL)
  /\ files state_second_statement_fails !! "a" = None
  /\ files (BackendVirtualfs.ensureDirectoryStructure "a/b/c.txt"
              state_second_statement_fails).2 !! "a"
     = Some (dir_row (5 * second)).
Proof. repeat split; vm_compute; reflexivity. Qed.

(** The transactional variant at the same failure. *)
Lemma VirtualFS_ensureDirectoryStructure_rolls_back :
  (VirtualFS.ensureDirectoryStructure "a/b/c.txt"
     state_third_statement_fails).1
    = Err (Wrapped "failed to insert directory a/b" ErrSQL)
  /\ files (VirtualFS.ensureDirectoryStructure "a/b/c.txt"
              state_third_statement_fails).2 = ∅.
Proof. repeat split; vm_compute; reflexivity. Qed.

(** The scenario of the specification on the variant that compares:
    create [x.txt]; ingest it and reconcile again, which is skipped;
    mark it deleted, after which the lookup finds nothing and the row
    reports size 0; reconcile new content, which is stored. *)
Example concrete_scenario :
  let created := VirtualFS.Put root0 tagged_digest reader_hello src_x_tagged
                   state_empty in
  let ingested := set_disk (delete "virtualfs_data/x.txt" (disk created.2))
                    created.2 in
  let skipped := VirtualFS.Put root0 tagged_digest reader_hello src_x_tagged
                   ingested in
  let removed := VirtualFS.Remove root0
                   (object_of_content tagged_digest "x.txt" (7 * second) hello)
                   skipped.2 in
  let revived := VirtualFS.Put root0 tagged_digest reader_hello src_x_tagged
                   removed.2 in
  created.1 = Ok (object_of_content tagged_digest "x.txt" (7 * second) hello)
  /\ files created.2 !! "x.txt"
     = Some (row_of_content tagged_digest (7 * second) hello)
  /\ skipped = (created.1, ingested)
  /\ (VirtualFS.NewObject "x.txt" removed.2).1 = Err ErrorObjectNotFound
  /\ col_deleted <$> files removed.2 !! "x.txt" = Some true
  /\ Object.Size <$> (scan "x.txt" <$> files removed.2 !! "x.txt") = Some 0
  /\ disk removed.2 !! "virtualfs_data/x.txt.delete" = Some (File [])
  /\ files revived.2 !! "x.txt"
     = Some (row_of_content tagged_digest (7 * second) hello)
  /\ (VirtualFS.NewObject "x.txt" revived.2).1 = created.1.
Proof. repeat split; vm_compute; reflexivity. Qed.

(** * Witnesses and counterexamples *)

Lemma Remove_leaves_tombstone_witness :
  files state_stored !! "x.txt" = Some row_x
  /\ (VirtualFS.Remove root0 object_x state_stored).1 = Ok object_x_removed
  /\ (VirtualFS.NewObject "x.txt"
        (VirtualFS.Remove root0 object_x state_stored).2).1
     = Err ErrorObjectNotFound
  /\ (exists r',
        files (VirtualFS.Remove root0 object_x state_stored).2 !! "x.txt"
          = Some r'
        /\ col_deleted r' = true /\ Object.Size (scan "x.txt" r') = 0)
  /\ Object.Size object_x_removed = 0
  /\ disk (VirtualFS.Remove root0 object_x state_stored).2
       !! VirtualFS.fullPath root0 ("x.txt" +:+ ".delete") = Some (File []).
Proof.
  split; [reflexivity |]. split; [vm_compute; reflexivity |].
  apply (Remove_leaves_tombstone root0 object_x state_stored object_x_removed
           (VirtualFS.Remove root0 object_x state_stored).2 row_x).
  - reflexivity.
  - vm_compute. reflexivity.
  - vm_compute. reflexivity.
Defined.





(** The listings of the records [a], [a/b] and [a/b/c]. *)
Example List_abc :
  (VirtualFS.List "a" state_abc).1 = Ok [entry_of_row "a/b" (dir_row 0)]
  /\ (VirtualFS.List "a/b" state_abc).1 = Ok [entry_of_row "a/b/c" (file_row 3)]
  /\ (VirtualFS.List "" state_abc).1 = Ok [entry_of_row "a" (dir_row 0)].
Proof. repeat split; vm_compute; reflexivity. Qed.


Lemma Rmdir_emptiness_gate_witness :
  (os.Remove (VirtualFS.fullPath root0 "a") state_dir_ingested
     = (Ok tt, (os.Remove (VirtualFS.fullPath root0 "a") state_dir_ingested).2)
   /\ os.Remove (VirtualFS.fullPath root0 "a") state_dir_empty
      = (Ok tt, (os.Remove (VirtualFS.fullPath root0 "a") state_dir_empty).2)
   /\ files state_dir_ingested !! ("a" +:+ "/" +:+ "b") = Some (file_row 3)
   /\ col_deleted (file_row 3) = false
   /\ plain_ascii "a" = true)
  /\ (exists st', VirtualFS.Rmdir root0 "a" state_dir_ingested
                  = (Err (ErrorString "directory not empty"), st')
                  /\ files st' = files state_dir_ingested)
  /\ (exists st', VirtualFS.Rmdir root0 "a" state_dir_empty = (Ok tt, st')
                  /\ files st' = delete_dir_row "a" (files state_dir_empty)
                  /\ files st' !! "a" = None)
  /\ BackendVirtualfs.Rmdir root0 "a" state_dir_empty
     = VirtualFS.Rmdir root0 "a" state_dir_empty.
Proof.
  split; [repeat split; vm_compute; reflexivity |].
  destruct (Rmdir_emptiness_gate root0 "a" state_dir_ingested
              (os.Remove (VirtualFS.fullPath root0 "a") state_dir_ingested).2)
    as (Hfull & _ & _); [vm_compute; reflexivity | reflexivity |].
  destruct (Rmdir_emptiness_gate root0 "a" state_dir_empty
              (os.Remove (VirtualFS.fullPath root0 "a") state_dir_empty).2)
    as (_ & Hempty & Hsame); [vm_compute; reflexivity | reflexivity |].
  split.
  { apply Hfull. exists "b", (file_row 3). split; reflexivity. }
  split; [| apply Hsame; reflexivity].
  destruct Hempty as (st' & Hrun & Hfiles & Hrow).
  - reflexivity.
  - intros p r Hp _. unfold state_dir_empty in Hp. cbn [files] in Hp.
    apply lookup_singleton_Some in Hp as [<- _]. reflexivity.
  - intros p r Hp _ Hne. unfold state_dir_empty in Hp. cbn [files] in Hp.
    apply lookup_singleton_Some in Hp as [<- _]. destruct (Hne eq_refl).
  - reflexivity.
  - exists st'. split; [exact Hrun |]. split; [exact Hfiles |].
    apply (Hrow (dir_row 0)); reflexivity.
Defined.

(** The two outcomes of the gate, run. *)
Example Rmdir_runs :
  (VirtualFS.Rmdir root0 "a" state_dir_empty).1 = Ok tt
  /\ files (VirtualFS.Rmdir root0 "a" state_dir_empty).2 = ∅
  /\ (VirtualFS.Rmdir root0 "a" state_dir_ingested).1
     = Err (ErrorString "directory not empty").
Proof. repeat split; vm_compute; reflexivity. Qed.

(** A first [Rmdir] of the directory [a], whose record [a/b] is live and
    whose content has been ingested, leaves the state in which [a] is
    gone from the content tree. *)
Lemma Rmdir_refused_leaves_directory_gone :
  VirtualFS.Rmdir root0 "a" state_dir_ingested
  = (Err (ErrorString "directory not empty"), state_dir_gone).
Proof. vm_compute. reflexivity. Qed.

(** C8 as stated fails where the directory is gone from the content
    tree: a live record lies under [a], and [Rmdir] answers that the
    directory was not found. *)
Lemma Rmdir_answers_not_found_over_live_record :
  files state_dir_gone !! "a/b" = Some (file_row 3)
  /\ col_deleted (file_row 3) = false
  /\ VirtualFS.Rmdir root0 "a" state_dir_gone = (Err ErrorDirNotFound, state_dir_gone)
  /\ BackendVirtualfs.Rmdir root0 "a" state_dir_gone
     = (Err ErrorDirNotFound, state_dir_gone).
Proof. repeat split; vm_compute; reflexivity. Qed.

(** The pattern of the count is not escaped: the empty directory [a_c]
    is refused because of the record [abc/x], and its node is gone from
    the content tree all the same. *)
Lemma Rmdir_counts_wildcard_matches :
  (VirtualFS.Rmdir root0 "a_c" state_wildcard).1
    = Err (ErrorString "directory not empty")
  /\ disk (VirtualFS.Rmdir root0 "a_c" state_wildcard).2
       !! "virtualfs_data/a_c" = None.
Proof. repeat split; vm_compute; reflexivity. Qed.

Lemma Rmdir_not_empty_has_removed_content_dir_witness :
  (VirtualFS.Rmdir root0 "a" state_dir_ingested
     = (Err (ErrorString "directory not empty"),
        (VirtualFS.Rmdir root0 "a" state_dir_ingested).2)
   /\ is_Some (disk state_dir_ingested !! VirtualFS.fullPath root0 "a")
   /\ disk (VirtualFS.Rmdir root0 "a" state_dir_ingested).2
        !! VirtualFS.fullPath root0 "a" = None
   /\ disk (VirtualFS.Rmdir root0 "a" state_dir_ingested).2
      <> disk state_dir_ingested
   /\ files (VirtualFS.Rmdir root0 "a" state_dir_ingested).2
      = files state_dir_ingested)
  /\ (BackendVirtualfs.Rmdir root0 "a" state_dir_ingested
        = (Err (ErrorString "directory not empty"),
           (BackendVirtualfs.Rmdir root0 "a" state_dir_ingested).2)
      /\ is_Some (disk state_dir_ingested !! VirtualFS.fullPath root0 "a")
      /\ disk (BackendVirtualfs.Rmdir root0 "a" state_dir_ingested).2
           !! VirtualFS.fullPath root0 "a" = None
      /\ disk (BackendVirtualfs.Rmdir root0 "a" state_dir_ingested).2
         <> disk state_dir_ingested
      /\ files (BackendVirtualfs.Rmdir root0 "a" state_dir_ingested).2
         = files state_dir_ingested).
Proof.
  split.
  - split; [vm_compute; reflexivity |].
    apply (Rmdir_not_empty_has_removed_content_dir root0 "a" state_dir_ingested
             (VirtualFS.Rmdir root0 "a" state_dir_ingested).2).
    left. vm_compute. reflexivity.
  - split; [vm_compute; reflexivity |].
    apply (Rmdir_not_empty_has_removed_content_dir root0 "a" state_dir_ingested
             (BackendVirtualfs.Rmdir root0 "a" state_dir_ingested).2).
    right. vm_compute. reflexivity.
Defined.




Lemma Put_twice_is_Put_once_witness :
  (VirtualFS.Put root0 tagged_digest reader_hello src_x_tagged state_empty).1
    = Ok (object_of_content tagged_digest "x.txt" (7 * second) hello)
  /\ exists st2,
       VirtualFS.Put root0 tagged_digest reader_hello src_x_tagged
         (VirtualFS.Put root0 tagged_digest reader_hello src_x_tagged
            state_empty).2
         = (Ok (object_of_content tagged_digest "x.txt" (7 * second) hello), st2)
       /\ files st2
          = files (VirtualFS.Put root0 tagged_digest reader_hello src_x_tagged
                     state_empty).2
       /\ disk st2
          = disk (VirtualFS.Put root0 tagged_digest reader_hello src_x_tagged
                    state_empty).2.
Proof.
  split; [vm_compute; reflexivity |].
  apply (Put_twice_is_Put_once root0 tagged_digest reader_hello reader_hello
           src_x_tagged state_empty
           (object_of_content tagged_digest "x.txt" (7 * second) hello)
           (VirtualFS.Put root0 tagged_digest reader_hello src_x_tagged
              state_empty).2).
  - vm_compute. reflexivity.
  - reflexivity.
  - vm_compute. reflexivity.
  - intros _. reflexivity.
  - vm_compute. reflexivity.
Defined.

Lemma Put_writes_candidate_that_differs_witness :
  files state_stored !! "x.txt" = Some row_x
  /\ ObjectInfo.ModTime src_x_touched <> Parse_RFC3339 (col_mod_time row_x)
  /\ VirtualFS.Put root0 tagged_digest reader_hello src_x_touched state_stored
     = VirtualFS.Put_write root0 tagged_digest reader_hello src_x_touched
         (set_dbFaults (tl (dbFaults state_stored)) state_stored).
Proof.
  assert (Hm : ObjectInfo.ModTime src_x_touched
               <> Parse_RFC3339 (col_mod_time row_x))
    by (vm_compute; discriminate).
  split; [reflexivity |]. split; [exact Hm |].
  apply (Put_writes_candidate_that_differs root0 tagged_digest reader_hello
           src_x_touched state_stored row_x); try reflexivity.
  right. left. exact Hm.
Defined.

Lemma ensureDirectoryStructure_is_all_or_nothing_witness :
  (VirtualFS.ensureDirectoryStructure "a/b/c.txt"
     state_third_statement_fails).1
    = Err (Wrapped "failed to insert directory a/b" ErrSQL)
  /\ files (VirtualFS.ensureDirectoryStructure "a/b/c.txt"
              state_third_statement_fails).2
     = files state_third_statement_fails.
Proof.
  split; [vm_compute; reflexivity |].
  apply (ensureDirectoryStructure_is_all_or_nothing "a/b/c.txt"
           state_third_statement_fails
           (Wrapped "failed to insert directory a/b" ErrSQL)
           (VirtualFS.ensureDirectoryStructure "a/b/c.txt"
              state_third_statement_fails).2).
  vm_compute. reflexivity.
Defined.



(** * What each call may change *)



Lemma db_Exec_inv stmt st res st' :
  db_Exec stmt st = (res, st') ->
  disk st' = disk st /\ clock st' = clock st /\ wrFaults st' = wrFaults st
  /\ dbFaults st' = tl (dbFaults st)
  /\ ((res = Err ErrSQL /\ hd false (dbFaults st) = true
       /\ files st' = files st)
      \/ (res = Ok tt /\ hd false (dbFaults st) = false
          /\ files st' = stmt (files st))).
Proof.
  rewrite db_Exec_eq. cbv zeta.
  destruct (hd false (dbFaults st)); intros [= <- <-]; cbn; auto 10.
Qed.

Lemma only_touched_refl touched d : only_touched touched d d.
Proof. split; auto. Qed.


Lemma only_touched_trans touched d1 d2 d3 :
  only_touched touched d1 d2 -> only_touched touched d2 d3 ->
  only_touched touched d1 d3.
Proof.
  intros [H1 H1'] [H2 H2']. split.
  - intros q n Hq Hn. apply H2, H1; auto.
  - intros q n Hq Hn. destruct (H2' q n Hq Hn) as [H|H]; [| auto].
    apply H1'; auto.
Qed.




(** [os.MkdirAll] adds directories where there was nothing, and nothing
    else. *)
Lemma os_mkdir_each_disk ps st r st' :
  os.mkdir_each ps st = (r, st') -> only_touched [] (disk st) (disk st').
Proof.
  revert st. induction ps as [|p ps IH]; intros st.
  - intros [= <- <-]. apply only_touched_refl.
  - cbn [os.mkdir_each]. rewrite bind_unfold. cbn.
    destruct (disk st !! p) as [[c|]|] eqn:Hp.
    + intros [= <- <-]. apply only_touched_refl.
    + apply IH.
    + rewrite bind_unfold. cbn. intros H. apply IH in H. cbn in H.
      eapply only_touched_trans; [| exact H].
      split; intros q n _ Hn.
      * rewrite lookup_insert_ne; [exact Hn | congruence].
      * destruct (decide (p = q)) as [->|Hne].
        -- rewrite lookup_insert_eq in Hn. right. congruence.
        -- rewrite lookup_insert_ne in Hn by exact Hne. auto.
Qed.








(** ** The variant that compares before it writes *)

















(** ** The variant under [backend/virtualfs] *)







(** * A stream that fails *)









(** * What holds across every call *)
















(** * More on the single methods *)

(** ** [SetModTime] *)


(** ** [Remove] *)

(** X14. The comparing variant creates the marker without creating the
    directory it lies in.  When the content of an object has been taken
    away together with its directory, and nothing on the way down to
    that directory is a file, [Remove] on the object fails with the
    wrapped error of [os.Create], and leaves the table and the content
    tree as they were: the row is not turned into a tombstone. *)
Theorem Remove_fails_where_the_directory_is_gone root o st :
  disk st !! VirtualFS.fullPath root (Object.remote o) = None ->
  (forall q c,
     q ∈ os.chain (path.Dir (VirtualFS.fullPath root (Object.remote o))) ->
     disk st !! q <> Some (File c)) ->
  os.is_directory (disk st)
    (path.Dir (VirtualFS.fullPath root (Object.remote o +:+ ".delete")))
    = false ->
  exists n,
    VirtualFS.Remove root o st
    = (Err (Wrapped "failed to create delete placeholder"
              (PathError "open" n)), st).
Proof.
  intros Hp _ Hdir. unfold VirtualFS.Remove. cbv zeta.
  assert (Hrm : os.Remove (VirtualFS.fullPath root (Object.remote o)) st
                = (Err (PathError "remove" ENOENT), st)).
  { unfold os.Remove. rewrite bind_unfold. cbn. rewrite Hp. reflexivity. }
  rewrite Hrm. cbn [IsNotExist]. rewrite bind_unfold.
  unfold wrap, os.Create. rewrite bind_unfold. cbn. rewrite Hdir.
  destruct (disk st !! path.Dir
              (VirtualFS.fullPath root (Object.remote o +:+ ".delete")))
    as [[c|]|]; eexists; reflexivity.
Qed.

(** X15. In the variant under [backend/virtualfs], after [Remove] has
    succeeded on an object whose path has a row, the row is the row it
    was with [deleted] set and [mod_time] the time of the call, every
    other row is as it was, the marker is an empty file, and a lookup of
    the path (whose query runs) answers that there is no such object. *)
Theorem BackendVirtualfs_Remove_leaves_tombstone root o st st' r :
  files st !! Object.remote o = Some r ->
  BackendVirtualfs.Remove root o st = (Ok tt, st') ->
  files st' = <[Object.remote o := tombstone_of (clock st) r]> (files st)
  /\ disk st' !! BackendVirtualfs.fullPath root (Object.remote o +:+ ".delete")
     = Some (File [])
  /\ (hd false (dbFaults st') = false ->
      (BackendVirtualfs.NewObject (Object.remote o) st').1
      = Err ErrorObjectNotFound).
Proof.
  intros Hr H. unfold BackendVirtualfs.Remove in H. cbv zeta in H.
  assert (Hmark : exists st1, files st1 = files st /\ clock st1 = clock st /\
    (os.MkdirAll (filepath.Dir
       (BackendVirtualfs.fullPath root (Object.remote o +:+ ".delete"))) ≫=
     (fun _ =>
        os.Create (BackendVirtualfs.fullPath root (Object.remote o +:+ ".delete"))
        ≫= fun _ => time_Now ≫= fun now =>
        db_Exec (update_where_remote (Object.remote o) (fun r0 =>
          {| col_size := col_size r0; col_mod_time := Format_RFC3339 now;
             col_has_hash := col_has_hash r0; col_hash := col_hash r0;
             col_deleted := true; col_is_dir := col_is_dir r0 |})))) st1
    = (Ok tt, st')).
  { destruct (os.Remove (BackendVirtualfs.fullPath root (Object.remote o)) st)
      as [[u|e] st1] eqn:Hrm;
      apply os_Remove_inv in Hrm as (Hf & _ & _ & Hc & Hk).
    - exists st1. auto.
    - destruct Hk as [-> _]. destruct (IsNotExist e); [| discriminate].
      exists st. auto. }
  clear H. destruct Hmark as (st1 & Hf1 & Hc1 & H).
  apply bind_Ok_inv in H as (u2 & st2 & H2 & H).
  apply os_MkdirAll_inv in H2 as (Hf2 & _ & _ & Hc2 & _).
  apply bind_Ok_inv in H as (u3 & st3 & H3 & H).
  apply os_Create_inv in H3 as (Hf3 & _ & _ & Hc3 & Hd3).
  apply bind_Ok_inv in H as (now & st3' & Hnow & H).
  injection Hnow as <- <-.
  apply db_Exec_inv in H as (Hd & _ & _ & _ & [(? & _)|(_ & _ & Hf)]);
    [discriminate |].
  assert (Hfiles : files st'
                   = <[Object.remote o := tombstone_of (clock st) r]> (files st)).
  { rewrite Hf. unfold update_where_remote.
    rewrite Hf3, Hf2, Hf1, Hr, Hc3, Hc2, Hc1. reflexivity. }
  split; [exact Hfiles |]. split.
  - rewrite Hd, Hd3. apply lookup_insert_eq.
  - intros Hq. change BackendVirtualfs.NewObject with VirtualFS.NewObject.
    rewrite NewObject_eq. cbv zeta. rewrite Hq. cbn [files set_dbFaults fst].
    rewrite Hfiles, lookup_insert_eq. reflexivity.
Qed.

(** ** [Rmdir] *)



(** * Round trips *)

Lemma Parse_mod c : Parse_RFC3339 c mod second = 0.
Proof. unfold Parse_RFC3339. apply Z.mod_mul. discriminate. Qed.

Lemma cut_scan p r : cut_to_the_second (scan p r) = scan p r.
Proof.
  unfold cut_to_the_second, scan. cbn. rewrite Parse_mod, Z.sub_0_r.
  reflexivity.
Qed.

Lemma scan_row_of_content MD5 p modTime content :
  scan p (row_of_content MD5 modTime content)
  = cut_to_the_second (object_of_content MD5 p modTime content).
Proof.
  unfold cut_to_the_second, scan, row_of_content, object_of_content. cbn.
  rewrite Parse_Format. reflexivity.
Qed.

(** What a successful [Put] of the variant under [backend/virtualfs] has
    done: the content file holds the bytes streamed, the row carries
    their number, and the hash is the one the source reports. *)
Lemma BackendVirtualfs_Put_Ok root in_ src st o st' :
  BackendVirtualfs.Put root in_ src st = (Ok o, st') ->
  exists content,
    let hashSum :=
      if negb (ObjectInfo.HashErr src)
         && negb (String.eqb (ObjectInfo.Hash src) "")
      then ObjectInfo.Hash src else "" in
    let row :=
      {| col_size := Z.of_nat (length content);
         col_mod_time := Format_RFC3339 (ObjectInfo.ModTime src);
         col_has_hash := negb (String.eqb hashSum ""); col_hash := hashSum;
         col_deleted := false; col_is_dir := false |} in
    disk st' !! BackendVirtualfs.fullPath root (ObjectInfo.Remote src)
      = Some (File content)
    /\ files st' !! ObjectInfo.Remote src = Some row
    /\ o = {| Object.remote := ObjectInfo.Remote src;
              Object.size := Z.of_nat (length content);
              Object.modTime := ObjectInfo.ModTime src;
              Object.hasHash := negb (String.eqb hashSum "");
              Object.hash := hashSum;
              Object.deleted := false; Object.isDir := false |}.
Proof.
  unfold BackendVirtualfs.Put. intros H.
  apply bind_Ok_inv in H as (u1 & st1 & _ & H).
  apply bind_Ok_inv in H as (u2 & st2 & _ & H).
  apply bind_Ok_inv in H as (u3 & st3 & H3 & H).
  apply os_Create_inv in H3 as (_ & _ & _ & _ & Hd3).
  apply bind_Ok_inv in H as ([size w] & st4 & H4 & H).
  eapply Copy_Ok in H4 as (chunks & Hd4 & _ & Hsize);
    [| rewrite Hd3; apply lookup_insert_eq].
  apply bind_Ok_inv in H as (u5 & st5 & H5 & H).
  apply db_Exec_inv in H5 as (Hd & _ & _ & _ & [(? & _)|(_ & _ & Hf)]);
    [discriminate |].
  injection H as <- <-.
  exists (concat chunks). cbv zeta. cbn [app] in Hd4. subst size.
  rewrite Hd, Hf. unfold insert_or_replace. rewrite lookup_insert_eq.
  split; [exact Hd4 |]. split; reflexivity.
Qed.

(** The object a successful [Put] returns and the row it leaves. *)
Lemma Put_Ok_row root MD5 in_ src st o st' :
  VirtualFS.Put root MD5 in_ src st = (Ok o, st')
  \/ BackendVirtualfs.Put root in_ src st = (Ok o, st') ->
  exists r, files st' !! ObjectInfo.Remote src = Some r
            /\ col_deleted r = false /\ col_is_dir r = false
            /\ scan (ObjectInfo.Remote src) r = cut_to_the_second o.
Proof.
  intros [H|H].
  - rewrite VirtualFS_Put_eq in H. cbv zeta in H.
    destruct (hd false (dbFaults st)); [discriminate |].
    assert (Hw : forall st0,
      VirtualFS.Put_write root MD5 in_ src st0 = (Ok o, st') ->
      exists r, files st' !! ObjectInfo.Remote src = Some r
                /\ col_deleted r = false /\ col_is_dir r = false
                /\ scan (ObjectInfo.Remote src) r = cut_to_the_second o).
    { intros st0 Hp.
      apply VirtualFS_Put_write_Ok in Hp as (content & _ & Hrow & ->).
      eexists. split; [exact Hrow |]. split; [reflexivity |].
      split; [reflexivity | apply scan_row_of_content]. }
    destruct (files st !! ObjectInfo.Remote src) as [r|] eqn:Hr; [| eauto].
    destruct (col_deleted r || col_is_dir r) eqn:Hflags; [eauto |].
    destruct (VirtualFS.Put_shouldUpdate src (scan (ObjectInfo.Remote src) r));
      [eauto |].
    injection H as <- <-. apply orb_false_elim in Hflags as [Hl Hd].
    exists r. cbn [files set_dbFaults]. rewrite cut_scan. auto.
  - apply BackendVirtualfs_Put_Ok in H as (content & _ & Hrow & ->).
    cbv zeta in Hrow. eexists. split; [exact Hrow |].
    split; [reflexivity |]. split; [reflexivity |].
    unfold scan, cut_to_the_second. cbn. rewrite Parse_Format. reflexivity.
Qed.

(** X17. What [Put] returns is found again.  After a successful [Put]
    of either variant, of a candidate whose modification time lies in
    the years 0 to 9999, a lookup of the candidate's path (whose query
    runs) returns the object [Put] returned, with the modification time
    cut to the whole second, and the listing of a directory the path
    lies one level under shows that object. *)
Theorem what_Put_returns_is_found_again root MD5 in_ src st o st' :
  RFC3339_range (ObjectInfo.ModTime src) ->
  VirtualFS.Put root MD5 in_ src st = (Ok o, st')
  \/ BackendVirtualfs.Put root in_ src st = (Ok o, st') ->
  hd false (dbFaults st') = false ->
  (VirtualFS.NewObject (ObjectInfo.Remote src) st').1
    = Ok (cut_to_the_second o)
  /\ forall dir, one_level_under dir (ObjectInfo.Remote src) ->
       exists entries, (VirtualFS.List dir st').1 = Ok entries
                       /\ Obj (cut_to_the_second o) ∈ entries.
Proof.
  intros _ H Hq.
  apply Put_Ok_row in H as (r & Hr & Hl & Hd & Hscan). split.
  - rewrite NewObject_eq. cbv zeta. rewrite Hq, Hr, Hl, Hd. cbn.
    rewrite <- Hscan. reflexivity.
  - intros dir Hunder.
    destruct (List_entries dir st' Hq) as (entries & HL & Hin).
    exists entries. rewrite HL. split; [reflexivity |].
    apply Hin. exists (ObjectInfo.Remote src), r.
    split; [exact Hr |]. split; [exact Hl |].
    split; [apply one_level_under_listed, Hunder |].
    unfold entry_of_row. rewrite Hd, Hscan. reflexivity.
Qed.

(** X18. The listing and the lookup agree.  Every object a successful
    [List] shows is what a lookup of its path (whose query runs) returns,
    and for every directory a listing shows, a lookup of its path answers
    that there is no such object. *)
Theorem what_List_shows_is_what_NewObject_finds dir st entries st1 e :
  VirtualFS.List dir st = (Ok entries, st1) ->
  e ∈ entries ->
  hd false (dbFaults st1) = false ->
  match e with
  | Obj o => (VirtualFS.NewObject (Object.remote o) st1).1 = Ok o
  | NewDir p _ => (VirtualFS.NewObject p st1).1 = Err ErrorObjectNotFound
  end.
Proof.
  rewrite List_eq. cbv zeta.
  destruct (hd false (dbFaults st)); [discriminate |].
  intros [= <- <-] He Hq.
  apply list_elem_of_In, in_list_entries in He as (p & r & Hin & _ & ->).
  apply filter_In in Hin as [Hin Hf].
  apply list_elem_of_In, elem_of_map_to_list in Hin.
  assert (Hl : col_deleted r = false).
  { cbn in Hf. destruct (decide (dir = ""));
      apply andb_true_iff in Hf as [_ Hf]; apply negb_true_iff in Hf;
      exact Hf. }
  unfold entry_of_row. destruct (col_is_dir r) eqn:Hd.
  - rewrite NewObject_eq. cbv zeta. cbn [files dbFaults set_dbFaults] in *.
    rewrite Hq, Hin, Hl, Hd. reflexivity.
  - cbn [scan Object.remote].
    rewrite NewObject_eq. cbv zeta. cbn [files dbFaults set_dbFaults] in *.
    rewrite Hq, Hin, Hl, Hd. reflexivity.
Qed.

(** X19. A modification time that is not a whole number of seconds is
    never settled: after a successful [Put] of such a candidate, a
    second [Put] of the same candidate (whose lookup runs) does not skip
    but goes through the write part again, since the time read back
    from the row is not the candidate's. *)
Theorem Put_of_a_subsecond_modTime_never_settles root MD5 in_ in2 src st o st1 :
  VirtualFS.Put root MD5 in_ src st = (Ok o, st1) ->
  ObjectInfo.ModTime src mod second <> 0 ->
  hd false (dbFaults st1) = false ->
  VirtualFS.Put root MD5 in2 src st1
  = VirtualFS.Put_write root MD5 in2 src (set_dbFaults (tl (dbFaults st1)) st1).
Proof.
  intros H Hsub Hq.
  assert (Hrow : exists content,
    files st1 !! ObjectInfo.Remote src
    = Some (row_of_content MD5 (ObjectInfo.ModTime src) content)).
  { rewrite VirtualFS_Put_eq in H. cbv zeta in H.
    destruct (hd false (dbFaults st)); [discriminate |].
    assert (Hw : forall st0,
      VirtualFS.Put_write root MD5 in_ src st0 = (Ok o, st1) ->
      exists content,
        files st1 !! ObjectInfo.Remote src
        = Some (row_of_content MD5 (ObjectInfo.ModTime src) content)).
    { intros st0 Hp.
      apply VirtualFS_Put_write_Ok in Hp as (content & _ & Hrow & _). eauto. }
    destruct (files st !! ObjectInfo.Remote src) as [r|] eqn:Hr; [| eauto].
    destruct (col_deleted r || col_is_dir r) eqn:Hflags; [eauto |].
    destruct (VirtualFS.Put_shouldUpdate src (scan (ObjectInfo.Remote src) r))
      eqn:Hsu; [eauto |].
    apply Put_shouldUpdate_false in Hsu as (_ & Hm & _).
    cbn in Hm. rewrite Hm, Parse_mod in Hsub. congruence. }
  destruct Hrow as [content Hrow].
  apply VirtualFS_Put_writes_on_difference with
    (r := row_of_content MD5 (ObjectInfo.ModTime src) content);
    try assumption; try reflexivity.
  right. left. cbn [row_of_content col_mod_time]. rewrite Parse_Format. lia.
Qed.


(** ** The variant under [backend/virtualfs], in general *)




(** ** Directory materialisation without failures *)




(** * Paths in clean form *)

Lemma has_slash_app a b : has_slash (a +:+ b) = has_slash a || has_slash b.
Proof.
  induction a as [|c a IH]; [reflexivity |].
  rewrite append_String. cbn [has_slash]. rewrite IH, orb_assoc. reflexivity.
Qed.

Lemma append_assoc (a b c : string) : (a +:+ b) +:+ c = a +:+ b +:+ c.
Proof.
  induction a as [|x a IH]; [reflexivity |].
  rewrite !append_String, IH. reflexivity.
Qed.

Lemma append_nil_r (a : string) : a +:+ "" = a.
Proof.
  induction a as [|x a IH]; [reflexivity |].
  rewrite append_String, IH. reflexivity.
Qed.

Lemma Split_no_slash x : has_slash x = false -> strings_Split x = [x].
Proof.
  induction x as [|c x IH]; [reflexivity |].
  cbn [has_slash strings_Split]. intros H.
  apply orb_false_elim in H as [-> H]. rewrite (IH H). reflexivity.
Qed.

Lemma Split_app_slash x s :
  has_slash x = false ->
  strings_Split (x +:+ "/" +:+ s) = x :: strings_Split s.
Proof.
  induction x as [|c x IH].
  - intros _. rewrite append_Empty, append_String, append_Empty. reflexivity.
  - cbn [has_slash]. intros H. apply orb_false_elim in H as [Hc H].
    rewrite append_String. cbn [strings_Split]. rewrite Hc, (IH H).
    reflexivity.
Qed.

Lemma Join_cons x l :
  l <> [] -> strings_Join (x :: l) = x +:+ "/" +:+ strings_Join l.
Proof. destruct l; [congruence | reflexivity]. Qed.

Lemma Join_snoc l x :
  l <> [] -> strings_Join (l ++ [x]) = strings_Join l +:+ "/" +:+ x.
Proof.
  induction l as [|y l IH]; [congruence |]. intros _.
  destruct l as [|z l].
  - reflexivity.
  - change ((y :: z :: l) ++ [x])%list with (y :: ((z :: l) ++ [x]))%list.
    rewrite Join_cons by discriminate. rewrite IH by discriminate.
    rewrite (Join_cons y (z :: l)) by discriminate.
    rewrite !append_assoc. reflexivity.
Qed.

Lemma Split_Join l :
  l <> [] -> Forall (fun e => has_slash e = false) l ->
  strings_Split (strings_Join l) = l.
Proof.
  induction l as [|x l IH]; [congruence |]. intros _ H.
  apply Forall_cons in H as [Hx Hl]. destruct l as [|y l].
  - apply Split_no_slash, Hx.
  - rewrite Join_cons by discriminate.
    rewrite Split_app_slash by exact Hx. rewrite IH; [reflexivity | discriminate | exact Hl].
Qed.

Lemma segment_no_slash l :
  Forall segment l -> Forall (fun e => has_slash e = false) l.
Proof.
  intros H. eapply Forall_impl; [exact H |].
  intros e (_ & _ & _ & He). exact He.
Qed.

Lemma clean_step_segment b stack e :
  segment e -> path.clean_step b stack e = e :: stack.
Proof.
  intros (H1 & H2 & H3 & _). unfold path.clean_step.
  rewrite !decide_False by assumption. reflexivity.
Qed.

Lemma fold_clean_segments b l : forall stack,
  Forall segment l ->
  fold_left (path.clean_step b) l stack = (rev l ++ stack)%list.
Proof.
  induction l as [|e l IH]; intros stack H; [reflexivity |].
  apply Forall_cons in H as [He Hl].
  cbn [fold_left rev]. rewrite clean_step_segment by exact He.
  rewrite IH by exact Hl. rewrite <- app_assoc. reflexivity.
Qed.

(** A clean relative path starts with a character that is no slash. *)
Lemma Join_segments_head l :
  l <> [] -> Forall segment l ->
  exists c s, strings_Join l = String c s /\ Ascii.eqb c "/" = false.
Proof.
  destruct l as [|e l]; [congruence |]. intros _ H.
  apply Forall_cons in H as [(He & _ & _ & Hs) _].
  destruct e as [|c e]; [congruence |].
  cbn [has_slash] in Hs. apply orb_false_elim in Hs as [Hc _].
  destruct l as [|y l].
  - exists c, e. auto.
  - rewrite Join_cons by discriminate. rewrite append_String. eauto.
Qed.

Lemma Join_segments_nonempty l :
  l <> [] -> Forall segment l -> strings_Join l <> "".
Proof.
  intros Hl H. destruct (Join_segments_head l Hl H) as (c & s & -> & _).
  discriminate.
Qed.

(** [path.Clean] leaves a clean relative path alone, and drops a slash
    at its end. *)
Lemma Clean_segments l suffix :
  l <> [] -> Forall segment l -> suffix = [] \/ suffix = [""] ->
  path.Clean (strings_Join (l ++ suffix)) = strings_Join l.
Proof.
  intros Hl H Hsuf.
  assert (Hne : (l ++ suffix)%list <> [])
    by (destruct l; [congruence | discriminate]).
  assert (Hslash : Forall (fun e => has_slash e = false) (l ++ suffix)).
  { apply Forall_app. split; [apply segment_no_slash, H |].
    destruct Hsuf as [-> | ->]; [constructor |].
    constructor; [reflexivity | constructor]. }
  assert (Hhead : exists c s, strings_Join (l ++ suffix) = String c s
                              /\ Ascii.eqb c "/" = false).
  { destruct Hsuf as [-> | ->].
    - rewrite app_nil_r. apply Join_segments_head; assumption.
    - rewrite Join_snoc by exact Hl.
      destruct (Join_segments_head l Hl H) as (c & s & -> & Hc).
      rewrite append_String. eauto. }
  destruct Hhead as (c & s & Hj & Hc).
  assert (Hfold : fold_left (path.clean_step false)
                    (strings_Split (strings_Join (l ++ suffix))) []
                  = rev l).
  { rewrite Split_Join by assumption. rewrite fold_left_app.
    rewrite (fold_clean_segments false l [] H), app_nil_r.
    destruct Hsuf as [-> | ->]; reflexivity. }
  unfold path.Clean. rewrite Hj. cbv beta iota zeta. rewrite Hc.
  cbv beta iota. rewrite <- Hj, Hfold, rev_involutive.
  rewrite decide_False by (apply Join_segments_nonempty; assumption).
  reflexivity.
Qed.

Lemma Clean_Join_segments l :
  l <> [] -> Forall segment l -> path.Clean (strings_Join l) = strings_Join l.
Proof.
  intros Hl H. rewrite <- (app_nil_r l) at 1.
  apply Clean_segments; auto.
Qed.

Lemma path_Split_no_slash x : has_slash x = false -> path.Split x = ("", x).
Proof.
  induction x as [|c x IH]; [reflexivity |].
  cbn [has_slash path.Split]. intros H.
  apply orb_false_elim in H as [-> H]. rewrite (IH H). reflexivity.
Qed.

Lemma path_Split_app a name :
  has_slash name = false ->
  path.Split (a +:+ "/" +:+ name) = (a +:+ "/", name).
Proof.
  intros Hn. induction a as [|c a IH].
  - rewrite !append_Empty, append_String, append_Empty. cbn [path.Split].
    rewrite (path_Split_no_slash _ Hn). reflexivity.
  - change (String c a +:+ "/" +:+ name)
      with (String c (a +:+ "/" +:+ name)).
    change (String c a +:+ "/") with (String c (a +:+ "/")).
    cbn [path.Split]. rewrite IH.
    destruct (Ascii.eqb c "/"); [reflexivity |].
    rewrite decide_False; [reflexivity |].
    destruct a; discriminate.
Qed.

(** [path.Dir] of a clean relative path. *)
Lemma Dir_segments segs name :
  segs <> [] -> Forall segment segs -> has_slash name = false ->
  path.Dir (strings_Join (segs ++ [name])) = strings_Join segs.
Proof.
  intros Hl H Hn. unfold path.Dir.
  rewrite Join_snoc by exact Hl. rewrite path_Split_app by exact Hn.
  cbn [fst].
  replace (strings_Join segs +:+ "/") with (strings_Join (segs ++ [""])).
  - apply Clean_segments; auto.
  - rewrite Join_snoc by exact Hl. reflexivity.
Qed.

Lemma Dir_top_level name : has_slash name = false -> path.Dir name = ".".
Proof.
  intros Hn. unfold path.Dir. rewrite path_Split_no_slash by exact Hn.
  reflexivity.
Qed.

Lemma join_buf_two a e :
  path.join_buf "" [a; e] = if decide (a = "") then e else a +:+ "/" +:+ e.
Proof.
  cbn [path.join_buf]. destruct (decide ("" = "")) as [_|H]; [| congruence].
  destruct (decide (a = "")); reflexivity.
Qed.

(** [path.Join] of a clean relative path, or of nothing, and one more
    name. *)
Lemma Join_segments cur e :
  Forall segment cur -> segment e ->
  path.Join [strings_Join cur; e] = strings_Join (cur ++ [e]).
Proof.
  intros Hcur He. unfold path.Join. rewrite join_buf_two.
  assert (Hall : Forall segment (cur ++ [e])%list).
  { apply Forall_app. split; [exact Hcur |].
    constructor; [exact He | constructor]. }
  assert (Hne : (cur ++ [e])%list <> []) by (destruct cur; discriminate).
  destruct cur as [|x cur].
  - cbn [strings_Join app].
    rewrite (decide_True (P := "" = "")) by reflexivity.
    destruct He as (He' & _). rewrite decide_False by exact He'.
    apply (Clean_Join_segments [e]); [discriminate | exact Hall].
  - rewrite (decide_False (P := strings_Join (x :: cur) = ""))
      by (apply Join_segments_nonempty; [discriminate | exact Hcur]).
    rewrite <- Join_snoc by discriminate.
    rewrite decide_False by (apply Join_segments_nonempty; assumption).
    apply Clean_Join_segments; assumption.
Qed.

(** * Directory materialisation on clean relative paths *)

Lemma insert_or_ignore_lookup k0 row (t : gmap string Row) k :
  insert_or_ignore k0 row t !! k
  = match t !! k with
    | Some r => Some r
    | None => if bool_decide (k = k0) then Some row else None
    end.
Proof.
  unfold insert_or_ignore. destruct (t !! k0) as [r0|] eqn:H0.
  - destruct (t !! k) as [r|] eqn:Hk; [reflexivity |].
    rewrite bool_decide_eq_false_2; [reflexivity | congruence].
  - destruct (decide (k = k0)) as [->|Hne].
    + rewrite lookup_insert_eq, H0, bool_decide_eq_true_2; reflexivity.
    + rewrite lookup_insert_ne by congruence.
      rewrite bool_decide_eq_false_2 by exact Hne.
      destruct (t !! k); reflexivity.
Qed.

Lemma fold_insert_or_ignore_lookup row keys : forall (t : gmap string Row) k,
  fold_left (fun t k => insert_or_ignore k row t) keys t !! k
  = match t !! k with
    | Some r => Some r
    | None => if bool_decide (k ∈ keys) then Some row else None
    end.
Proof.
  induction keys as [|k0 keys IH]; intros t k.
  - cbn [fold_left]. destruct (t !! k); [reflexivity |].
    rewrite bool_decide_eq_false_2; [reflexivity | apply not_elem_of_nil].
  - cbn [fold_left]. rewrite IH, insert_or_ignore_lookup.
    destruct (t !! k) as [r|]; [reflexivity |].
    destruct (decide (k = k0)) as [->|Hne].
    + rewrite !bool_decide_eq_true_2;
        [reflexivity | apply list_elem_of_here | reflexivity].
    + rewrite (bool_decide_eq_false_2 (k = k0)) by exact Hne.
      destruct (decide (k ∈ keys)) as [Hin|Hnin].
      * rewrite !bool_decide_eq_true_2;
          [reflexivity | apply list_elem_of_further, Hin | exact Hin].
      * rewrite !bool_decide_eq_false_2; [reflexivity | | exact Hnin].
        intros [?|?]%elem_of_cons; contradiction.
Qed.

Lemma VirtualFS_insert_dirs_segments segs : forall cur tx st tx' st',
  Forall segment cur -> Forall segment segs ->
  VirtualFS.insert_dirs segs (strings_Join cur) tx st = (Ok tx', st') ->
  tx' = fold_left (fun t k => insert_or_ignore k (dir_row (clock st)) t)
          (ancestors_from cur segs) tx.
Proof.
  induction segs as [|e segs IH]; intros cur tx st tx' st' Hcur Hsegs H.
  - injection H as <- _. reflexivity.
  - apply Forall_cons in Hsegs as [He Hsegs].
    cbn [VirtualFS.insert_dirs] in H.
    rewrite decide_False in H by apply He.
    rewrite Join_segments in H by assumption.
    apply bind_Ok_inv in H as (now & st0 & Hnow & H). injection Hnow as <- <-.
    apply bind_Ok_inv in H as (tx1 & st1 & H1 & H).
    apply wrap_Ok_inv in H1. rewrite tx_Exec_eq in H1. cbv zeta in H1.
    destruct (hd false (dbFaults st)); [discriminate |].
    injection H1 as <- <-.
    apply IH in H; [exact H | | exact Hsegs].
    apply Forall_app. split; [exact Hcur |]. constructor; [exact He | constructor].
Qed.

Lemma BackendVirtualfs_insert_dirs_segments segs : forall cur st st',
  Forall segment cur -> Forall segment segs ->
  BackendVirtualfs.insert_dirs segs (strings_Join cur) st = (Ok tt, st') ->
  files st'
  = fold_left (fun t k => insert_or_ignore k (dir_row (clock st)) t)
      (ancestors_from cur segs) (files st).
Proof.
  induction segs as [|e segs IH]; intros cur st st' Hcur Hsegs H.
  - injection H as <-. reflexivity.
  - apply Forall_cons in Hsegs as [He Hsegs].
    cbn [BackendVirtualfs.insert_dirs] in H.
    rewrite decide_False in H by apply He.
    change (filepath.Join [strings_Join cur; e])
      with (path.Join [strings_Join cur; e]) in H.
    rewrite Join_segments in H by assumption.
    apply bind_Ok_inv in H as (now & st0 & Hnow & H). injection Hnow as <- <-.
    apply bind_Ok_inv in H as (u1 & st1 & H1 & H).
    apply wrap_Ok_inv in H1. rewrite db_Exec_eq in H1. cbv zeta in H1.
    destruct (hd false (dbFaults st)); [discriminate |].
    injection H1 as _ <-.
    apply IH in H; [exact H | | exact Hsegs].
    apply Forall_app. split; [exact Hcur |]. constructor; [exact He | constructor].
Qed.

Lemma Join_dot : path.Join [""; "."] = ".".
Proof. reflexivity. Qed.

(** The parts [ensureDirectoryStructure] walks through, and where they
    lead. *)
Lemma parts_of_clean_path segs name :
  Forall segment segs -> has_slash name = false ->
  (segs = []
   /\ strings_Split (path.Dir (strings_Join (segs ++ [name]))) = ["."])
  \/ (segs <> []
      /\ strings_Split (path.Dir (strings_Join (segs ++ [name]))) = segs).
Proof.
  intros Hsegs Hn. destruct segs as [|e segs].
  - left. split; [reflexivity |]. cbn [app strings_Join].
    rewrite Dir_top_level by exact Hn. reflexivity.
  - right. split; [discriminate |].
    rewrite Dir_segments by (assumption || discriminate).
    apply Split_Join; [discriminate | apply segment_no_slash, Hsegs].
Qed.

Lemma ensureDirectoryStructure_segments segs name st st' :
  Forall segment segs -> has_slash name = false ->
  VirtualFS.ensureDirectoryStructure (strings_Join (segs ++ [name])) st
    = (Ok tt, st')
  \/ BackendVirtualfs.ensureDirectoryStructure (strings_Join (segs ++ [name])) st
     = (Ok tt, st') ->
  files st'
  = fold_left (fun t k => insert_or_ignore k (dir_row (clock st)) t)
      (ancestors segs) (files st).
Proof.
  intros Hsegs Hn [H|H].
  - unfold VirtualFS.ensureDirectoryStructure in H.
    apply bind_Ok_inv in H as (tx & st1 & H1 & H).
    apply wrap_Ok_inv in H1. rewrite tx_Begin_eq in H1. cbv zeta in H1.
    destruct (hd false (dbFaults st)); [discriminate |].
    injection H1 as <- <-.
    apply bind_Ok_inv in H as (tx' & st2 & H2 & H).
    apply wrap_Ok_inv in H. rewrite tx_Commit_eq in H. cbv zeta in H.
    destruct (hd false (dbFaults st2)); [discriminate |].
    injection H as <-. cbn [files set_files set_dbFaults].
    destruct (parts_of_clean_path segs name Hsegs Hn) as [[-> Hp]|[Hne Hp]];
      rewrite Hp in H2.
    + cbn [VirtualFS.insert_dirs] in H2.
      rewrite decide_False in H2 by discriminate. rewrite Join_dot in H2.
      apply bind_Ok_inv in H2 as (now & st0 & Hnow & H2).
      injection Hnow as <- <-.
      apply bind_Ok_inv in H2 as (tx1 & st3 & H3 & H2).
      apply wrap_Ok_inv in H3. rewrite tx_Exec_eq in H3. cbv zeta in H3.
      cbn [dbFaults set_dbFaults clock] in H3.
      destruct (hd false (tl (dbFaults st))); [discriminate |].
      injection H3 as <- <-. injection H2 as <- _. reflexivity.
    + apply (VirtualFS_insert_dirs_segments segs []) in H2;
        [| constructor | exact Hsegs].
      rewrite H2. destruct segs; [congruence | reflexivity].
  - unfold BackendVirtualfs.ensureDirectoryStructure in H.
    change (filepath.Dir (strings_Join (segs ++ [name])))
      with (path.Dir (strings_Join (segs ++ [name]))) in H.
    destruct (parts_of_clean_path segs name Hsegs Hn) as [[-> Hp]|[Hne Hp]];
      rewrite Hp in H.
    + cbn [BackendVirtualfs.insert_dirs] in H.
      rewrite decide_False in H by discriminate.
      change (filepath.Join [""; "."]) with (path.Join [""; "."]) in H.
      rewrite Join_dot in H.
      apply bind_Ok_inv in H as (now & st0 & Hnow & H).
      injection Hnow as <- <-.
      apply bind_Ok_inv in H as (u1 & st3 & H3 & H).
      apply wrap_Ok_inv in H3. rewrite db_Exec_eq in H3. cbv zeta in H3.
      destruct (hd false (dbFaults st)); [discriminate |].
      injection H3 as _ <-. injection H as <-. reflexivity.
    + apply (BackendVirtualfs_insert_dirs_segments segs []) in H;
        [| constructor | exact Hsegs].
      rewrite H. destruct segs; [congruence | reflexivity].
Qed.

(** X24. Directory materialisation on a clean relative path
    [e1/.../en/name].  When it succeeds, in either variant, the table is
    the table before with one directory row, stamped with the time of
    the call, at each of [e1], [e1/e2], ..., [e1/.../en] that had no
    row, or at [.] when the path lies at the top level; every row that
    was there is as it was, and no other row is made: none for the path
    itself. *)
Theorem ensureDirectoryStructure_records_the_ancestors segs name st st' :
  Forall segment segs -> has_slash name = false ->
  VirtualFS.ensureDirectoryStructure (strings_Join (segs ++ [name])) st
    = (Ok tt, st')
  \/ BackendVirtualfs.ensureDirectoryStructure (strings_Join (segs ++ [name])) st
     = (Ok tt, st') ->
  forall k,
    files st' !! k
    = match files st !! k with
      | Some r => Some r
      | None =>
          if bool_decide (k ∈ ancestors segs)
          then Some (dir_row (clock st)) else None
      end.
Proof.
  intros Hsegs Hn H k.
  rewrite (ensureDirectoryStructure_segments segs name st st' Hsegs Hn H).
  apply fold_insert_or_ignore_lookup.
Qed.

Lemma ancestors_from_elem segs : forall cur k,
  k ∈ ancestors_from cur segs ->
  exists pre rest, pre <> [] /\ segs = (pre ++ rest)%list
                   /\ k = strings_Join (cur ++ pre).
Proof.
  induction segs as [|e segs IH]; intros cur k Hk.
  - apply elem_of_nil in Hk. destruct Hk.
  - cbn [ancestors_from] in Hk. apply elem_of_cons in Hk as [->|Hk].
    + exists [e], segs. split; [discriminate |]. split; reflexivity.
    + apply IH in Hk as (pre & rest & _ & -> & ->).
      exists (e :: pre), rest. split; [discriminate |].
      split; [reflexivity |]. rewrite <- app_assoc. reflexivity.
Qed.

(** The path itself is none of the paths materialisation records. *)
Lemma not_an_ancestor segs name :
  Forall segment segs -> segment name ->
  strings_Join (segs ++ [name]) ∉ ancestors segs.
Proof.
  intros Hsegs Hn Hin. destruct segs as [|e segs].
  - apply list_elem_of_singleton in Hin. cbn in Hin.
    destruct Hn as (_ & Hn & _). congruence.
  - cbn [ancestors] in Hin.
    apply ancestors_from_elem in Hin as (pre & rest & Hpre & Hsplit & Heq).
    cbn [app] in Heq.
    assert (Hok : Forall (fun s => has_slash s = false)
                    ((e :: segs) ++ [name])%list).
    { apply Forall_app. split; [apply segment_no_slash, Hsegs |].
      constructor; [apply Hn | constructor]. }
    assert (Hokpre : Forall (fun s => has_slash s = false) pre).
    { apply segment_no_slash. rewrite Hsplit in Hsegs.
      apply Forall_app in Hsegs as [H _]. exact H. }
    apply (f_equal strings_Split) in Heq.
    rewrite Split_Join in Heq by (discriminate || exact Hok).
    rewrite Split_Join in Heq by assumption.
    assert (Hl : length (e :: segs) = (length pre + length rest)%nat)
      by (rewrite Hsplit, length_app; reflexivity).
    apply (f_equal length) in Heq. cbn [length app] in Heq, Hl.
    rewrite length_app in Heq. cbn [length] in Heq. lia.
Qed.

Lemma entry_remote_of_row p r : entry_remote (entry_of_row p r) = p.
Proof. unfold entry_of_row. destruct (col_is_dir r); reflexivity. Qed.

(** A path without a row is in no listing. *)
Lemma List_shows_rows_only dir st entries st1 e :
  VirtualFS.List dir st = (Ok entries, st1) -> e ∈ entries ->
  is_Some (files st !! entry_remote e).
Proof.
  rewrite List_eq. cbv zeta.
  destruct (hd false (dbFaults st)); [discriminate |].
  intros [= <- <-] He.
  apply list_elem_of_In, in_list_entries in He as (p & r & Hin & _ & ->).
  apply filter_In in Hin as [Hin _].
  apply list_elem_of_In, elem_of_map_to_list in Hin.
  rewrite entry_remote_of_row. eauto.
Qed.

(** X25. [Mkdir] of a clean relative path records the directories above
    it and not the directory itself.  After a successful [Mkdir] of
    [e1/.../en/name], in either variant, each of [e1], ..., [e1/.../en]
    (or [.] at the top level) has a row, and the path itself has the row
    it had before, if any: a directory that was not recorded before is
    in no listing afterwards. *)
Theorem Mkdir_records_the_ancestors_and_not_the_directory
  root segs name st st' :
  Forall segment segs -> segment name ->
  VirtualFS.Mkdir root (strings_Join (segs ++ [name])) st = (Ok tt, st')
  \/ BackendVirtualfs.Mkdir root (strings_Join (segs ++ [name])) st
     = (Ok tt, st') ->
  (forall k, k ∈ ancestors segs -> is_Some (files st' !! k))
  /\ files st' !! strings_Join (segs ++ [name])
     = files st !! strings_Join (segs ++ [name])
  /\ (files st !! strings_Join (segs ++ [name]) = None ->
      forall dir entries st2 e,
        VirtualFS.List dir st' = (Ok entries, st2) -> e ∈ entries ->
        entry_remote e <> strings_Join (segs ++ [name])).
Proof.
  intros Hsegs Hn H.
  assert (Hrows : forall k,
    files st' !! k
    = match files st !! k with
      | Some r => Some r
      | None =>
          if bool_decide (k ∈ ancestors segs)
          then Some (dir_row (clock st)) else None
      end).
  { assert (Hslash : has_slash name = false) by apply Hn.
    intros k. destruct H as [H|H].
    - unfold VirtualFS.Mkdir in H.
      apply bind_Ok_inv in H as (u1 & st1 & H1 & H).
      apply os_MkdirAll_inv in H1 as (Hf1 & _ & _ & Hc1 & _).
      rewrite (ensureDirectoryStructure_segments segs name st1 st' Hsegs Hslash
                 (or_introl H)).
      rewrite fold_insert_or_ignore_lookup, Hf1, Hc1. reflexivity.
    - unfold BackendVirtualfs.Mkdir in H.
      apply bind_Ok_inv in H as (u1 & st1 & H1 & H).
      apply os_MkdirAll_inv in H1 as (Hf1 & _ & _ & Hc1 & _).
      rewrite (ensureDirectoryStructure_segments segs name st1 st' Hsegs Hslash
                 (or_intror H)).
      rewrite fold_insert_or_ignore_lookup, Hf1, Hc1. reflexivity. }
  assert (Hself : files st' !! strings_Join (segs ++ [name])
                  = files st !! strings_Join (segs ++ [name])).
  { rewrite Hrows.
    destruct (files st !! strings_Join (segs ++ [name])); [reflexivity |].
    rewrite bool_decide_eq_false_2; [reflexivity |].
    apply not_an_ancestor; assumption. }
  split; [| split; [exact Hself |]].
  - intros k Hk. rewrite Hrows. destruct (files st !! k); [eauto |].
    rewrite bool_decide_eq_true_2 by exact Hk. eauto.
  - intros Hnone dir entries st2 e HL He Heq.
    apply (List_shows_rows_only _ _ _ _ _ HL) in He as [r Hr].
    rewrite Heq, Hself, Hnone in Hr. discriminate.
Qed.




(** * Where [Put] succeeds *)

Lemma Split_not_nil s : strings_Split s <> [].
Proof.
  destruct s as [|c s]; [discriminate |]. cbn [strings_Split].
  destruct (Ascii.eqb c "/"); [discriminate |].
  destruct (strings_Split s); discriminate.
Qed.

Lemma Split_app_slash_gen a b :
  strings_Split (a +:+ "/" +:+ b) = (strings_Split a ++ strings_Split b)%list.
Proof.
  induction a as [|c a IH].
  - rewrite append_Empty. reflexivity.
  - change (String c a +:+ "/" +:+ b) with (String c (a +:+ "/" +:+ b)).
    cbn [strings_Split]. rewrite IH.
    destruct (Ascii.eqb c "/"); [reflexivity |].
    pose proof (Split_not_nil a) as Ha.
    destruct (strings_Split a); [congruence | reflexivity].
Qed.

Lemma Split_slash_free s :
  Forall (fun e => has_slash e = false) (strings_Split s).
Proof.
  induction s as [|c s IH]; [repeat constructor |].
  cbn [strings_Split]. destruct (Ascii.eqb c "/") eqn:Hc.
  - constructor; [reflexivity | exact IH].
  - destruct (strings_Split s) as [|h t].
    + repeat constructor. cbn. rewrite Hc. reflexivity.
    + apply Forall_cons in IH as [Hh Ht].
      constructor; [| exact Ht]. cbn. rewrite Hc, Hh. reflexivity.
Qed.

Lemma root_segments_segments root :
  ".." ∉ strings_Split root -> Forall segment (root_segments root).
Proof.
  intros Hdd. unfold root_segments.
  pose proof (Split_slash_free root) as Hs.
  induction (strings_Split root) as [|e l IH]; [constructor |].
  apply Forall_cons in Hs as [He Hl].
  apply not_elem_of_cons in Hdd as [Hne Hdd].
  cbn [List.filter].
  destruct (decide (e = "")) as [->|H1]; [apply IH; assumption |].
  destruct (decide (e = ".")) as [->|H2]; [apply IH; assumption |].
  rewrite !bool_decide_eq_false_2 by assumption. cbn [negb andb].
  constructor; [| apply IH; assumption].
  repeat split; [assumption | assumption | congruence | assumption].
Qed.

Lemma fold_clean_root b l : forall stack,
  ".." ∉ l ->
  fold_left (path.clean_step b) l stack
  = (rev (List.filter
            (fun e => negb (bool_decide (e = "")) && negb (bool_decide (e = ".")))
            l) ++ stack)%list.
Proof.
  induction l as [|e l IH]; intros stack Hdd; [reflexivity |].
  apply not_elem_of_cons in Hdd as [Hne Hdd].
  cbn [fold_left List.filter]. rewrite IH by exact Hdd.
  unfold path.clean_step.
  destruct (decide (e = "")) as [->|H1]; [reflexivity |].
  destruct (decide (e = ".")) as [->|H2]; [reflexivity |].
  rewrite (decide_False (P := e = "..")) by congruence.
  rewrite !bool_decide_eq_false_2 by assumption. cbn [negb andb rev].
  rewrite <- app_assoc. reflexivity.
Qed.

(** [path.Clean] of a rooted path of clean names. *)
Lemma Clean_rooted_segments l suffix :
  Forall segment l -> suffix = [] \/ suffix = [""] ->
  path.Clean ("/" +:+ strings_Join (l ++ suffix)) = "/" +:+ strings_Join l.
Proof.
  intros H Hsuf. destruct l as [|x l].
  { destruct Hsuf as [-> | ->]; reflexivity. }
  assert (Hne : ((x :: l) ++ suffix)%list <> []) by discriminate.
  assert (Hslash : Forall (fun e => has_slash e = false) ((x :: l) ++ suffix)).
  { apply Forall_app. split; [apply segment_no_slash, H |].
    destruct Hsuf as [-> | ->]; [constructor |].
    constructor; [reflexivity | constructor]. }
  rewrite append_String, append_Empty. unfold path.Clean.
  cbv beta iota zeta.
  change (Ascii.eqb "/" "/") with true. cbv beta iota.
  cbn [strings_Split]. change (Ascii.eqb "/" "/") with true. cbv beta iota.
  rewrite Split_Join by assumption.
  cbn [fold_left]. change (path.clean_step true [] "") with (@nil string).
  rewrite fold_left_app, (fold_clean_segments true (x :: l) [] H), app_nil_r.
  destruct Hsuf as [-> | ->]; cbn [fold_left];
    [| change (path.clean_step true (rev (x :: l)) "") with (rev (x :: l))];
    rewrite rev_involutive; reflexivity.
Qed.

(** The content path of a clean relative path under a root without
    [..]. *)
Lemma fullPath_form root segs name :
  root <> "" -> ".." ∉ strings_Split root ->
  Forall segment segs -> segment name ->
  VirtualFS.fullPath root (strings_Join (segs ++ [name]))
  = root_prefix root
    +:+ strings_Join ((root_segments root ++ segs) ++ [name]).
Proof.
  intros Hroot Hdd Hsegs Hn.
  assert (Hall : Forall segment (segs ++ [name])%list).
  { apply Forall_app. split; [exact Hsegs |].
    constructor; [exact Hn | constructor]. }
  assert (Hne : (segs ++ [name])%list <> []) by (destruct segs; discriminate).
  pose proof (root_segments_segments root Hdd) as Hrs.
  assert (Hfull : Forall segment ((root_segments root ++ segs) ++ [name])%list).
  { rewrite <- app_assoc. apply Forall_app. split; assumption. }
  assert (Hfne : ((root_segments root ++ segs) ++ [name])%list <> [])
    by (destruct (root_segments root ++ segs)%list; discriminate).
  unfold VirtualFS.fullPath, path.Join. rewrite join_buf_two.
  rewrite (decide_False (P := root = "")) by exact Hroot.
  destruct root as [|c root]; [congruence |].
  change (String c root +:+ "/" +:+ strings_Join (segs ++ [name]))
    with (String c (root +:+ "/" +:+ strings_Join (segs ++ [name]))).
  rewrite decide_False by discriminate.
  unfold path.Clean. cbv beta iota zeta.
  change (String c (root +:+ "/" +:+ strings_Join (segs ++ [name])))
    with (String c root +:+ "/" +:+ strings_Join (segs ++ [name])).
  rewrite Split_app_slash_gen.
  rewrite (Split_Join (segs ++ [name]))
    by (exact Hne || apply segment_no_slash, Hall).
  rewrite fold_left_app.
  rewrite (fold_clean_root _ (strings_Split (String c root)) [] Hdd).
  rewrite fold_clean_segments by exact Hall.
  rewrite app_nil_r, <- rev_app_distr, rev_involutive.
  fold (root_segments (String c root)). rewrite app_assoc.
  cbn [root_prefix]. destruct (Ascii.eqb c "/"); [reflexivity |].
  rewrite decide_False by (apply Join_segments_nonempty; assumption).
  reflexivity.
Qed.

(** Its directory. *)
Lemma Dir_form pre L name :
  pre = "" \/ pre = "/" -> Forall segment L -> has_slash name = false ->
  path.Dir (pre +:+ strings_Join (L ++ [name]))
  = match L with
    | [] => if decide (pre = "") then "." else "/"
    | _ :: _ => pre +:+ strings_Join L
    end.
Proof.
  intros Hpre HL Hn. unfold path.Dir. destruct L as [|x L].
  - cbn [app strings_Join]. destruct Hpre as [-> | ->].
    + rewrite append_Empty, path_Split_no_slash by exact Hn. reflexivity.
    + rewrite append_String, append_Empty. cbn [path.Split].
      rewrite path_Split_no_slash by exact Hn. reflexivity.
  - rewrite Join_snoc by discriminate. rewrite <- append_assoc.
    rewrite path_Split_app by exact Hn. cbn [fst].
    rewrite append_assoc.
    replace (strings_Join (x :: L) +:+ "/")
      with (strings_Join ((x :: L) ++ [""]))
      by (rewrite Join_snoc by discriminate; reflexivity).
    destruct Hpre as [-> | ->].
    + rewrite !append_Empty. apply Clean_segments; [discriminate | | ]; auto.
    + apply Clean_rooted_segments; auto.
Qed.

Lemma append_slash_not_trivial a e : a <> "" -> a +:+ "/" +:+ e <> "/".
Proof.
  destruct a as [|c a]; [congruence |]. intros _.
  rewrite append_String. intros [= _ H]. destruct a; discriminate.
Qed.

Lemma chain_from_segments L : forall cur,
  cur <> [] -> Forall segment cur -> Forall segment L ->
  os.chain_from (strings_Join cur) L = ancestors_from cur L.
Proof.
  induction L as [|e L IH]; intros cur Hne Hcur HL; [reflexivity |].
  apply Forall_cons in HL as [He HL].
  cbn [os.chain_from ancestors_from].
  destruct He as (H1 & H2 & H3 & H4).
  rewrite (decide_False (P := e = "")) by exact H1.
  rewrite (decide_False (P := e = ".")) by exact H2.
  rewrite (decide_False (P := strings_Join cur = ""))
    by (apply Join_segments_nonempty; assumption).
  assert (Hnr : strings_Join cur <> "/").
  { destruct (Join_segments_head cur Hne Hcur) as (c & s & -> & Hc).
    intros [= -> _]. discriminate. }
  rewrite (decide_False (P := strings_Join cur = "/")) by exact Hnr.
  rewrite <- Join_snoc by exact Hne.
  f_equal. apply IH; [destruct cur; discriminate | | exact HL].
  apply Forall_app. split; [exact Hcur |].
  constructor; [repeat split; assumption | constructor].
Qed.

Lemma chain_from_rooted L : forall cur,
  cur <> [] -> Forall segment cur -> Forall segment L ->
  os.chain_from ("/" +:+ strings_Join cur) L
  = map (fun s => "/" +:+ s) (ancestors_from cur L).
Proof.
  induction L as [|e L IH]; intros cur Hne Hcur HL; [reflexivity |].
  apply Forall_cons in HL as [He HL].
  cbn [os.chain_from ancestors_from map].
  destruct He as (H1 & H2 & H3 & H4).
  rewrite (decide_False (P := e = "")) by exact H1.
  rewrite (decide_False (P := e = ".")) by exact H2.
  rewrite (decide_False (P := "/" +:+ strings_Join cur = ""))
    by (rewrite append_String; discriminate).
  assert (Hnr : "/" +:+ strings_Join cur <> "/").
  { rewrite append_String, append_Empty. intros [= H].
    revert H. apply Join_segments_nonempty; assumption. }
  rewrite (decide_False (P := "/" +:+ strings_Join cur = "/")) by exact Hnr.
  rewrite append_assoc, <- Join_snoc by exact Hne.
  f_equal. apply IH; [destruct cur; discriminate | | exact HL].
  apply Forall_app. split; [exact Hcur |].
  constructor; [repeat split; assumption | constructor].
Qed.

(** The directories [os.MkdirAll] goes through on the way to a clean
    path. *)
Lemma chain_form pre L :
  pre = "" \/ pre = "/" -> L <> [] -> Forall segment L ->
  os.chain (pre +:+ strings_Join L)
  = map (fun s => pre +:+ s) (ancestors_from [] L).
Proof.
  intros Hpre Hne HL. destruct L as [|e L]; [congruence |].
  pose proof HL as HL'. apply Forall_cons in HL' as [He HL'].
  assert (He1 : Forall segment [e]) by (constructor; [exact He | constructor]).
  pose proof He as (H1 & H2 & H3 & H4).
  destruct Hpre as [-> | ->].
  - rewrite append_Empty.
    destruct (Join_segments_head (e :: L) Hne HL) as (c & s & Hj & Hc).
    unfold os.chain. rewrite Hj, Hc, <- Hj.
    rewrite Split_Join by (exact Hne || apply segment_no_slash, HL).
    cbn [os.chain_from ancestors_from app].
    rewrite (decide_False (P := e = "")) by exact H1.
    rewrite (decide_False (P := e = ".")) by exact H2.
    rewrite (decide_True (P := "" = "")) by reflexivity.
    cbn [map]. rewrite append_Empty.
    change e with (strings_Join [e]) at 2.
    rewrite (chain_from_segments L [e]) by (discriminate || assumption).
    f_equal. induction (ancestors_from [e] L) as [|a l IH]; [reflexivity |].
    cbn [map]. rewrite append_Empty, <- IH. reflexivity.
  - rewrite append_String, append_Empty. unfold os.chain.
    change (Ascii.eqb "/" "/") with true. cbv beta iota.
    cbn [strings_Split]. change (Ascii.eqb "/" "/") with true. cbv beta iota.
    rewrite Split_Join by (exact Hne || apply segment_no_slash, HL).
    cbn [os.chain_from ancestors_from app map].
    rewrite (decide_True (P := "" = "")) by reflexivity.
    rewrite (decide_False (P := e = "")) by exact H1.
    rewrite (decide_False (P := e = ".")) by exact H2.
    rewrite (decide_False (P := "/" = "")) by discriminate.
    rewrite (decide_True (P := "/" = "/")) by reflexivity.
    change ("/" +:+ e) with ("/" +:+ strings_Join [e]).
    rewrite (chain_from_rooted L [e]) by (discriminate || assumption).
    reflexivity.
Qed.

Lemma ancestors_from_last L : forall cur,
  L <> [] -> strings_Join (cur ++ L) ∈ ancestors_from cur L.
Proof.
  induction L as [|e L IH]; intros cur Hne; [congruence |].
  cbn [ancestors_from]. destruct L as [|e' L].
  - apply list_elem_of_here.
  - apply list_elem_of_further.
    replace (cur ++ e :: e' :: L)%list with ((cur ++ [e]) ++ e' :: L)%list
      by (rewrite <- app_assoc; reflexivity).
    apply IH. discriminate.
Qed.


(** ** The steps of [Put] in an environment without failures *)


Lemma mkdir_each_Ok_dirs ps : forall st u st',
  os.mkdir_each ps st = (Ok u, st') ->
  (forall q, q ∈ ps -> disk st' !! q = Some Directory)
  /\ (forall q, disk st' !! q = Some Directory ->
                disk st !! q = Some Directory \/ q ∈ ps).
Proof.
  induction ps as [|p ps IH]; intros st u st' H.
  - injection H as _ <-. split; [| auto].
    intros q Hq. apply elem_of_nil in Hq. destruct Hq.
  - cbn [os.mkdir_each] in H. rewrite bind_unfold in H. cbn [get_disk] in H.
    destruct (disk st !! p) as [[c|]|] eqn:Hp; [discriminate | |].
    + pose proof (os_mkdir_each_disk _ _ _ _ H) as [Hkeep _].
      apply IH in H as [H1 H2]. split.
      * intros q [->|Hq]%elem_of_cons; [| auto].
        apply Hkeep; [apply not_elem_of_nil | exact Hp].
      * intros q Hq. destruct (H2 q Hq) as [?|?]; [auto |].
        right. apply list_elem_of_further. assumption.
    + rewrite bind_unfold in H. cbn [put_disk] in H.
      pose proof (os_mkdir_each_disk _ _ _ _ H) as [Hkeep _].
      apply IH in H as [H1 H2]. cbn [disk set_disk] in *. split.
      * intros q [->|Hq]%elem_of_cons; [| auto].
        apply Hkeep; [apply not_elem_of_nil | apply lookup_insert_eq].
      * intros q Hq. destruct (H2 q Hq) as [Hd|?].
        -- destruct (decide (p = q)) as [->|Hne].
           ++ right. apply list_elem_of_here.
           ++ rewrite lookup_insert_ne in Hd by exact Hne. auto.
        -- right. apply list_elem_of_further. assumption.
Qed.









Lemma root_prefix_cases root : root_prefix root = "" \/ root_prefix root = "/".
Proof.
  destruct root as [|c root]; [auto |]. cbn [root_prefix].
  destruct (Ascii.eqb c "/"); auto.
Qed.



(** ** [NewFs] *)

Lemma chain_from_skip l : forall acc,
  os.chain_from acc l
  = os.chain_from acc
      (List.filter
         (fun e => negb (bool_decide (e = "")) && negb (bool_decide (e = ".")))
         l).
Proof.
  induction l as [|e l IH]; intros acc; [reflexivity |].
  cbn [os.chain_from List.filter].
  destruct (decide (e = "")) as [->|H1]; [apply IH |].
  destruct (decide (e = ".")) as [->|H2]; [apply IH |].
  rewrite !bool_decide_eq_false_2 by assumption. cbn [negb andb os.chain_from].
  rewrite (decide_False (P := e = "")) by exact H1.
  rewrite (decide_False (P := e = ".")) by exact H2.
  f_equal. apply IH.
Qed.

Lemma chain_from_start pre L :
  pre = "" \/ pre = "/" -> Forall segment L ->
  os.chain_from pre L = map (fun s => pre +:+ s) (ancestors_from [] L).
Proof.
  intros Hpre HL. destruct L as [|e L]; [reflexivity |].
  pose proof HL as HL'. apply Forall_cons in HL' as [He HL'].
  assert (He1 : Forall segment [e]) by (constructor; [exact He | constructor]).
  pose proof He as (H1 & H2 & H3 & H4).
  cbn [os.chain_from ancestors_from app map].
  rewrite (decide_False (P := e = "")) by exact H1.
  rewrite (decide_False (P := e = ".")) by exact H2.
  destruct Hpre as [-> | ->].
  - rewrite (decide_True (P := "" = "")) by reflexivity.
    rewrite append_Empty.
    change e with (strings_Join [e]) at 2.
    rewrite (chain_from_segments L [e]) by (discriminate || assumption).
    f_equal. induction (ancestors_from [e] L) as [|a l IH]; [reflexivity |].
    cbn [map]. rewrite append_Empty, <- IH. reflexivity.
  - rewrite (decide_False (P := "/" = "")) by discriminate.
    rewrite (decide_True (P := "/" = "/")) by reflexivity.
    change ("/" +:+ e) with ("/" +:+ strings_Join [e]).
    rewrite (chain_from_rooted L [e]) by (discriminate || assumption).
    reflexivity.
Qed.

Lemma chain_root root :
  root <> "" -> ".." ∉ strings_Split root ->
  os.chain root
  = map (fun s => root_prefix root +:+ s)
      (ancestors_from [] (root_segments root)).
Proof.
  intros Hroot Hdd. destruct root as [|c root]; [congruence |].
  unfold os.chain. rewrite chain_from_skip.
  fold (root_segments (String c root)).
  apply (chain_from_start (root_prefix (String c root))).
  - apply root_prefix_cases.
  - apply root_segments_segments, Hdd.
Qed.

(** X28. [NewFs] prepares the ground for files at the top level.  For a
    root directory that is not empty and has no [..] in it, a successful
    [NewFs] (the same in both variants) leaves the table as it was, and
    afterwards the directory of the content file of every top-level name
    exists, with all directories on the way down to it. *)
Theorem NewFs_makes_the_directory_of_top_level_files root st st' name :
  root <> "" -> ".." ∉ strings_Split root -> segment name ->
  VirtualFS.NewFs root st = (Ok tt, st') ->
  BackendVirtualfs.NewFs root st = (Ok tt, st')
  /\ files st' = files st
  /\ os.is_directory (disk st') (path.Dir (VirtualFS.fullPath root name)) = true
  /\ forall q, q ∈ os.chain (path.Dir (VirtualFS.fullPath root name)) ->
               disk st' !! q = Some Directory.
Proof.
  intros Hroot Hdd Hn H. split; [exact H |].
  unfold VirtualFS.NewFs in H.
  apply bind_Ok_inv in H as (u1 & st1 & H1 & H).
  apply wrap_Ok_inv in H1.
  pose proof (os_MkdirAll_inv _ _ _ _ H1) as (Hf1 & _).
  apply mkdir_each_Ok_dirs in H1 as [Hdirs _].
  apply wrap_Ok_inv in H. unfold VirtualFS.createTables in H.
  apply db_Exec_inv in H as (Hd & _ & _ & _ & [(? & _)|(_ & _ & Hf)]);
    [discriminate |].
  split; [congruence |].
  rewrite chain_root in Hdirs by assumption.
  pose proof (root_segments_segments root Hdd) as Hrs.
  pose proof (fullPath_form root [] name Hroot Hdd
                (List.Forall_nil segment) Hn) as Hp.
  cbn [app strings_Join] in Hp. rewrite app_nil_r in Hp. rewrite Hp.
  rewrite Dir_form by (apply root_prefix_cases || assumption || apply Hn).
  destruct (root_segments root) as [|x L] eqn:HL.
  - split.
    + destruct (root_prefix_cases root) as [-> | ->]; reflexivity.
    + intros q Hq.
      destruct (root_prefix_cases root) as [E | E]; rewrite E in Hq;
        apply elem_of_nil in Hq; destruct Hq.
  - rewrite chain_form by (apply root_prefix_cases || discriminate || exact Hrs).
    rewrite Hd. split.
    + unfold os.is_directory. rewrite Hdirs; [apply orb_true_r |].
      apply list_elem_of_fmap.
      exists (strings_Join (x :: L)). split; [reflexivity |].
      apply (ancestors_from_last (x :: L) []). discriminate.
    + exact Hdirs.
Qed.

(** * Witnesses of the further properties *)

Lemma segment_a : segment "a".
Proof. repeat split; discriminate. Qed.

Lemma segment_b : segment "b".
Proof. repeat split; discriminate. Qed.


Lemma segment_x_txt : segment "x.txt".
Proof. repeat split; discriminate. Qed.

Lemma segments_a_b : Forall segment ["a"; "b"].
Proof. repeat constructor; discriminate. Qed.


Lemma Remove_fails_where_the_directory_is_gone_witness :
  (disk state_ingested !! VirtualFS.fullPath root0 "sub/x.txt" = None
   /\ os.chain (path.Dir (VirtualFS.fullPath root0 "sub/x.txt"))
      = ["virtualfs_data"; "virtualfs_data/sub"]
   /\ disk state_ingested !! "virtualfs_data" = Some Directory
   /\ disk state_ingested !! "virtualfs_data/sub" = None)
  /\ exists n,
       VirtualFS.Remove root0 object_sub_x state_ingested
       = (Err (Wrapped "failed to create delete placeholder"
                 (PathError "open" n)), state_ingested).
Proof.
  split; [repeat split; vm_compute; reflexivity |].
  apply (Remove_fails_where_the_directory_is_gone root0 object_sub_x
           state_ingested).
  - vm_compute. reflexivity.
  - intros q c Hq Hd. apply list_elem_of_In in Hq. vm_compute in Hq.
    destruct Hq as [<-|[<-|[]]]; vm_compute in Hd; discriminate.
  - vm_compute. reflexivity.
Defined.

Lemma BackendVirtualfs_Remove_leaves_tombstone_witness :
  files state_stored !! "x.txt" = Some row_x
  /\ (BackendVirtualfs.Remove root0 object_x state_stored).1 = Ok tt
  /\ files (BackendVirtualfs.Remove root0 object_x state_stored).2
     = <["x.txt" := tombstone_of (clock state_stored) row_x]>
         (files state_stored)
  /\ disk (BackendVirtualfs.Remove root0 object_x state_stored).2
       !! BackendVirtualfs.fullPath root0 ("x.txt" +:+ ".delete")
     = Some (File [])
  /\ (hd false (dbFaults (BackendVirtualfs.Remove root0 object_x state_stored).2)
      = false ->
      (BackendVirtualfs.NewObject "x.txt"
         (BackendVirtualfs.Remove root0 object_x state_stored).2).1
      = Err ErrorObjectNotFound).
Proof.
  split; [reflexivity |]. split; [vm_compute; reflexivity |].
  apply (BackendVirtualfs_Remove_leaves_tombstone root0 object_x state_stored
           (BackendVirtualfs.Remove root0 object_x state_stored).2 row_x).
  - reflexivity.
  - vm_compute. reflexivity.
Defined.



Lemma what_Put_returns_is_found_again_witness :
  (RFC3339_range (ObjectInfo.ModTime src_x_tagged)
   /\ one_level_under "" "x.txt")
  /\ ((VirtualFS.Put root0 tagged_digest reader_hello src_x_tagged
         state_empty).1
        = Ok (object_of_content tagged_digest "x.txt" (7 * second) hello)
      /\ (VirtualFS.NewObject "x.txt"
            (VirtualFS.Put root0 tagged_digest reader_hello src_x_tagged
               state_empty).2).1
         = Ok (cut_to_the_second
                 (object_of_content tagged_digest "x.txt" (7 * second) hello))
      /\ exists entries,
           (VirtualFS.List ""
              (VirtualFS.Put root0 tagged_digest reader_hello src_x_tagged
                 state_empty).2).1 = Ok entries
           /\ Obj (cut_to_the_second
                     (object_of_content tagged_digest "x.txt" (7 * second)
                        hello))
              ∈ entries)
  /\ ((BackendVirtualfs.Put root0 reader_hello src_x_tagged state_empty).1
        = Ok (object_of_content tagged_digest "x.txt" (7 * second) hello)
      /\ (VirtualFS.NewObject "x.txt"
            (BackendVirtualfs.Put root0 reader_hello src_x_tagged
               state_empty).2).1
         = Ok (cut_to_the_second
                 (object_of_content tagged_digest "x.txt" (7 * second) hello))
      /\ exists entries,
           (VirtualFS.List ""
              (BackendVirtualfs.Put root0 reader_hello src_x_tagged
                 state_empty).2).1 = Ok entries
           /\ Obj (cut_to_the_second
                     (object_of_content tagged_digest "x.txt" (7 * second)
                        hello))
              ∈ entries).
Proof.
  assert (Hrange : RFC3339_range (ObjectInfo.ModTime src_x_tagged)).
  { vm_compute. split; [discriminate | reflexivity]. }
  assert (Hunder : one_level_under "" "x.txt") by reflexivity.
  split; [split; [exact Hrange | exact Hunder] |].
  split.
  - split; [vm_compute; reflexivity |].
    destruct (what_Put_returns_is_found_again root0 tagged_digest reader_hello
                src_x_tagged state_empty
                (object_of_content tagged_digest "x.txt" (7 * second) hello)
                (VirtualFS.Put root0 tagged_digest reader_hello src_x_tagged
                   state_empty).2 Hrange) as [Hnew Hlist].
    + left. vm_compute. reflexivity.
    + vm_compute. reflexivity.
    + split; [exact Hnew | exact (Hlist "" Hunder)].
  - split; [vm_compute; reflexivity |].
    destruct (what_Put_returns_is_found_again root0 tagged_digest reader_hello
                src_x_tagged state_empty
                (object_of_content tagged_digest "x.txt" (7 * second) hello)
                (BackendVirtualfs.Put root0 reader_hello src_x_tagged
                   state_empty).2 Hrange) as [Hnew Hlist].
    + right. vm_compute. reflexivity.
    + vm_compute. reflexivity.
    + split; [exact Hnew | exact (Hlist "" Hunder)].
Defined.

Lemma what_List_shows_is_what_NewObject_finds_witness :
  VirtualFS.List "" state_ingested
    = (Ok entries_ingested, (VirtualFS.List "" state_ingested).2)
  /\ Obj object_x ∈ entries_ingested
  /\ (VirtualFS.NewObject "x.txt" (VirtualFS.List "" state_ingested).2).1
     = Ok object_x.
Proof.
  assert (HL : VirtualFS.List "" state_ingested
               = (Ok entries_ingested, (VirtualFS.List "" state_ingested).2))
    by (vm_compute; reflexivity).
  assert (Hin : Obj object_x ∈ entries_ingested)
    by (apply list_elem_of_further, list_elem_of_here).
  split; [exact HL |]. split; [exact Hin |].
  apply (what_List_shows_is_what_NewObject_finds "" state_ingested
           entries_ingested (VirtualFS.List "" state_ingested).2
           (Obj object_x) HL Hin).
  vm_compute. reflexivity.
Defined.

Lemma Put_of_a_subsecond_modTime_never_settles_witness :
  (VirtualFS.Put root0 tagged_digest reader_hello src_x_subsecond
     state_empty).1
    = Ok (object_of_content tagged_digest "x.txt" (7 * second + 500000000)
            hello)
  /\ ObjectInfo.ModTime src_x_subsecond mod second <> 0
  /\ VirtualFS.Put root0 tagged_digest reader_hello src_x_subsecond
       (VirtualFS.Put root0 tagged_digest reader_hello src_x_subsecond
          state_empty).2
     = VirtualFS.Put_write root0 tagged_digest reader_hello src_x_subsecond
         (set_dbFaults
            (tl (dbFaults
                   (VirtualFS.Put root0 tagged_digest reader_hello
                      src_x_subsecond state_empty).2))
            (VirtualFS.Put root0 tagged_digest reader_hello src_x_subsecond
               state_empty).2).
Proof.
  assert (Hsub : ObjectInfo.ModTime src_x_subsecond mod second <> 0)
    by (vm_compute; discriminate).
  split; [vm_compute; reflexivity |]. split; [exact Hsub |].
  apply (Put_of_a_subsecond_modTime_never_settles root0 tagged_digest
           reader_hello reader_hello src_x_subsecond state_empty
           (object_of_content tagged_digest "x.txt" (7 * second + 500000000)
              hello)
           (VirtualFS.Put root0 tagged_digest reader_hello src_x_subsecond
              state_empty).2).
  - vm_compute. reflexivity.
  - exact Hsub.
  - vm_compute. reflexivity.
Defined.





Lemma ensureDirectoryStructure_records_the_ancestors_witness :
  Forall segment ["a"; "b"]
  /\ (VirtualFS.ensureDirectoryStructure "a/b/c.txt" state_empty).1 = Ok tt
  /\ forall k,
       files (VirtualFS.ensureDirectoryStructure "a/b/c.txt" state_empty).2 !! k
       = match files state_empty !! k with
         | Some r => Some r
         | None =>
             if bool_decide (k ∈ ancestors ["a"; "b"])
             then Some (dir_row (clock state_empty)) else None
         end.
Proof.
  split; [exact segments_a_b |]. split; [vm_compute; reflexivity |].
  apply (ensureDirectoryStructure_records_the_ancestors ["a"; "b"] "c.txt"
           state_empty
           (VirtualFS.ensureDirectoryStructure "a/b/c.txt" state_empty).2
           segments_a_b).
  - reflexivity.
  - left. vm_compute. reflexivity.
Defined.

Lemma Mkdir_records_the_ancestors_and_not_the_directory_witness :
  (VirtualFS.Mkdir root0 "a/b" state_empty).1 = Ok tt
  /\ (forall k, k ∈ ancestors ["a"] ->
        is_Some (files (VirtualFS.Mkdir root0 "a/b" state_empty).2 !! k))
  /\ files (VirtualFS.Mkdir root0 "a/b" state_empty).2 !! "a/b"
     = files state_empty !! "a/b"
  /\ (files state_empty !! "a/b" = None ->
      forall dir entries st2 e,
        VirtualFS.List dir (VirtualFS.Mkdir root0 "a/b" state_empty).2
          = (Ok entries, st2) ->
        e ∈ entries -> entry_remote e <> "a/b").
Proof.
  split; [vm_compute; reflexivity |].
  apply (Mkdir_records_the_ancestors_and_not_the_directory root0 ["a"] "b"
           state_empty (VirtualFS.Mkdir root0 "a/b" state_empty).2).
  - constructor; [exact segment_a | constructor].
  - exact segment_b.
  - left. vm_compute. reflexivity.
Defined.




Lemma NewFs_makes_the_directory_of_top_level_files_witness :
  (VirtualFS.NewFs root0 state_nothing).1 = Ok tt
  /\ BackendVirtualfs.NewFs root0 state_nothing
     = (Ok tt, (VirtualFS.NewFs root0 state_nothing).2)
  /\ files (VirtualFS.NewFs root0 state_nothing).2 = files state_nothing
  /\ os.is_directory (disk (VirtualFS.NewFs root0 state_nothing).2)
       (path.Dir (VirtualFS.fullPath root0 "x.txt")) = true
  /\ forall q, q ∈ os.chain (path.Dir (VirtualFS.fullPath root0 "x.txt")) ->
               disk (VirtualFS.NewFs root0 state_nothing).2 !! q
               = Some Directory.
Proof.
  split; [vm_compute; reflexivity |].
  apply (NewFs_makes_the_directory_of_top_level_files root0 state_nothing
           (VirtualFS.NewFs root0 state_nothing).2 "x.txt").
  - discriminate.
  - apply (bool_decide_unpack _). vm_compute. exact I.
  - exact segment_x_txt.
  - vm_compute. reflexivity.
Defined.
